(** * RAGDuplicate: the duplicate-detection pipeline, its Dify client,
      the document handler and the HTTP facade, embedded in Rocq.

    Sources embedded here:
    - [backend/core/duplicate.py]            ([duplicate])
    - [backend/dify_wrapper/dify_client.py]  ([DifyAPIClient])
    - [backend/utils/document_handler.py]    ([DocumentHandler.read], [write], ...)
    - [backend/services/duplicate_service.py] and [backend/api/api.py]

    Conventions of the embedding:
    - a Python [str] is the list of its Unicode code points ([list N]);
      [bytes] are [list byte]; literals of the (utf-8 coded) sources are
      written [u "..."];
    - a JSON / Python value is a [pyval]; a [dict] is an insertion-ordered
      association list with unique keys;
    - statements that raise return [Raise e]; code that touches the disk
      or the network threads a [world] through the monad [M];
    - what the Python runtime and third-party libraries compute
      (json, repr, os.path, tempfile, the clock, the remote server,
      python-docx, pandas) is a field of the record [Platform];
    - a file is named by one path string, and directories are not
      tracked; [assert] statements are on; the limits of the machine
      (memory, recursion depth) are out of the picture; a request to an
      endpoint is followed on its own. *)

From Stdlib Require Import ZArith NArith Ascii String.
From Stdlib.Strings Require Import Byte.
From stdpp Require Import gmap list.

Local Open Scope Z_scope.
Local Open Scope list_scope.

(** ** Text: code points, utf-8 *)

Abbreviation str := (list N) (only parsing).
Abbreviation bytes := (list byte) (only parsing).

#[global] Instance byte_eq_decision : EqDecision byte := Byte.byte_eq_dec.

Definition is_cont (b : N) : bool := ((128 <=? b) && (b <=? 191))%N.

(** [bytes.decode('utf-8')] (strict): [None] stands for UnicodeDecodeError.
    Overlong forms, surrogates and values above U+10FFFF are refused. *)
Fixpoint utf8_decode_N (bs : list N) : option str :=
  match bs with
  | [] => Some []
  | b0 :: r0 =>
    if (b0 <? 128)%N then cons b0 <$> utf8_decode_N r0
    else if ((194 <=? b0) && (b0 <=? 223))%N then
      match r0 with
      | b1 :: r1 =>
        if is_cont b1
        then cons ((b0 - 192) * 64 + (b1 - 128))%N <$> utf8_decode_N r1
        else None
      | _ => None
      end
    else if ((224 <=? b0) && (b0 <=? 239))%N then
      match r0 with
      | b1 :: b2 :: r2 =>
        let c := ((b0 - 224) * 4096 + (b1 - 128) * 64 + (b2 - 128))%N in
        if is_cont b1 && is_cont b2 && (2048 <=? c)%N
           && negb ((55296 <=? c) && (c <=? 57343))%N
        then cons c <$> utf8_decode_N r2
        else None
      | _ => None
      end
    else if ((240 <=? b0) && (b0 <=? 244))%N then
      match r0 with
      | b1 :: b2 :: b3 :: r3 =>
        let c := ((b0 - 240) * 262144 + (b1 - 128) * 4096
                  + (b2 - 128) * 64 + (b3 - 128))%N in
        if is_cont b1 && is_cont b2 && is_cont b3
           && (65536 <=? c)%N && (c <=? 1114111)%N
        then cons c <$> utf8_decode_N r3
        else None
      | _ => None
      end
    else None
  end.

Definition utf8_decode (bs : bytes) : option str :=
  utf8_decode_N (map Byte.to_N bs).

Definition byte_of_N (n : N) : byte := default x00 (Byte.of_N n).

(** [str.encode('utf-8')] (strict): [None] stands for UnicodeEncodeError
    (a lone surrogate, which [json.loads] can produce). *)
Definition utf8_encode_char (c : N) : option (list N) :=
  if (c <? 128)%N then Some [c]
  else if (c <? 2048)%N then Some [192 + c / 64; 128 + c mod 64]%N
  else if ((55296 <=? c) && (c <=? 57343))%N then None
  else if (c <? 65536)%N then
    Some [224 + c / 4096; 128 + (c / 64) mod 64; 128 + c mod 64]%N
  else if (c <=? 1114111)%N then
    Some [240 + c / 262144; 128 + (c / 4096) mod 64;
          128 + (c / 64) mod 64; 128 + c mod 64]%N
  else None.

Fixpoint utf8_encode (s : str) : option bytes :=
  match s with
  | [] => Some []
  | c :: r =>
    match utf8_encode_char c, utf8_encode r with
    | Some bs, Some rest => Some (map byte_of_N bs ++ rest)
    | _, _ => None
    end
  end.

(** A literal of the sources: the code points of a utf-8 coded literal. *)
Definition u (s : string) : str :=
  default [] (utf8_decode (list_byte_of_string s)).

(** A [bytes] literal such as [b'data: ']. *)
Definition b (s : string) : bytes := list_byte_of_string s.

Definition LF : N := 10%N.
Definition CR : N := 13%N.

Definition str_eqb (s t : str) : bool := bool_decide (s = t).

(** [s.startswith(p)], [s.endswith(p)], [p in s] *)
Fixpoint startswith {A} `{EqDecision A} (s p : list A) {struct p} : bool :=
  match p, s with
  | [], _ => true
  | x :: p', y :: s' => bool_decide (x = y) && startswith s' p'
  | _ :: _, [] => false
  end.

Definition endswith (s p : str) : bool := startswith (rev s) (rev p).

Fixpoint contains (s p : str) : bool :=
  startswith s p ||
  match s with
  | [] => false
  | _ :: s' => contains s' p
  end.

(** [str(n)] for an [int] *)
Fixpoint uint_digits (d : Decimal.uint) : str :=
  match d with
  | Decimal.Nil => []
  | Decimal.D0 d => 48%N :: uint_digits d
  | Decimal.D1 d => 49%N :: uint_digits d
  | Decimal.D2 d => 50%N :: uint_digits d
  | Decimal.D3 d => 51%N :: uint_digits d
  | Decimal.D4 d => 52%N :: uint_digits d
  | Decimal.D5 d => 53%N :: uint_digits d
  | Decimal.D6 d => 54%N :: uint_digits d
  | Decimal.D7 d => 55%N :: uint_digits d
  | Decimal.D8 d => 56%N :: uint_digits d
  | Decimal.D9 d => 57%N :: uint_digits d
  end.

Definition str_of_int (z : Z) : str :=
  match Z.to_int z with
  | Decimal.Pos d => uint_digits d
  | Decimal.Neg d => 45%N :: uint_digits d
  end.

(** ** Python values, as [json.loads] builds them and as the code passes
       them around *)

(** A [float] is carried by the text that [str()] and [repr()] print for
    it: the code never computes with a score, it prints it. *)
#[warnings="-register-all"]
Inductive pyval :=
| PNone
| PBool (v : bool)
| PInt (z : Z)
| PFloat (r : str)
| PStr (s : str)
| PList (l : list pyval)
| PDict (d : list (str * pyval)).

Abbreviation pydict := (list (str * pyval)) (only parsing).

(** ** Exceptions and results

    An exception the sources raise carries its message; one the
    interpreter raises ([AttributeError], [TypeErrorOn], [KeyError], ...)
    carries the value it is about. *)

Inductive exn :=
| AssertionError
| AttributeError (obj : pyval) (attr : str)
| TypeError (msg : str)
| TypeErrorOn (obj : pyval)
| KeyError (key : pyval)
| IndexError
| UnicodeDecodeError
| UnicodeEncodeError
| ValueError (msg : str)
| FileNotFoundError (msg : str)
| FileExistsError (msg : str)
| OSError (filename : str)
| Exception (msg : str)
| JSONDecodeError (msg : str)
| LibraryError (msg : str)
| HTTPException (status_code : Z) (detail : str).

Inductive outcome (A : Type) :=
| Ok (a : A)
| Raise (e : exn).
Arguments Ok {A} a.
Arguments Raise {A} e.

Definition rbind {A B} (m : outcome A) (k : A -> outcome B) : outcome B :=
  match m with
  | Ok a => k a
  | Raise e => Raise e
  end.

Definition raised {A} (m : outcome A) : bool :=
  match m with Ok _ => false | Raise _ => true end.

Declare Scope res_scope.
Delimit Scope res_scope with R.
Notation "'let*' x ':=' m 'in' k" := (rbind m (fun x => k))
  (at level 10, x name, m at level 100, k at level 200, only parsing) : res_scope.

(** ** The operations of Python values the sources use *)

(** [bool(v)], the test of [if v] and [not v] *)
Definition float_is_zero (r : str) : bool :=
  str_eqb r (u "0.0") || str_eqb r (u "-0.0").

Definition truthy (v : pyval) : bool :=
  match v with
  | PNone => false
  | PBool t => t
  | PInt z => negb (z =? 0)
  | PFloat r => negb (float_is_zero r)
  | PStr s => negb (str_eqb s [])
  | PList l => match l with [] => false | _ => true end
  | PDict d => match d with [] => false | _ => true end
  end.

(** [isinstance(v, dict)] *)
Definition isinstance_dict (v : pyval) : bool :=
  match v with PDict _ => true | _ => false end.

(** [isinstance(v, str)] *)
Definition isinstance_str (v : pyval) : bool :=
  match v with PStr _ => true | _ => false end.

Fixpoint assoc {V} (k : str) (d : list (str * V)) : option V :=
  match d with
  | [] => None
  | (k', v) :: d' => if str_eqb k k' then Some v else assoc k d'
  end.

(** [d.get(k, dflt)] on a dict *)
Definition dict_get (d : pydict) (k : str) (dflt : pyval) : pyval :=
  default dflt (assoc k d).

(** [v.get(k, dflt)] on any value: only a dict has the method *)
Definition py_get (v : pyval) (k : str) (dflt : pyval) : outcome pyval :=
  match v with
  | PDict d => Ok (dict_get d k dflt)
  | _ => Raise (AttributeError v (u "get"))
  end.

(** [len(v)] *)
Definition py_len (v : pyval) : outcome nat :=
  match v with
  | PStr s => Ok (length s)
  | PList l => Ok (length l)
  | PDict d => Ok (length d)
  | _ => Raise (TypeErrorOn v)
  end.

(** [v[j]] for an [int] j in range; the keys of a JSON dict are strings *)
Definition getitem_int (v : pyval) (j : nat) : outcome pyval :=
  match v with
  | PList l => match l !! j with Some x => Ok x | None => Raise IndexError end
  | PStr s => match s !! j with Some c => Ok (PStr [c]) | None => Raise IndexError end
  | PDict _ => Raise (KeyError (PInt (Z.of_nat j)))
  | _ => Raise (TypeErrorOn v)
  end.

(** [v[k]] for a [str] k *)
Definition getitem_str (v : pyval) (k : str) : outcome pyval :=
  match v with
  | PDict d => match assoc k d with Some x => Ok x | None => Raise (KeyError (PStr k)) end
  | _ => Raise (TypeErrorOn v)
  end.

(** [d[k] = v] on an insertion-ordered dict: a key already present keeps
    its place and takes the new value *)
Fixpoint dict_set {V} (d : list (str * V)) (k : str) (v : V) : list (str * V) :=
  match d with
  | [] => [(k, v)]
  | (k', v') :: d' =>
    if str_eqb k k' then (k, v) :: d' else (k', v') :: dict_set d' k v
  end.

(** ** The world: files on disk, requests sent, lines printed *)

Record request := {
  req_url : str;
  req_json : pyval;
  req_headers : list (str * str)
}.

(** What [requests] exposes of a response: [response.status_code],
    [response.text] and the lines of [response.iter_lines()]. *)
Record response := {
  status_code : Z;
  text : str;
  iter_lines : list bytes
}.

(** [files] maps the path of each regular file to its bytes. Directories
    are not tracked: [os.makedirs] changes no file, and a file can be
    opened for writing at any path. [sent] logs the requests in the
    order they were sent, [stdout] the lines printed. *)
Record world := {
  files : gmap (list N) (list byte);
  sent : list request;
  stdout : list str
}.

(** The world after a line is printed, a file written or removed, a
    request sent *)
Definition with_line (w : world) (line : str) : world :=
  {| files := files w; sent := sent w; stdout := stdout w ++ [line] |}.

Definition with_file (w : world) (p : str) (bs : bytes) : world :=
  {| files := <[p := bs]> (files w); sent := sent w; stdout := stdout w |}.

Definition without_file (w : world) (p : str) : world :=
  {| files := delete p (files w); sent := sent w; stdout := stdout w |}.

Definition after_request (w : world) (rq : request) : world :=
  {| files := files w; sent := sent w ++ [rq]; stdout := stdout w |}.

Definition M (A : Type) : Type := world -> outcome A * world.

Definition ret {A} (a : A) : M A := fun w => (Ok a, w).
Definition raise {A} (e : exn) : M A := fun w => (Raise e, w).
Definition bind {A B} (m : M A) (k : A -> M B) : M B :=
  fun w => match m w with
           | (Ok a, w') => k a w'
           | (Raise e, w') => (Raise e, w')
           end.
Definition lift {A} (r : outcome A) : M A := fun w => (r, w).

(** [try: m  except Exception as e: h e] *)
Definition try_except {A} (m : M A) (h : exn -> M A) : M A :=
  fun w => match m w with
           | (Ok a, w') => (Ok a, w')
           | (Raise e, w') => h e w'
           end.

(** [try: m  finally: f] where [f] itself never raises *)
Definition try_finally {A} (m : M A) (f : M unit) : M A :=
  fun w => let '(r, w') := m w in (r, snd (f w')).

Declare Scope M_scope.
Delimit Scope M_scope with M.
Notation "'let*' x ':=' m 'in' k" := (bind m (fun x => k))
  (at level 10, x name, m at level 100, k at level 200, only parsing) : M_scope.
Notation "m >> k" := (bind m (fun _ => k))
  (at level 100, k at level 200, right associativity, only parsing) : M_scope.

(** [os.path.exists(p)] *)
Definition path_exists (w : world) (p : str) : bool :=
  match files w !! p with Some _ => true | None => false end.

Definition os_path_exists (p : str) : M bool := fun w => (Ok (path_exists w p), w).

(** [os.unlink(p)] *)
Definition os_unlink (p : str) : M unit := fun w =>
  match files w !! p with
  | Some _ => (Ok tt, without_file w p)
  | None => (Raise (OSError p), w)
  end.

Definition write_file (p : str) (bs : bytes) : M unit := fun w =>
  (Ok tt, with_file w p bs).

Definition print (line : str) : M unit := fun w =>
  (Ok tt, with_line w line).

(** Text mode, [newline=None]: on reading, "\r\n" and "\r" become "\n". *)
Fixpoint universal_newlines (s : str) : str :=
  match s with
  | [] => []
  | c :: r =>
    if (c =? CR)%N then
      match r with
      | c' :: r' =>
        if (c' =? LF)%N then LF :: universal_newlines r'
        else LF :: universal_newlines r
      | [] => [LF]
      end
    else c :: universal_newlines r
  end.

(** On writing, "\n" becomes [os.linesep]. *)
Definition translate_newlines (linesep : str) (s : str) : str :=
  flat_map (fun c => if (c =? LF)%N then linesep else [c]) s.

(** [s.lower()], exact wherever the lower-case form is ASCII (the tests
    of [read] and [write] compare it with ASCII words only): A-Z, and the
    Kelvin sign U+212A, the one other character whose lower case is ASCII. *)
Definition lower_char (c : N) : N :=
  if ((65 <=? c) && (c <=? 90))%N then (c + 32)%N
  else if (c =? 8490)%N then 107%N
  else c.

Definition str_lower (s : str) : str := map lower_char s.

(** ** What the runtime and the libraries compute *)

Record Platform := {
  (** [os.getenv(name)] after [load_dotenv] *)
  os_getenv : str -> option str;
  (** [json.loads(text)]: the value, or [inl msg] for a JSONDecodeError
      whose [str()] is [msg] *)
  json_loads : str -> str + pyval;
  (** [json.dumps(v, ensure_ascii=False)] *)
  json_dumps : pyval -> str;
  (** [repr(v)] *)
  py_repr : pyval -> str;
  (** [str(e)] of an exception the interpreter raised *)
  runtime_msg : exn -> str;
  os_linesep : str;
  os_path_dirname : str -> str;
  os_path_basename : str -> str;
  os_path_splitext : str -> str * str;
  os_path_join : str -> str -> str;
  (** [urllib.parse.quote] *)
  url_quote : str -> str;
  (** [datetime.datetime.now().strftime("%Y%m%d_%H%M%S")] *)
  now_stamp : world -> str;
  (** the name [tempfile.NamedTemporaryFile(suffix=...)] picks *)
  temp_name : world -> str -> str;
  (** [requests.request("POST", ...)]: the server's answer to a request,
      given the requests sent before, or the exception [requests] raises *)
  requests_post : list request -> request -> outcome response;
  (** python-docx and pandas, on the bytes of a file *)
  docx_read : bytes -> outcome str;
  csv_read : bytes -> outcome pyval;
  excel_read : bytes -> outcome pyval;
  docx_write : str -> outcome bytes;
  csv_write : pyval -> outcome bytes;
  excel_write : pyval -> str -> outcome bytes
}.

Section Program.

Variable pf : Platform.

Local Open Scope M_scope.

(** [str(v)], and [v] inside an f-string *)
Definition py_str (v : pyval) : str :=
  match v with
  | PNone => u "None"
  | PBool true => u "True"
  | PBool false => u "False"
  | PInt z => str_of_int z
  | PFloat r => r
  | PStr s => s
  | PList _ | PDict _ => py_repr pf v
  end.

(** [str(e)] *)
Definition exn_str (e : exn) : str :=
  match e with
  | AssertionError => []
  | KeyError k => match k with PStr _ => py_repr pf k | _ => py_str k end
  | ValueError m | TypeError m | FileNotFoundError m | FileExistsError m
  | Exception m | LibraryError m | JSONDecodeError m => m
  | _ => runtime_msg pf e
  end.

Definition str_in (s : str) (l : list str) : bool := existsb (str_eqb s) l.

(** [os.makedirs(d, exist_ok=True)]: directories are not tracked *)
Definition os_makedirs (d : str) : M unit := ret tt.

(** ** backend/utils/document_handler.py *)

Definition does_not_exist (filepath : str) : str :=
  u "File " ++ filepath ++ u " does not exist".

(** [open(filepath, 'r', encoding='utf-8').read()] *)
Definition open_read_text (filepath : str) : M str := fun w =>
  match files w !! filepath with
  | None => (Raise (OSError filepath), w)
  | Some bs =>
    match utf8_decode bs with
    | Some s => (Ok (universal_newlines s), w)
    | None => (Raise UnicodeDecodeError, w)
    end
  end.

Definition open_read_bytes (filepath : str) : M bytes := fun w =>
  match files w !! filepath with
  | None => (Raise (OSError filepath), w)
  | Some bs => (Ok bs, w)
  end.

(** [with open(filepath, 'w', encoding='utf-8') as f: f.write(content)]:
    opening truncates the file, the write encodes the whole text first *)
Definition open_write_text (filepath : str) (content : str) : M unit :=
  match utf8_encode (translate_newlines (os_linesep pf) content) with
  | Some bs => write_file filepath bs
  | None => write_file filepath [] >> raise UnicodeEncodeError
  end.

(** The [try: ... except Exception as e: print(...); raise] of the readers *)
Definition reraising (label : str) {A} (m : M A) : M A :=
  try_except m (fun e => print (label ++ exn_str e) >> raise e).

Definition read_word (filepath : str) : M str :=
  reraising (u "Error reading Word file: ")
    (let* ex := os_path_exists filepath in
     if negb ex then raise (FileNotFoundError (does_not_exist filepath))
     else let* bs := open_read_bytes filepath in lift (docx_read pf bs)).

Definition read_markdown (filepath : str) : M str :=
  reraising (u "Error reading Markdown file: ")
    (let* ex := os_path_exists filepath in
     if negb ex then raise (FileNotFoundError (does_not_exist filepath))
     else open_read_text filepath).

Definition read_csv (filepath : str) : M pyval :=
  reraising (u "Error reading CSV file: ")
    (let* ex := os_path_exists filepath in
     if negb ex then raise (FileNotFoundError (does_not_exist filepath))
     else let* bs := open_read_bytes filepath in lift (csv_read pf bs)).

Definition read_excel (filepath : str) : M pyval :=
  reraising (u "Error reading Excel file: ")
    (let* ex := os_path_exists filepath in
     if negb ex then raise (FileNotFoundError (does_not_exist filepath))
     else let* bs := open_read_bytes filepath in lift (excel_read pf bs)).

Definition cannot_determine : exn :=
  ValueError (u "Unable to determine file type from extension. Please specify file_type.").

(** The extension test that [read] and [write] share *)
Definition file_type_of (filepath : str) (file_type : option str) : outcome str :=
  match file_type with
  | Some t => Ok t
  | None =>
    if endswith filepath (u ".md") || endswith filepath (u ".markdown")
    then Ok (u "markdown")
    else if endswith filepath (u ".docx") then Ok (u "word")
    else if endswith filepath (u ".csv") then Ok (u "csv")
    else if endswith filepath (u ".xlsx") || endswith filepath (u ".xls")
    then Ok (u "excel")
    else Raise cannot_determine
  end.

Definition read (filepath : str) (file_type : option str) : M pyval :=
  let* file_type := lift (file_type_of filepath file_type) in
  let t := str_lower file_type in
  if str_in t [u "md"; u "markdown"] then
    let* s := read_markdown filepath in ret (PStr s)
  else if str_in t [u "docx"; u "word"] then
    let* s := read_word filepath in ret (PStr s)
  else if str_in t [u "csv"] then read_csv filepath
  else if str_in t [u "excel"; u "xlsx"; u "xls"] then read_excel filepath
  else raise (ValueError (u "Unsupported file type: " ++ file_type)).

Definition already_exists (filepath : str) : exn :=
  FileExistsError
    (u "File " ++ filepath ++ u " already exists and overwrite is set to False").

(** The start of the [try] block of every writer: the directory, then
    the overwrite gate *)
Definition overwrite_gate (filepath : str) (overwrite : bool) : M unit :=
  os_makedirs (if str_eqb (os_path_dirname pf filepath) [] then u "."
               else os_path_dirname pf filepath) >>
  let* ex := os_path_exists filepath in
  if ex && negb overwrite then raise (already_exists filepath) else ret tt.

(** The [except Exception as e: print(...); return False] of the writers *)
Definition returning_False (label : str) (m : M bool) : M bool :=
  try_except m (fun e => print (label ++ exn_str e) >> ret false).

Definition write_markdown_try (content filepath : str) (overwrite : bool) : M bool :=
  overwrite_gate filepath overwrite >>
  open_write_text filepath content >>
  ret true.

Definition write_markdown (content filepath : str) (overwrite : bool) : M bool :=
  returning_False (u "Error writing to markdown file: ")
    (write_markdown_try content filepath overwrite).

Definition write_word (content filepath : str) (overwrite : bool) : M bool :=
  returning_False (u "Error writing to Word file: ")
    (overwrite_gate filepath overwrite >>
     let* bs := lift (docx_write pf content) in
     write_file filepath bs >>
     ret true).

(** Called without keyword arguments, as [write] is by [duplicate]. *)
Definition write_csv (data : pyval) (filepath : str) (overwrite : bool) : M bool :=
  returning_False (u "Error writing to CSV file: ")
    (overwrite_gate filepath overwrite >>
     let* bs := lift (csv_write pf data) in
     write_file filepath bs >>
     ret true).

Definition write_excel (data : pyval) (filepath sheet_name : str)
    (overwrite : bool) : M bool :=
  returning_False (u "Error writing to Excel file: ")
    (overwrite_gate filepath overwrite >>
     let* bs := lift (excel_write pf data sheet_name) in
     write_file filepath bs >>
     ret true).

Definition write (content : pyval) (filepath : str) (file_type : option str)
    (overwrite : bool) : M bool :=
  let* file_type := lift (file_type_of filepath file_type) in
  let t := str_lower file_type in
  if str_in t [u "md"; u "markdown"] then
    match content with
    | PStr s => write_markdown s filepath overwrite
    | _ => raise (TypeError (u "Content must be a string for markdown files"))
    end
  else if str_in t [u "docx"; u "word"] then
    match content with
    | PStr s => write_word s filepath overwrite
    | _ => raise (TypeError (u "Content must be a string for Word files"))
    end
  else if str_in t [u "csv"] then write_csv content filepath overwrite
  else if str_in t [u "excel"; u "xlsx"; u "xls"] then
    write_excel content filepath (u "Sheet1") overwrite
  else raise (ValueError (u "Unsupported file type: " ++ file_type)).

(** ** backend/config/config.py *)

Definition getenv_or_None (name : str) : pyval :=
  match os_getenv pf name with Some v => PStr v | None => PNone end.

Definition DIFY_CONFIG : pydict :=
  [ (u "base_url",
     PStr (default (u "https://api.dify.ai") (os_getenv pf (u "DIFY_BASE_URL"))));
    (u "api_key", getenv_or_None (u "DIFY_API_KEY"));
    (u "user", getenv_or_None (u "DIFY_USER")) ].

(** ** backend/dify_wrapper/dify_client.py *)

Record DifyAPIClient := {
  base_url : pyval;
  api_key : pyval;
  user : pyval;
  headers : list (str * str)
}.

Definition _get_headers (api_key : pyval) : list (str * str) :=
  [ (u "Authorization", u "Bearer " ++ py_str api_key);
    (u "Content-Type", u "application/json") ].

Definition is_required (field_name : str) : str :=
  field_name ++ u " is required in config but not provided".

(** [for field_name, value in required_fields.items(): if not value: raise] *)
Fixpoint validate_required (required_fields : pydict) : outcome unit :=
  match required_fields with
  | [] => Ok tt
  | (field_name, value) :: rest =>
    if negb (truthy value) then Raise (ValueError (is_required field_name))
    else validate_required rest
  end.

(** [DifyAPIClient.__init__] *)
Definition DifyAPIClient_init (config : pydict) : outcome DifyAPIClient :=
  let base_url := dict_get config (u "base_url") (PStr []) in
  let api_key := dict_get config (u "api_key") (PStr []) in
  let user := dict_get config (u "user") (PStr []) in
  let required_fields :=
    [ (u "base_url", base_url); (u "api_key", api_key); (u "user", user) ] in
  (let* _ := validate_required required_fields in
   Ok {| base_url := base_url; api_key := api_key; user := user;
         headers := _get_headers api_key |})%R.

(** [requests.request("POST", url, json=payload, headers=headers)]: the
    request joins the log of what was sent, the server answers *)
Definition requests_request (rq : request) : M response := fun w =>
  (requests_post pf (sent w) rq, after_request w rq).

Definition _workflow_blocking_process (response : response) : outcome pyval :=
  match json_loads pf (text response) with
  | inr response_full => Ok response_full
  | inl e =>
    Raise (Exception (u "Failed to parse JSON response: " ++ e
                      ++ u " - Response text: " ++ text response))
  end.

(** The two [except] handlers of the streaming loop build the same
    object; [line.decode] in it can raise again. *)
Definition error_data (label : str) (e : exn) (line : bytes) : outcome str :=
  let error := label ++ exn_str e in
  match line with
  | [] => Ok (json_dumps pf (PDict [(u "error", PStr error); (u "raw_line", PNone)]))
  | _ =>
    match utf8_decode line with
    | Some raw_line =>
      Ok (json_dumps pf (PDict [(u "error", PStr error); (u "raw_line", PStr raw_line)]))
    | None => Raise UnicodeDecodeError
    end
  end.

(** The [try] block for one line that is not empty: [Ok None] is
    [continue], [Ok (Some s)] is [yield s]. *)
Definition stream_try (line : bytes) : outcome (option str) :=
  if negb (startswith line (b "data: ")) then Ok None
  else
    match utf8_decode line with
    | None => Raise UnicodeDecodeError
    | Some decoded =>
      let json_str := drop 6 decoded in
      match json_loads pf json_str with
      | inl e => Raise (JSONDecodeError e)
      | inr data => Ok (Some (json_dumps pf data))
      end
    end.

(** One turn of the loop over [response.iter_lines()]: what it yields,
    or the exception that leaves the generator. *)
Definition stream_line (line : bytes) : outcome (option str) :=
  match line with
  | [] => Ok None
  | _ =>
    match stream_try line with
    | Ok y => Ok y
    | Raise (JSONDecodeError m) =>
      (let* y := error_data (u "Failed to parse JSON: ") (JSONDecodeError m) line in
       Ok (Some y))%R
    | Raise e =>
      (let* y := error_data (u "Unexpected error processing stream: ") e line in
       Ok (Some y))%R
    end
  end.

(** A generator run to its end: what it yielded, and the exception that
    ended it, if one did. *)
Record generator := {
  yielded : list str;
  ended_by : option exn
}.

Fixpoint stream_lines (lines : list bytes) : generator :=
  match lines with
  | [] => {| yielded := []; ended_by := None |}
  | line :: rest =>
    match stream_line line with
    | Ok y =>
      let g := stream_lines rest in
      {| yielded := option_list y ++ yielded g; ended_by := ended_by g |}
    | Raise e => {| yielded := []; ended_by := Some e |}
    end
  end.

Definition _workflow_streaming_process (response : response) : generator :=
  stream_lines (iter_lines response).

(** What [run_workflow] returns: the parsed body, or the generator. *)
Inductive workflow_result :=
| Blocking (response_full : pyval)
| Streaming (chunks : generator).

Definition status_error (response : response) : exn :=
  Exception (u "Error: " ++ str_of_int (status_code response)
             ++ u " - " ++ text response).

Definition workflow_request (self : DifyAPIClient) (inputs : pydict)
    (stream : bool) : request :=
  {| req_url := py_str (base_url self) ++ u "/v1/workflows/run";
     req_json :=
       PDict [ (u "inputs", PDict inputs);
               (u "response_mode",
                PStr (if stream then u "streaming" else u "blocking"));
               (u "user", user self) ];
     req_headers := headers self |}.

Definition run_workflow (self : DifyAPIClient) (inputs : pydict)
    (stream : bool) : M workflow_result :=
  let* response := requests_request (workflow_request self inputs stream) in
  if status_code response =? 200 then
    if stream then ret (Streaming (_workflow_streaming_process response))
    else let* response_full := lift (_workflow_blocking_process response) in
         ret (Blocking response_full)
  else raise (status_error response).

(** ** backend/core/duplicate.py *)

(** The two characters of the pattern [[，。]]: U+FF0C and U+3002 *)
Definition is_delimiter (c : N) : bool := ((c =? 65292) || (c =? 12290))%N.

(** [re.split(r'[，。]', text)]: the pieces between the matches, empty
    ones included; [piece] is the piece being read, last character first *)
Fixpoint re_split_from (piece : str) (text : str) : list str :=
  match text with
  | [] => [rev piece]
  | c :: rest =>
    if is_delimiter c then rev piece :: re_split_from [] rest
    else re_split_from (c :: piece) rest
  end.

Definition re_split (text : str) : list str := re_split_from [] text.

(** What [str.strip()] removes: the characters with [c.isspace()] *)
Definition isspace (c : N) : bool :=
  (((9 <=? c) && (c <=? 13)) || ((28 <=? c) && (c <=? 32))
   || (c =? 133) || (c =? 160) || (c =? 5760)
   || ((8192 <=? c) && (c <=? 8202))
   || (c =? 8232) || (c =? 8233) || (c =? 8239) || (c =? 8287)
   || (c =? 12288))%N.

Fixpoint lstrip (s : str) : str :=
  match s with
  | c :: rest => if isspace c then lstrip rest else s
  | [] => []
  end.

Definition strip (s : str) : str := rev (lstrip (rev (lstrip s))).

(** Step 2 of [duplicate]: the split and the list comprehension *)
Definition split_sentences (content : str) : list str :=
  let sentences := re_split content in
  flat_map (fun sentence =>
              if negb (str_eqb (strip sentence) []) then [strip sentence] else [])
           sentences.

(** The record of matches: sentence, then its (content, score) pairs *)
Abbreviation match_record := (list (str * list (pyval * pyval))) (only parsing).

(** [record[k].append(x)] *)
Fixpoint dict_append {V} (d : list (str * list V)) (k : str) (x : V)
    : outcome (list (str * list V)) :=
  match d with
  | [] => Raise (KeyError (PStr k))
  | (k', l) :: d' =>
    if str_eqb k k' then Ok ((k', l ++ [x]) :: d')
    else (let* d'' := dict_append d' k x in Ok ((k', l) :: d''))%R
  end.

(** [for j in range(len(result)): record[sentence].append((..., ...))] *)
Fixpoint append_matches (record : match_record) (sentence : str)
    (result : pyval) (js : list nat) : outcome match_record :=
  match js with
  | [] => Ok record
  | j :: js' =>
    (let* item := getitem_int result j in
     let* content := getitem_str item (u "content") in
     let* item' := getitem_int result j in
     let* metadata := getitem_str item' (u "metadata") in
     let* score := getitem_str metadata (u "score") in
     let* record' := dict_append record sentence (content, score) in
     append_matches record' sentence result js')%R
  end.

(** Step 4: the body of the loop after the call returned [result] *)
Definition record_result (record : match_record) (sentence : str)
    (result : workflow_result) : outcome match_record :=
  match result with
  | Blocking (PDict result) =>
    let data := dict_get result (u "data") PNone in
    if isinstance_dict data then
      (let* outputs := py_get data (u "outputs") (PDict []) in
       let* result := py_get outputs (u "result") PNone in
       if truthy result then
         let* n := py_len result in
         if (0 <? n)%nat then
           append_matches (dict_set record sentence []) sentence result (seq 0 n)
         else Ok record
       else Ok record)%R
    else Raise AssertionError
  | _ => Raise AssertionError
  end.

(** Step 3: [for i in range(0, len(sentences))]; the progress bar of
    [tqdm] is left out *)
Fixpoint process_sentences (record : match_record) (sentences : list str)
    : M match_record :=
  match sentences with
  | [] => ret record
  | sentence :: rest =>
    let* client := lift (DifyAPIClient_init DIFY_CONFIG) in
    let* result := run_workflow client [(u "content", PStr sentence)] false in
    let* record' := lift (record_result record sentence result) in
    process_sentences record' rest
  end.

(** Step 5: the report *)
Definition report_header : str := u "# 重复内容检测结果" ++ [LF; LF].

Fixpoint render_duplicates (i : nat) (duplicates : list (pyval * pyval)) : str :=
  match duplicates with
  | [] => []
  | (duplicate_content, score) :: rest =>
    u "**重复项 " ++ str_of_int (Z.of_nat (i + 1)) ++ u "** (Similarity: "
      ++ py_str score ++ u ")" ++ [LF; LF]
      ++ py_str duplicate_content ++ [LF; LF]
      ++ render_duplicates (S i) rest
  end.

Definition render_section (entry : str * list (pyval * pyval)) : str :=
  let '(sentence, duplicates) := entry in
  u "## 原句" ++ [LF; LF] ++ sentence ++ [LF; LF]
    ++ u "### 重复内容" ++ [LF; LF]
    ++ render_duplicates 0 duplicates
    ++ u "---" ++ [LF; LF].

Definition render (record : match_record) : str :=
  report_header ++ flat_map render_section record.

Definition datetime_now_stamp : M str := fun w => (Ok (now_stamp pf w), w).

(** The output path of [duplicate] when none is given *)
Definition default_output_path (file_path : str) : M str :=
  let base_name := fst (os_path_splitext pf (os_path_basename pf file_path)) in
  let input_dir := os_path_dirname pf file_path in
  let* timestamp := datetime_now_stamp in
  ret (os_path_join pf input_dir (base_name ++ u "_" ++ timestamp ++ u ".md")).

Definition duplicate (file_path : str) (output_path : option str) : M unit :=
  let* content := read file_path None in
  let sentences := split_sentences (py_str content) in
  let* record := process_sentences [] sentences in
  let markdown_content := render record in
  let* output_path :=
    match output_path with
    | None => default_output_path file_path
    | Some p => ret p
    end in
  let output_dir := os_path_dirname pf output_path in
  (if negb (str_eqb output_dir []) then os_makedirs output_dir else ret tt) >>
  let* _ := write (PStr markdown_content) output_path None false in
  ret tt.

(** ** backend/services/duplicate_service.py *)

Definition process_file_sync (file_path : str) (output_path : option str) : M unit :=
  duplicate file_path output_path.

(** [await loop.run_in_executor(executor, duplicate, file_path, output_path)]:
    the call runs on a worker thread and the handler waits for its result
    or its exception; one request is followed on its own. *)
Definition process_file_async (file_path : str) (output_path : option str) : M unit :=
  duplicate file_path output_path.

(** ** backend/api/api.py *)

Record UploadFile := {
  filename : option str;
  file : bytes
}.

Record DuplicateCheckResponse := {
  message : str;
  output_path : str;
  download_url : str
}.

(** [os.path.splitext(file.filename)[1] if file.filename else ""] *)
Definition upload_suffix (upload : UploadFile) : str :=
  match filename upload with
  | Some name => if negb (str_eqb name []) then snd (os_path_splitext pf name) else []
  | None => []
  end.

(** [with tempfile.NamedTemporaryFile(delete=False, suffix=...) as tmp_file:
      shutil.copyfileobj(file.file, tmp_file)] *)
Definition save_upload (upload : UploadFile) : M str := fun w =>
  let file_extension := upload_suffix upload in
  let tmp_file_path := temp_name pf w file_extension in
  (Ok tmp_file_path, with_file w tmp_file_path (file upload)).

Definition result_output_path_of (tmp_file_path : str) (output_path : option str)
    : M str :=
  match output_path with
  | None =>
    let base_name := fst (os_path_splitext pf (os_path_basename pf tmp_file_path)) in
    let tmp_dir := os_path_dirname pf tmp_file_path in
    let* timestamp := datetime_now_stamp in
    ret (os_path_join pf tmp_dir (base_name ++ u "_" ++ timestamp ++ u ".md"))
  | Some p => ret p
  end.

(** The test [if output_path] of an optional string *)
Definition supplied (output_path : option str) : bool :=
  match output_path with
  | Some p => negb (str_eqb p [])
  | None => false
  end.

(** [try: m  except: pass] *)
Definition try_pass (m : M unit) : M unit := try_except m (fun _ => ret tt).

Definition completed (result_output_path : str) : DuplicateCheckResponse :=
  {| message := u "Duplicate content check completed successfully";
     output_path := result_output_path;
     download_url := u "/api/v1/download-result/" ++ url_quote pf result_output_path |}.

(** The [except Exception as e] branch, the same text in both endpoints *)
Definition on_error (tmp_file_path : str) (output_path : option str)
    (result_output_path : str) (e : exn) : M DuplicateCheckResponse :=
  try_pass
    (os_unlink tmp_file_path >>
     if supplied output_path
     then let* ex := os_path_exists result_output_path in
          if ex then os_unlink result_output_path else ret tt
     else ret tt) >>
  raise (HTTPException 500 (u "Error processing file: " ++ exn_str e)).

Definition check_duplicate_content_sync (upload : UploadFile)
    (output_path : option str) : M DuplicateCheckResponse :=
  let* tmp_file_path := save_upload upload in
  let* result_output_path := result_output_path_of tmp_file_path output_path in
  try_finally
    (try_except
       (process_file_sync tmp_file_path (Some result_output_path) >>
        ret (completed result_output_path))
       (on_error tmp_file_path output_path result_output_path))
    (try_pass (os_unlink tmp_file_path)).

Definition check_duplicate_content_async (upload : UploadFile)
    (output_path : option str) : M DuplicateCheckResponse :=
  let* tmp_file_path := save_upload upload in
  let* result_output_path := result_output_path_of tmp_file_path output_path in
  try_finally
    (try_except
       (process_file_async tmp_file_path (Some result_output_path) >>
        ret (completed result_output_path))
       (on_error tmp_file_path output_path result_output_path))
    (try_pass (os_unlink tmp_file_path)).

End Program.

(** ** backend/api/api.py: the download

    What [FileResponse(path=..., filename=..., media_type=...)] is given;
    the file is opened when the response is sent, not here. *)

Module FileResponse.
Record t := {
  path : str;
  filename : str;
  media_type : str
}.
End FileResponse.

Section Download.

Variable pf : Platform.

(** [urllib.parse.unquote] *)
Variable url_unquote : str -> str.

Local Open Scope M_scope.

Definition download_result (file_path : str) : M FileResponse.t :=
  let decoded_path := url_unquote file_path in
  let* ex := os_path_exists decoded_path in
  if negb ex then raise (HTTPException 404 (u "File not found"))
  else
    let filename := os_path_basename pf decoded_path in
    ret {| FileResponse.path := decoded_path;
           FileResponse.filename := filename;
           FileResponse.media_type := u "text/markdown" |}.

End Download.

(** ** A platform to run the program on

    POSIX paths, "\n" line ends, a server and a [json.loads] given by
    tables; python-docx and pandas are not installed. *)

Definition SLASH : N := 47%N.
Definition DOT : N := 46%N.

Fixpoint after_last (sep : N) (p : str) : str :=
  match p with
  | [] => []
  | c :: rest =>
    if existsb (N.eqb sep) rest then after_last sep rest
    else if (c =? sep)%N then rest else p
  end.

Fixpoint skip (c : N) (p : str) : str :=
  match p with
  | c' :: rest => if (c' =? c)%N then skip c rest else p
  | [] => []
  end.

Definition posix_basename (p : str) : str := after_last SLASH p.

Definition posix_dirname (p : str) : str :=
  let head := take (length p - length (posix_basename p)) p in
  if forallb (N.eqb SLASH) head then head
  else rev (skip SLASH (rev head)).

Definition posix_splitext (p : str) : str * str :=
  let name := posix_basename p in
  let stem := skip DOT name in
  if existsb (N.eqb DOT) stem then
    let ext := DOT :: after_last DOT stem in
    (take (length p - length ext) p, ext)
  else (p, []).

Definition posix_join (a c : str) : str :=
  if startswith c [SLASH] then c
  else if str_eqb a [] || endswith a [SLASH] then a ++ c
  else a ++ [SLASH] ++ c.

Definition QUOTE : N := 34%N.
Definition APOSTROPHE : N := 39%N.

(** A printer of values, good for text without quotes or backslashes *)
Fixpoint show (quote : N) (none true false : str) (v : pyval) : str :=
  match v with
  | PNone => none
  | PBool t => if t then true else false
  | PInt z => str_of_int z
  | PFloat r => r
  | PStr s => [quote] ++ s ++ [quote]
  | PList l =>
    u "[" ++
    (fix items (l : list pyval) : str :=
       match l with
       | [] => []
       | [x] => show quote none true false x
       | x :: rest => show quote none true false x ++ u ", " ++ items rest
       end) l ++ u "]"
  | PDict d =>
    u "{" ++
    (fix items (d : list (str * pyval)) : str :=
       match d with
       | [] => []
       | [(k, x)] => [quote] ++ k ++ [quote] ++ u ": " ++ show quote none true false x
       | (k, x) :: rest =>
         [quote] ++ k ++ [quote] ++ u ": " ++ show quote none true false x
           ++ u ", " ++ items rest
       end) d ++ u "}"
  end.

Definition table_loads (table : list (str * pyval)) (text : str) : str + pyval :=
  match assoc text table with
  | Some v => inr v
  | None => inl (u "Expecting value: line 1 column 1 (char 0)")
  end.

Definition demo_env : list (str * str) :=
  [ (u "DIFY_API_KEY", u "app-demo"); (u "DIFY_USER", u "tester") ].

Definition demo_platform (server : list request -> request -> outcome response)
    (table : list (str * pyval)) : Platform :=
  {| os_getenv := fun name => assoc name demo_env;
     json_loads := table_loads table;
     json_dumps := show QUOTE (u "null") (u "true") (u "false");
     py_repr := show APOSTROPHE (u "None") (u "True") (u "False");
     runtime_msg := fun _ => u "error";
     os_linesep := [LF];
     os_path_dirname := posix_dirname;
     os_path_basename := posix_basename;
     os_path_splitext := posix_splitext;
     os_path_join := posix_join;
     url_quote := fun s => s;
     now_stamp := fun _ => u "20240101_000000";
     temp_name := fun _ suffix => u "/tmp/tmpupload" ++ suffix;
     requests_post := server;
     docx_read := fun _ => Raise (LibraryError (u "python-docx"));
     csv_read := fun _ => Raise (LibraryError (u "pandas"));
     excel_read := fun _ => Raise (LibraryError (u "pandas"));
     docx_write := fun _ => Raise (LibraryError (u "python-docx"));
     csv_write := fun _ => Raise (LibraryError (u "pandas"));
     excel_write := fun _ _ => Raise (LibraryError (u "pandas")) |}.

(** A server that gives every request the same answer *)
Definition always (status : Z) (body : str) : list request -> request -> outcome response :=
  fun _ _ => Ok {| status_code := status; text := body; iter_lines := [] |}.

Definition disk (l : list (str * bytes)) : world :=
  {| files := list_to_map l; sent := []; stdout := [] |}.

(** A server that answers the n-th request with the n-th entry of a list
    (status, body), and refuses the connection after the last *)
Definition scripted (answers : list (Z * str))
    : list request -> request -> outcome response :=
  fun sent_before _ =>
    match answers !! length sent_before with
    | Some (status, body) =>
      Ok {| status_code := status; text := body; iter_lines := [] |}
    | None => Raise (LibraryError (u "requests: connection refused"))
    end.

Definition one_match : pyval :=
  PDict [ (u "data",
     PDict [ (u "outputs",
       PDict [ (u "result",
         PList [ PDict [ (u "content", PStr (u "X"));
                         (u "metadata", PDict [(u "score", PFloat (u "0.9"))]) ] ]) ]) ]) ].

Definition empty_result : pyval :=
  PDict [ (u "data", PDict [ (u "outputs", PDict [ (u "result", PList []) ]) ]) ].

Definition no_outputs : pyval := PDict [ (u "data", PDict []) ].

Definition no_result : pyval :=
  PDict [ (u "data", PDict [ (u "outputs", PDict []) ]) ].

Definition no_data : pyval := PDict [ (u "message", PStr (u "ok")) ].

(** The bodies the servers of the examples send, with what they parse to *)
Definition bodies : list (str * pyval) :=
  [ (u "one-match", one_match); (u "empty-result", empty_result);
    (u "no-outputs", no_outputs); (u "no-result", no_result);
    (u "no-data", no_data) ].

(** Every request is answered 200 with the given body. *)
Definition serving (body : str) : Platform :=
  demo_platform (always 200 body) bodies.

(** Every request is answered 500. *)
Definition failing : Platform := demo_platform (always 500 (u "oops")) bodies.

(** The platform of the examples in an environment that sets no
    DIFY_API_KEY *)
Definition without_api_key : Platform :=
  {| os_getenv := fun name => assoc name [(u "DIFY_USER", u "tester")];
     json_loads := json_loads failing;
     json_dumps := json_dumps failing;
     py_repr := py_repr failing;
     runtime_msg := runtime_msg failing;
     os_linesep := os_linesep failing;
     os_path_dirname := os_path_dirname failing;
     os_path_basename := os_path_basename failing;
     os_path_splitext := os_path_splitext failing;
     os_path_join := os_path_join failing;
     url_quote := url_quote failing;
     now_stamp := now_stamp failing;
     temp_name := temp_name failing;
     requests_post := requests_post failing;
     docx_read := docx_read failing;
     csv_read := csv_read failing;
     excel_read := excel_read failing;
     docx_write := docx_write failing;
     csv_write := csv_write failing;
     excel_write := excel_write failing |}.

Definition demo_client : DifyAPIClient :=
  {| base_url := PStr (u "https://api.dify.ai");
     api_key := PStr (u "app-demo");
     user := PStr (u "tester");
     headers := [ (u "Authorization", u "Bearer app-demo");
                  (u "Content-Type", u "application/json") ] |}.

(** The text of the file at [p], if there is one and it is utf-8 *)
Definition file_text (w : world) (p : str) : option str :=
  match files w !! p with
  | Some bs => utf8_decode bs
  | None => None
  end.

(** * The notions of the statements *)

(** The words of the specification for the splitter: the text is its
    pieces with one delimiter between neighbours. *)
Fixpoint interleave (pieces : list str) (delimiters : list N) : str :=
  match pieces, delimiters with
  | piece :: pieces', d :: delimiters' => piece ++ d :: interleave pieces' delimiters'
  | piece :: _, [] => piece
  | [], _ => []
  end.

(** Neither the first nor the last character is white space. *)
Definition trimmed (s : str) : Prop :=
  (forall c r, s = c :: r -> isspace c = false)
  /\ (forall c r, s = r ++ [c] -> isspace c = false).

(** The fields [DifyAPIClient] requires, in the order it checks them *)
Definition required_names : list str := [u "base_url"; u "api_key"; u "user"].

(** [m] leaves every file as it was, whatever its outcome. *)
Definition keeps_files {A} (m : M A) : Prop :=
  forall w, files (snd (m w)) = files w.

(** [m] always returns. *)
Definition never_raises {A} (m : M A) : Prop :=
  forall w, raised (fst (m w)) = false.

(** When [m] raises, every file is as it was. *)
Definition raising_keeps_files {A} (m : M A) : Prop :=
  forall w, raised (fst (m w)) = true -> files (snd (m w)) = files w.

(** The request [duplicate] sends for a sentence *)
Definition sentence_request (pf : Platform) (client : DifyAPIClient)
    (sentence : str) : request :=
  workflow_request pf client [(u "content", PStr sentence)] false.

(** In world [w] the configuration is complete and the server answers the
    request for [sentence] with status 200 and a body that parses to [v]. *)
Definition replies (pf : Platform) (w : world) (sentence : str) (v : pyval)
    (w' : world) : Prop :=
  exists client resp,
    DifyAPIClient_init pf (DIFY_CONFIG pf) = Ok client
    /\ requests_post pf (sent w) (sentence_request pf client sentence) = Ok resp
    /\ status_code resp = 200
    /\ json_loads pf (text resp) = inr v
    /\ w' = after_request w (sentence_request pf client sentence).

(** The configuration is complete and the server answers every request
    with status 200 and a body whose [data.outputs.result] is an empty list. *)
Definition replies_no_match (pf : Platform) : Prop :=
  (exists client, DifyAPIClient_init pf (DIFY_CONFIG pf) = Ok client)
  /\ forall sent_before rq, exists resp d data outputs,
       requests_post pf sent_before rq = Ok resp
       /\ status_code resp = 200
       /\ json_loads pf (text resp) = inr (PDict d)
       /\ assoc (u "data") d = Some (PDict data)
       /\ assoc (u "outputs") data = Some (PDict outputs)
       /\ assoc (u "result") outputs = Some (PList []).

(** The path [duplicate] writes to, chosen in world [w] *)
Definition chosen_output_path (pf : Platform) (file_path : str)
    (output_path : option str) (w : world) : str :=
  match output_path with
  | Some p => p
  | None =>
    os_path_join pf (os_path_dirname pf file_path)
      (fst (os_path_splitext pf (os_path_basename pf file_path))
         ++ u "_" ++ now_stamp pf w ++ u ".md")
  end.

(** The path of the temporary file of an upload *)
Definition upload_tmp_path (pf : Platform) (upload : UploadFile) (w : world) : str :=
  temp_name pf w (upload_suffix pf upload).

(** The pair the loop of [duplicate] stores for one item of [result]:
    [(item["content"], item["metadata"]["score"])] *)
Definition pair_of (item : pyval) : outcome (pyval * pyval) :=
  (let* content := getitem_str item (u "content") in
   let* metadata := getitem_str item (u "metadata") in
   let* score := getitem_str metadata (u "score") in
   Ok (content, score))%R.

(** The pairs of a list of items, up to the first item that raises *)
Fixpoint pairs_of (items : list pyval) : outcome (list (pyval * pyval)) :=
  match items with
  | [] => Ok []
  | item :: rest =>
    (let* p := pair_of item in
     let* ps := pairs_of rest in
     Ok (p :: ps))%R
  end.

(** The keys of a record are distinct and each holds at least one match. *)
Definition well_formed_record (record : list (str * list (pyval * pyval))) : Prop :=
  NoDup (map fst record) /\ Forall (fun entry => snd entry <> []) record.

(** The lines of the report for the match numbered [k + 1] *)
Definition match_lines (pf : Platform) (k : nat) (content score : pyval) : str :=
  u "**重复项 " ++ str_of_int (Z.of_nat (k + 1)) ++ u "** (Similarity: "
    ++ py_str pf score ++ u ")" ++ [LF; LF] ++ py_str pf content ++ [LF; LF].

(** The two headings of the section of a sentence *)
Definition section_head (sentence : str) : str :=
  u "## 原句" ++ [LF; LF] ++ sentence ++ [LF; LF] ++ u "### 重复内容" ++ [LF; LF].

(** The lines of a stream that carry an event: those the loop of
    [_workflow_streaming_process] does not skip *)
Definition is_data_line (line : bytes) : bool := startswith line (b "data: ").

(** The words [read] and [write] take for a file type, lower case *)
Definition file_type_words : list str :=
  [u "md"; u "markdown"] ++ [u "docx"; u "word"] ++ [u "csv"]
    ++ [u "excel"; u "xlsx"; u "xls"].

(** The starts of the lines the four readers print when they fail *)
Definition reading_labels : list str :=
  [ u "Error reading Markdown file: "; u "Error reading Word file: ";
    u "Error reading CSV file: "; u "Error reading Excel file: " ].

(** The code points utf-8 can carry: all but the surrogates, up to
    U+10FFFF *)
Definition scalar_value (c : N) : bool :=
  ((c <? 55296) || ((57343 <? c) && (c <=? 1114111)))%N.

(** [m] changes no file but the one at [p], which it may create or
    replace. *)
Definition writes_only {A} (p : str) (m : M A) : Prop :=
  forall w, files (snd (m w)) = files w
            \/ exists bs, files (snd (m w)) = <[p := bs]> (files w).

(** Delimiters and white space: the characters that make no sentence *)
Definition blank (c : N) : bool := is_delimiter c || isspace c.

(** The start of the URL the endpoints give for a download *)
Definition download_prefix : str := u "/api/v1/download-result/".

(** The request for a sentence, spelled out from the environment: the
    base URL, the key and the user *)
Definition configured_request (base key usr sentence : str) : request :=
  {| req_url := base ++ u "/v1/workflows/run";
     req_json :=
       PDict [ (u "inputs", PDict [(u "content", PStr sentence)]);
               (u "response_mode", PStr (u "blocking"));
               (u "user", PStr usr) ];
     req_headers := [ (u "Authorization", u "Bearer " ++ key);
                      (u "Content-Type", u "application/json") ] |}.

(** * Properties *)

(** ** Text *)

Lemma startswith_app {A} `{EqDecision A} (p s : list A) :
  startswith (p ++ s) p = true.
Proof.
  induction p as [|x p IH]; simpl.
  - reflexivity.
  - rewrite bool_decide_eq_true_2 by reflexivity. exact IH.
Qed.

Lemma contains_startswith (s p : str) : startswith s p = true -> contains s p = true.
Proof. intros H. destruct s; simpl; rewrite H; reflexivity. Qed.

Lemma contains_intro (pre p post : str) : contains (pre ++ p ++ post) p = true.
Proof.
  induction pre as [|c pre IH]; simpl.
  - apply contains_startswith, startswith_app.
  - rewrite IH. apply orb_true_r.
Qed.

Lemma str_eqb_eq (s t : str) : str_eqb s t = true <-> s = t.
Proof. unfold str_eqb. apply bool_decide_eq_true. Qed.

Lemma str_eqb_refl (s : str) : str_eqb s s = true.
Proof. apply str_eqb_eq. reflexivity. Qed.

Lemma str_eqb_nil (s : str) : str_eqb s [] = match s with [] => true | _ => false end.
Proof. destruct s; reflexivity. Qed.

(** ** The sentence splitter *)

Lemma re_split_from_spec (text piece : str) :
  Forall (fun c => is_delimiter c = false) piece ->
  exists delimiters,
    interleave (re_split_from piece text) delimiters = rev piece ++ text
    /\ length (re_split_from piece text) = S (length delimiters)
    /\ Forall (fun d => is_delimiter d = true) delimiters
    /\ Forall (Forall (fun c => is_delimiter c = false)) (re_split_from piece text).
Proof.
  revert piece. induction text as [|c rest IH]; intros piece Hpiece; simpl.
  - exists []. simpl. rewrite app_nil_r. repeat split; auto.
    constructor; [|constructor]. apply Forall_rev. exact Hpiece.
  - destruct (is_delimiter c) eqn:Hc.
    + destruct (IH [] (List.Forall_nil _)) as (ds & Hi & Hl & Hd & Hp).
      exists (c :: ds). simpl in *. rewrite Hi, Hl. repeat split; auto.
      constructor; [|exact Hp]. apply Forall_rev. exact Hpiece.
    + destruct (IH (c :: piece)) as (ds & Hi & Hl & Hd & Hp).
      { constructor; assumption. }
      exists ds. simpl in Hi. rewrite <- app_assoc in Hi. simpl in Hi.
      repeat split; auto.
Qed.

Lemma re_split_spec (text : str) :
  exists delimiters,
    interleave (re_split text) delimiters = text
    /\ length (re_split text) = S (length delimiters)
    /\ Forall (fun d => is_delimiter d = true) delimiters
    /\ Forall (Forall (fun c => is_delimiter c = false)) (re_split text).
Proof. exact (re_split_from_spec text [] (List.Forall_nil _)). Qed.

Lemma lstrip_spec (s : str) :
  exists pre, s = pre ++ lstrip s
    /\ Forall (fun c => isspace c = true) pre
    /\ (forall c r, lstrip s = c :: r -> isspace c = false).
Proof.
  induction s as [|c s (pre & Hs & Hpre & Hhd)]; simpl.
  - exists []. repeat split; auto. discriminate.
  - destruct (isspace c) eqn:Hc.
    + exists (c :: pre). simpl. rewrite <- Hs. repeat split; auto.
    + exists []. repeat split; auto. intros c' r [= <- _]. exact Hc.
Qed.

Lemma strip_spec (s : str) :
  exists pre post, s = pre ++ strip s ++ post
    /\ Forall (fun c => isspace c = true) pre
    /\ Forall (fun c => isspace c = true) post
    /\ trimmed (strip s).
Proof.
  destruct (lstrip_spec s) as (pre & Hs & Hpre & Hhd).
  destruct (lstrip_spec (rev (lstrip s))) as (tsop & Ht & Htsop & Hlast).
  exists pre, (rev tsop). unfold strip.
  assert (Hl : lstrip s = rev (lstrip (rev (lstrip s))) ++ rev tsop).
  { rewrite <- rev_app_distr, <- Ht, rev_involutive. reflexivity. }
  repeat split.
  - rewrite <- Hl. exact Hs.
  - exact Hpre.
  - apply Forall_rev. exact Htsop.
  - intros c r Hc. rewrite Hc in Hl. simpl in Hl. exact (Hhd _ _ Hl).
  - intros c r Hc. apply (Hlast c (rev r)).
    rewrite <- (rev_involutive (lstrip (rev (lstrip s)))), Hc, rev_app_distr.
    reflexivity.
Qed.

Lemma split_sentences_filter (text : str) :
  split_sentences text = filter (fun s => s <> []) (map strip (re_split text)).
Proof.
  unfold split_sentences. induction (re_split text) as [|p ps IH]; simpl.
  - reflexivity.
  - rewrite IH, str_eqb_nil. destruct (strip p) eqn:E.
    + rewrite filter_cons_False by (intros H; apply H; reflexivity). reflexivity.
    + rewrite filter_cons_True by discriminate. reflexivity.
Qed.

Lemma is_delimiter_spec (c : N) :
  is_delimiter c = true <-> [c] = u "，" \/ [c] = u "。".
Proof.
  unfold is_delimiter. rewrite orb_true_iff, !N.eqb_eq.
  change (u "，") with [65292%N]. change (u "。") with [12290%N].
  split; intros [H|H]; [left|right|left|right]; congruence.
Qed.

(** What comes out is a list of sentences: not empty, trimmed, and free
    of delimiters. *)
Lemma split_sentences_are_sentences (text s : str) :
  s ∈ split_sentences text ->
  s <> [] /\ trimmed s /\ Forall (fun c => is_delimiter c = false) s.
Proof.
  rewrite split_sentences_filter, list_elem_of_filter, list_elem_of_In, in_map_iff.
  intros (Hne & piece & <- & Hin).
  destruct (re_split_spec text) as (_ & _ & _ & _ & Hpieces).
  rewrite Forall_forall in Hpieces. specialize (Hpieces piece).
  destruct (strip_spec piece) as (pre & post & Hp & _ & _ & Htrim).
  split; [exact Hne|]. split; [exact Htrim|].
  rewrite Hp in Hpieces.
  assert (Hfree : Forall (fun c => is_delimiter c = false)
                    (pre ++ strip piece ++ post)).
  { apply Hpieces. apply list_elem_of_In. rewrite <- Hp. exact Hin. }
  apply Forall_app in Hfree as [_ Hfree]. apply Forall_app in Hfree as [Hfree _].
  exact Hfree.
Qed.

(** C6: the splitter cuts the text at every ， and 。, trims each piece
    and drops the pieces that are empty once trimmed; "A，B。C" gives
    ["A"; "B"; "C"] and "  ，  " gives the empty list. *)
Theorem split_sentences_spec :
  split_sentences (u "A，B。C") = [u "A"; u "B"; u "C"]
  /\ split_sentences (u "  ，  ") = []
  /\ (forall c, is_delimiter c = true <-> [c] = u "，" \/ [c] = u "。")
  /\ (forall text, exists pieces delimiters,
        interleave pieces delimiters = text
        /\ length pieces = S (length delimiters)
        /\ Forall (fun d => is_delimiter d = true) delimiters
        /\ Forall (Forall (fun c => is_delimiter c = false)) pieces
        /\ split_sentences text = filter (fun s => s <> []) (map strip pieces))
  /\ (forall piece, exists pre post,
        piece = pre ++ strip piece ++ post
        /\ Forall (fun c => isspace c = true) pre
        /\ Forall (fun c => isspace c = true) post
        /\ trimmed (strip piece))
  /\ (forall text s,
        s ∈ split_sentences text ->
        s <> [] /\ trimmed s /\ Forall (fun c => is_delimiter c = false) s).
Proof.
  split; [vm_compute; reflexivity|].
  split; [vm_compute; reflexivity|].
  split; [exact is_delimiter_spec|].
  split; [|split].
  - intros text. destruct (re_split_spec text) as (ds & Hi & Hl & Hd & Hp).
    exists (re_split text), ds. repeat split; auto. apply split_sentences_filter.
  - exact strip_spec.
  - exact split_sentences_are_sentences.
Qed.

(** ** The Dify client *)

(** A field that is missing, or present and empty or [None], reads as a
    falsy value. *)
Lemma missing_or_empty_is_falsy (config : list (str * pyval)) (name : str) :
  assoc name config = None \/ assoc name config = Some (PStr [])
  \/ assoc name config = Some PNone ->
  truthy (dict_get config name (PStr [])) = false.
Proof. unfold dict_get. intros [-> | [-> | ->]]; reflexivity. Qed.

(** C8: when one of base_url, api_key, user is missing or empty the
    construction raises a ValueError whose message names such a field,
    the first one in that order; when the three are non-empty it
    succeeds and keeps them. *)
Theorem DifyAPIClient_init_spec (pf : Platform) (config : list (str * pyval)) :
  ((exists name, In name required_names
                 /\ truthy (dict_get config name (PStr [])) = false) ->
   exists name before after,
     required_names = before ++ name :: after
     /\ (forall earlier, In earlier before ->
                         truthy (dict_get config earlier (PStr [])) = true)
     /\ truthy (dict_get config name (PStr [])) = false
     /\ DifyAPIClient_init pf config
        = Raise (ValueError (name ++ u " is required in config but not provided"))
     /\ contains (name ++ u " is required in config but not provided") name = true)
  /\ ((forall name, In name required_names ->
                    truthy (dict_get config name (PStr [])) = true) ->
      DifyAPIClient_init pf config
      = Ok {| base_url := dict_get config (u "base_url") (PStr []);
              api_key := dict_get config (u "api_key") (PStr []);
              user := dict_get config (u "user") (PStr []);
              headers := [ (u "Authorization",
                            u "Bearer " ++ py_str pf (dict_get config (u "api_key") (PStr [])));
                           (u "Content-Type", u "application/json") ] |}).
Proof.
  unfold DifyAPIClient_init, required_names. simpl.
  destruct (truthy (dict_get config (u "base_url") (PStr []))) eqn:Hb;
  destruct (truthy (dict_get config (u "api_key") (PStr []))) eqn:Ha;
  destruct (truthy (dict_get config (u "user") (PStr []))) eqn:Hu; simpl.
  1: { split; [|reflexivity].
       intros (name & [<- | [<- | [<- | []]]] & Hf); congruence. }
  all: split;
    [ intros _
    | intros Hall;
      pose proof (Hall _ (or_introl eq_refl));
      pose proof (Hall _ (or_intror (or_introl eq_refl)));
      pose proof (Hall _ (or_intror (or_intror (or_introl eq_refl))));
      congruence ].
  1: exists (u "user"), [u "base_url"; u "api_key"], [].
  2, 3: exists (u "api_key"), [u "base_url"], [u "user"].
  4, 5, 6, 7: exists (u "base_url"), [], [u "api_key"; u "user"].
  all: split; [reflexivity|];
    split; [intros earlier Hin; simpl in Hin; intuition (subst; assumption)|];
    split; [assumption|]; split; [reflexivity|];
    apply (contains_intro [] _ _).
Qed.

Lemma run_workflow_answered (pf : Platform) (self : DifyAPIClient)
    (inputs : list (str * pyval)) (stream : bool) (w : world) (resp : response) :
  requests_post pf (sent w) (workflow_request pf self inputs stream) = Ok resp ->
  run_workflow pf self inputs stream w
  = (if status_code resp =? 200 then
       if stream then Ok (Streaming (_workflow_streaming_process pf resp))
       else match _workflow_blocking_process pf resp with
            | Ok response_full => Ok (Blocking response_full)
            | Raise e => Raise e
            end
     else Raise (status_error resp),
     after_request w (workflow_request pf self inputs stream)).
Proof.
  intros Hresp. unfold run_workflow, bind, requests_request. rewrite Hresp.
  destruct (status_code resp =? 200); [|reflexivity].
  destruct stream; [reflexivity|].
  unfold lift, ret. destruct (_workflow_blocking_process pf resp); reflexivity.
Qed.

(** C9: a status other than 200 makes [run_workflow] raise an error whose
    message holds the status code and the body, after one request and no
    other; with status 200 the outcome is that of the stage that reads
    the body, and the status check raises nothing. *)
Theorem run_workflow_status (pf : Platform) (self : DifyAPIClient)
    (inputs : list (str * pyval)) (stream : bool) (w : world) (resp : response) :
  requests_post pf (sent w) (workflow_request pf self inputs stream) = Ok resp ->
  let msg := u "Error: " ++ str_of_int (status_code resp) ++ u " - " ++ text resp in
  let w' := after_request w (workflow_request pf self inputs stream) in
  (status_code resp <> 200 ->
   run_workflow pf self inputs stream w = (Raise (Exception msg), w')
   /\ contains msg (str_of_int (status_code resp)) = true
   /\ contains msg (text resp) = true)
  /\ (status_code resp = 200 ->
      run_workflow pf self inputs stream w
      = (if stream then Ok (Streaming (_workflow_streaming_process pf resp))
         else match _workflow_blocking_process pf resp with
              | Ok response_full => Ok (Blocking response_full)
              | Raise e => Raise e
              end,
         w')).
Proof.
  intros Hresp msg w'. rewrite (run_workflow_answered _ _ _ _ _ _ Hresp).
  split; intros Hs.
  - apply Z.eqb_neq in Hs. rewrite Hs. split; [reflexivity|]. split.
    + apply (contains_intro (u "Error: ") _ (u " - " ++ text resp)).
    + unfold msg. rewrite (app_assoc _ (u " - ")), <- (app_nil_r (text resp)) at 1.
      rewrite (app_assoc (u "Error: ")). apply contains_intro.
  - rewrite Hs. reflexivity.
Qed.

(** A line that is empty or does not start with [b'data: '] yields nothing. *)
Lemma stream_line_skipped (pf : Platform) (line : list byte) :
  startswith line (b "data: ") = false -> stream_line pf line = Ok None.
Proof.
  intros H. unfold stream_line, stream_try. rewrite H. destruct line; reflexivity.
Qed.

(** A [data: ] line of valid JSON yields the parsed object, serialized. *)
Lemma stream_line_parsed (pf : Platform) (line : list byte) (decoded : str)
    (data : pyval) :
  startswith line (b "data: ") = true ->
  utf8_decode line = Some decoded ->
  json_loads pf (drop 6 decoded) = inr data ->
  stream_line pf line = Ok (Some (json_dumps pf data)).
Proof.
  intros H Hd Hj. unfold stream_line, stream_try. rewrite H, Hd, Hj.
  destruct line; [discriminate|reflexivity].
Qed.

(** A [data: ] line of text that is not JSON yields an error object with
    the parse error and the raw line. *)
Lemma stream_line_malformed (pf : Platform) (line : list byte) (decoded e : str) :
  startswith line (b "data: ") = true ->
  utf8_decode line = Some decoded ->
  json_loads pf (drop 6 decoded) = inl e ->
  stream_line pf line
  = Ok (Some (json_dumps pf
                (PDict [ (u "error", PStr (u "Failed to parse JSON: " ++ e));
                         (u "raw_line", PStr decoded) ]))).
Proof.
  intros H Hd Hj. unfold stream_line, stream_try, error_data. rewrite H, Hd, Hj.
  destruct line; [discriminate|reflexivity].
Qed.

(** After a line that raised nothing the generator goes on. *)
Lemma stream_lines_continues (pf : Platform) (line : list byte) (rest : list (list byte))
    (y : option str) :
  stream_line pf line = Ok y ->
  yielded (stream_lines pf (line :: rest)) = option_list y ++ yielded (stream_lines pf rest)
  /\ ended_by (stream_lines pf (line :: rest)) = ended_by (stream_lines pf rest).
Proof. intros H. simpl. rewrite H. split; reflexivity. Qed.

(** C10, at a [data: ] line that is not utf-8: the first handler does not
    apply, the second decodes the line again, and the UnicodeDecodeError
    leaves the generator: nothing is yielded for this line nor for the
    lines after it. *)
Theorem stream_line_not_utf8_ends_the_stream (pf : Platform) (rest : list (list byte)) :
  stream_line pf (b "data: " ++ [xff]) = Raise UnicodeDecodeError
  /\ stream_lines pf ((b "data: " ++ [xff]) :: rest)
     = {| yielded := []; ended_by := Some UnicodeDecodeError |}.
Proof. split; reflexivity. Qed.

(** ** The document reader *)

Lemma read_markdown_file (pf : Platform) (filepath : str) (w : world)
    (bs : list byte) (s : str) :
  endswith filepath (u ".md") = true ->
  files w !! filepath = Some bs ->
  utf8_decode bs = Some s ->
  read pf filepath None w = (Ok (PStr (universal_newlines s)), w).
Proof.
  intros He Hf Hd. unfold read, file_type_of, bind, lift. rewrite He. simpl.
  unfold read_markdown, reraising, try_except, bind, os_path_exists, path_exists,
    open_read_text.
  rewrite Hf. simpl. rewrite Hf, Hd. reflexivity.
Qed.

(** An upload named "notes.txt" is turned down with a 500, before any
    request is sent. *)
Lemma upload_txt_is_refused :
  let upload := {| filename := Some (u "notes.txt"); file := b "甲。乙" |} in
  let served :=
    check_duplicate_content_sync (serving (u "one-match")) upload None (disk []) in
  fst served
  = Raise (HTTPException 500
             (u "Error processing file: Unable to determine file type from extension. Please specify file_type."))
  /\ sent (snd served) = []
  /\ files (snd served) = ∅.
Proof. vm_compute. repeat split. Qed.

(** C5, at the path of the docstring of [duplicate]: the reader has no
    branch for ".txt" and raises before any text is read. *)
Theorem duplicate_txt_raises (pf : Platform) (output_path : option str) (w : world) :
  read pf (u "path/to/file.txt") None w = (Raise cannot_determine, w)
  /\ duplicate pf (u "path/to/file.txt") output_path w = (Raise cannot_determine, w).
Proof. split; reflexivity. Qed.

(** ** What a computation does to the files *)

Create HintDb keeps discriminated.

Lemma bind_assoc {A B C} (m : M A) (k : A -> M B) (k' : B -> M C) (w : world) :
  bind (bind m k) k' w = bind m (fun a => bind (k a) k') w.
Proof. unfold bind. destruct (m w) as [[a|e] w1]; reflexivity. Qed.

Lemma bind_ext {A B} (m : M A) (k k' : A -> M B) :
  (forall a w, k a w = k' a w) -> forall w, bind m k w = bind m k' w.
Proof. intros H w. unfold bind. destruct (m w) as [[a|e] w1]; auto. Qed.

Lemma keeps_ret {A} (a : A) : keeps_files (ret a).
Proof. intros w. reflexivity. Qed.

Lemma keeps_raise {A} (e : exn) : keeps_files (@raise A e).
Proof. intros w. reflexivity. Qed.

Lemma keeps_lift {A} (r : outcome A) : keeps_files (lift r).
Proof. intros w. reflexivity. Qed.

Lemma keeps_bind {A B} (m : M A) (k : A -> M B) :
  keeps_files m -> (forall a, keeps_files (k a)) -> keeps_files (bind m k).
Proof.
  intros Hm Hk w. unfold bind. specialize (Hm w).
  destruct (m w) as [[a|e] w1]; simpl in *; [|exact Hm].
  rewrite Hk. exact Hm.
Qed.

Lemma keeps_try_except {A} (m : M A) (h : exn -> M A) :
  keeps_files m -> (forall e, keeps_files (h e)) -> keeps_files (try_except m h).
Proof.
  intros Hm Hh w. unfold try_except. specialize (Hm w).
  destruct (m w) as [[a|e] w1]; simpl in *; [exact Hm|].
  rewrite Hh. exact Hm.
Qed.

Lemma keeps_print (line : str) : keeps_files (print line).
Proof. intros w. reflexivity. Qed.

Lemma keeps_os_path_exists (p : str) : keeps_files (os_path_exists p).
Proof. intros w. reflexivity. Qed.

Lemma keeps_if {A} (c : bool) (m1 m2 : M A) :
  keeps_files m1 -> keeps_files m2 -> keeps_files (if c then m1 else m2).
Proof. destruct c; auto. Qed.

#[local] Hint Resolve keeps_ret keeps_raise keeps_lift keeps_print
  keeps_os_path_exists : keeps.
#[local] Hint Extern 2 (keeps_files (bind _ _)) =>
  apply keeps_bind; [|intros ?] : keeps.
#[local] Hint Extern 2 (keeps_files (try_except _ _)) =>
  apply keeps_try_except; [|intros ?] : keeps.
#[local] Hint Extern 2 (keeps_files (if _ then _ else _)) =>
  apply keeps_if : keeps.

Section KeepsFiles.

Variable pf : Platform.

Lemma keeps_open_read_text (p : str) : keeps_files (open_read_text p).
Proof.
  intros w. unfold open_read_text.
  destruct (files w !! p); [destruct (utf8_decode _)|]; reflexivity.
Qed.

Lemma keeps_open_read_bytes (p : str) : keeps_files (open_read_bytes p).
Proof. intros w. unfold open_read_bytes. destruct (files w !! p); reflexivity. Qed.

Hint Resolve keeps_open_read_text keeps_open_read_bytes : keeps.

Lemma keeps_read (filepath : str) (file_type : option str) :
  keeps_files (read pf filepath file_type).
Proof.
  unfold read, read_markdown, read_word, read_csv, read_excel, reraising.
  apply keeps_bind; [auto with keeps|]. intros t.
  repeat (apply keeps_if); auto 20 with keeps.
Qed.

Lemma keeps_requests_request (rq : request) : keeps_files (requests_request pf rq).
Proof. intros w. reflexivity. Qed.

Hint Resolve keeps_requests_request : keeps.

Lemma keeps_run_workflow (self : DifyAPIClient) (inputs : list (str * pyval))
    (stream : bool) :
  keeps_files (run_workflow pf self inputs stream).
Proof. unfold run_workflow. auto 20 with keeps. Qed.

Lemma keeps_process_sentences (sentences : list str)
    (record : list (str * list (pyval * pyval))) :
  keeps_files (process_sentences pf record sentences).
Proof.
  revert record. induction sentences as [|s rest IH]; intros record; simpl.
  - auto with keeps.
  - pose proof keeps_run_workflow. auto 20 with keeps.
Qed.

End KeepsFiles.

(** ** The loop over the sentences *)

Section Loop.

Variable pf : Platform.

Lemma process_sentences_cons (record : list (str * list (pyval * pyval)))
    (sentence : str) (rest : list str) (w w' : world) (v : pyval) :
  replies pf w sentence v w' ->
  process_sentences pf record (sentence :: rest) w
  = match record_result record sentence (Blocking v) with
    | Ok record' => process_sentences pf record' rest w'
    | Raise e => (Raise e, w')
    end.
Proof.
  intros (client & resp & Hc & Hr & Hs & Hj & ->). simpl.
  unfold bind at 1. unfold lift at 1. rewrite Hc.
  unfold bind at 1.
  rewrite (run_workflow_answered pf client _ false w resp Hr), Hs.
  unfold _workflow_blocking_process. rewrite Hj. simpl.
  unfold bind, lift, after_request, sentence_request.
  destruct (record_result record sentence (Blocking v)); reflexivity.
Qed.

Lemma process_sentences_app (before after : list str)
    (record : list (str * list (pyval * pyval))) (w : world) :
  process_sentences pf record (before ++ after) w
  = bind (process_sentences pf record before)
         (fun record' => process_sentences pf record' after) w.
Proof.
  revert record w. induction before as [|s before IH]; intros record w.
  - reflexivity.
  - simpl. rewrite bind_assoc. apply bind_ext. intros client w1.
    rewrite bind_assoc. apply bind_ext. intros result w2.
    rewrite bind_assoc. apply bind_ext. intros record' w3.
    apply IH.
Qed.

(** The first step of the loop body: the shape of the answer *)
Lemma record_result_not_dict (record : list (str * list (pyval * pyval)))
    (sentence : str) (v : pyval) :
  isinstance_dict v = false ->
  record_result record sentence (Blocking v) = Raise AssertionError.
Proof. destruct v; simpl; intros H; try reflexivity; discriminate. Qed.

Lemma record_result_data_not_dict (record : list (str * list (pyval * pyval)))
    (sentence : str) (d : list (str * pyval)) :
  isinstance_dict (dict_get d (u "data") PNone) = false ->
  record_result record sentence (Blocking (PDict d)) = Raise AssertionError.
Proof. simpl. intros ->. reflexivity. Qed.

Lemma record_result_outputs_not_dict (record : list (str * list (pyval * pyval)))
    (sentence : str) (d data : list (str * pyval)) (outputs : pyval) :
  assoc (u "data") d = Some (PDict data) ->
  assoc (u "outputs") data = Some outputs ->
  isinstance_dict outputs = false ->
  record_result record sentence (Blocking (PDict d))
  = Raise (AttributeError outputs (u "get")).
Proof.
  intros Hd Ho Hn. unfold record_result, dict_get. rewrite Hd. simpl.
  unfold dict_get. rewrite Ho. simpl.
  destruct outputs; simpl in *; try reflexivity; discriminate.
Qed.

Lemma record_result_no_outputs (record : list (str * list (pyval * pyval)))
    (sentence : str) (d data : list (str * pyval)) :
  assoc (u "data") d = Some (PDict data) ->
  assoc (u "outputs") data = None ->
  record_result record sentence (Blocking (PDict d)) = Ok record.
Proof.
  intros Hd Ho. unfold record_result, dict_get. rewrite Hd. simpl.
  unfold dict_get. rewrite Ho. reflexivity.
Qed.

Lemma record_result_no_result (record : list (str * list (pyval * pyval)))
    (sentence : str) (d data outputs : list (str * pyval)) :
  assoc (u "data") d = Some (PDict data) ->
  assoc (u "outputs") data = Some (PDict outputs) ->
  assoc (u "result") outputs = None ->
  record_result record sentence (Blocking (PDict d)) = Ok record.
Proof.
  intros Hd Ho Hr. unfold record_result, dict_get. rewrite Hd. simpl.
  unfold dict_get. rewrite Ho. simpl. unfold dict_get. rewrite Hr. reflexivity.
Qed.

Lemma record_result_found (record : list (str * list (pyval * pyval)))
    (sentence : str) (d data outputs : list (str * pyval)) (result : pyval) :
  assoc (u "data") d = Some (PDict data) ->
  assoc (u "outputs") data = Some (PDict outputs) ->
  assoc (u "result") outputs = Some result ->
  record_result record sentence (Blocking (PDict d))
  = if truthy result then
      match py_len result with
      | Ok n =>
        if (0 <? n)%nat then
          append_matches (dict_set record sentence []) sentence result (seq 0 n)
        else Ok record
      | Raise e => Raise e
      end
    else Ok record.
Proof.
  intros Hd Ho Hr. unfold record_result, dict_get. rewrite Hd. simpl.
  unfold dict_get. rewrite Ho. simpl. unfold dict_get. rewrite Hr. reflexivity.
Qed.

Lemma record_result_empty_list (record : list (str * list (pyval * pyval)))
    (sentence : str) (d data outputs : list (str * pyval)) :
  assoc (u "data") d = Some (PDict data) ->
  assoc (u "outputs") data = Some (PDict outputs) ->
  assoc (u "result") outputs = Some (PList []) ->
  record_result record sentence (Blocking (PDict d)) = Ok record.
Proof.
  intros Hd Ho Hr. rewrite (record_result_found _ _ _ _ _ _ Hd Ho Hr). reflexivity.
Qed.

End Loop.

(** ** The writers and the last step of [duplicate] *)

Section Writers.

Variable pf : Platform.

Lemma overwrite_gate_existing (filepath : str) (w : world) (old : list byte) :
  files w !! filepath = Some old ->
  overwrite_gate pf filepath false w = (Raise (already_exists filepath), w).
Proof.
  intros H. unfold overwrite_gate, bind, os_makedirs, ret, os_path_exists, path_exists.
  rewrite H. reflexivity.
Qed.

Lemma overwrite_gate_free (filepath : str) (overwrite : bool) (w : world) :
  files w !! filepath = None ->
  overwrite_gate pf filepath overwrite w = (Ok tt, w).
Proof.
  intros H. unfold overwrite_gate, bind, os_makedirs, ret, os_path_exists, path_exists.
  rewrite H. reflexivity.
Qed.

Lemma returning_False_gate (label filepath : str) (rest : M bool) (w : world)
    (old : list byte) :
  files w !! filepath = Some old ->
  returning_False pf label (bind (overwrite_gate pf filepath false) (fun _ => rest)) w
  = (Ok false,
     with_line w (label ++ u "File " ++ filepath
                  ++ u " already exists and overwrite is set to False")).
Proof.
  intros H. unfold returning_False, try_except, bind at 1.
  rewrite (overwrite_gate_existing _ _ _ H). reflexivity.
Qed.

Lemma returning_False_never_raises (label : str) (m : M bool) :
  never_raises (returning_False pf label m).
Proof.
  intros w. unfold returning_False, try_except.
  destruct (m w) as [[a|e] w1]; reflexivity.
Qed.

Lemma write_markdown_existing (content filepath : str) (w : world) (old : list byte) :
  files w !! filepath = Some old ->
  write_markdown_try pf content filepath false w = (Raise (already_exists filepath), w)
  /\ write_markdown pf content filepath false w
     = (Ok false,
        with_line w (u "Error writing to markdown file: " ++ u "File " ++ filepath
                     ++ u " already exists and overwrite is set to False")).
Proof.
  intros H. split.
  - unfold write_markdown_try, bind at 1. rewrite (overwrite_gate_existing _ _ _ H).
    reflexivity.
  - apply (returning_False_gate _ _ _ _ _ H).
Qed.

Lemma write_markdown_new (content filepath : str) (w : world) (bs : list byte) :
  files w !! filepath = None ->
  utf8_encode (translate_newlines (os_linesep pf) content) = Some bs ->
  write_markdown pf content filepath false w = (Ok true, with_file w filepath bs).
Proof.
  intros H He. unfold write_markdown, returning_False, try_except, write_markdown_try.
  unfold bind at 1. rewrite (overwrite_gate_free _ _ _ H).
  unfold bind, open_write_text. rewrite He. reflexivity.
Qed.

(** The words [file_type_of] returns, and the branch [write] takes *)
Lemma file_type_of_cases (filepath : str) (t : str) :
  file_type_of filepath None = Ok t ->
  t = u "markdown" \/ t = u "word" \/ t = u "csv" \/ t = u "excel".
Proof.
  unfold file_type_of.
  destruct (endswith filepath (u ".md") || endswith filepath (u ".markdown"));
    [intros [= <-]; auto|].
  destruct (endswith filepath (u ".docx")); [intros [= <-]; auto|].
  destruct (endswith filepath (u ".csv")); [intros [= <-]; auto|].
  destruct (endswith filepath (u ".xlsx") || endswith filepath (u ".xls"));
    [intros [= <-]; auto 6|].
  discriminate.
Qed.

Lemma write_existing (content filepath : str) (w : world) (old : list byte) :
  files w !! filepath = Some old ->
  raised (file_type_of filepath None) = false ->
  exists label,
    write pf (PStr content) filepath None false w
    = (Ok false,
       with_line w (label ++ u "File " ++ filepath
                    ++ u " already exists and overwrite is set to False")).
Proof.
  intros H Ht. unfold write, bind at 1, lift.
  destruct (file_type_of filepath None) as [t|e] eqn:E; [|discriminate].
  destruct (file_type_of_cases _ _ E) as [-> | [-> | [-> | ->]]].
  - exists (u "Error writing to markdown file: ").
    apply (returning_False_gate _ _ _ _ _ H).
  - exists (u "Error writing to Word file: ").
    apply (returning_False_gate _ _ _ _ _ H).
  - exists (u "Error writing to CSV file: ").
    apply (returning_False_gate _ _ _ _ _ H).
  - exists (u "Error writing to Excel file: ").
    apply (returning_False_gate _ _ _ _ _ H).
Qed.

Lemma write_unrecognised (content : pyval) (filepath : str) (w : world) :
  raised (file_type_of filepath None) = true ->
  write pf content filepath None false w = (Raise cannot_determine, w).
Proof.
  unfold write, bind at 1, lift, file_type_of.
  destruct (endswith filepath (u ".md") || endswith filepath (u ".markdown"));
    [discriminate|].
  destruct (endswith filepath (u ".docx")); [discriminate|].
  destruct (endswith filepath (u ".csv")); [discriminate|].
  destruct (endswith filepath (u ".xlsx") || endswith filepath (u ".xls"));
    [discriminate|].
  reflexivity.
Qed.

Lemma write_branches (content : str) (filepath : str) (w : world) (t : str) :
  file_type_of filepath None = Ok t ->
  write pf (PStr content) filepath None false w
  = write_markdown pf content filepath false w
  \/ write pf (PStr content) filepath None false w
     = write_word pf content filepath false w
  \/ write pf (PStr content) filepath None false w
     = write_csv pf (PStr content) filepath false w
  \/ write pf (PStr content) filepath None false w
     = write_excel pf (PStr content) filepath (u "Sheet1") false w.
Proof.
  intros E. unfold write, bind at 1, lift. rewrite E.
  destruct (file_type_of_cases _ _ E) as [-> | [-> | [-> | ->]]];
    [left | right; left | right; right; left | right; right; right]; reflexivity.
Qed.

Lemma write_raising_keeps_files (content : str) (filepath : str) :
  raising_keeps_files (write pf (PStr content) filepath None false).
Proof.
  intros w.
  destruct (file_type_of filepath None) as [t|e] eqn:E.
  - destruct (write_branches content filepath w t E) as [-> | [-> | [-> | ->]]];
      unfold write_markdown, write_word, write_csv, write_excel;
      rewrite returning_False_never_raises; discriminate.
  - unfold write, bind at 1, lift. rewrite E. reflexivity.
Qed.

Lemma duplicate_unfold (file_path : str) (output_path : option str) (w : world) :
  duplicate pf file_path output_path w
  = match read pf file_path None w with
    | (Raise e, w1) => (Raise e, w1)
    | (Ok content, w1) =>
      match process_sentences pf [] (split_sentences (py_str pf content)) w1 with
      | (Raise e, w2) => (Raise e, w2)
      | (Ok record, w2) =>
        match write pf (PStr (render pf record))
                (chosen_output_path pf file_path output_path w2) None false w2 with
        | (Ok _, w3) => (Ok tt, w3)
        | (Raise e, w3) => (Raise e, w3)
        end
      end
    end.
Proof.
  unfold duplicate, bind at 1.
  destruct (read pf file_path None w) as [[content|e] w1]; [|reflexivity].
  unfold bind at 1.
  destruct (process_sentences pf [] _ w1) as [[record|e] w2]; [|reflexivity].
  unfold chosen_output_path.
  destruct output_path as [p|]; unfold bind, ret, default_output_path, bind, ret,
    datetime_now_stamp, os_makedirs, ret.
  - destruct (negb (str_eqb (os_path_dirname pf p) []));
      destruct (write pf _ p None false w2) as [[r|e] w3]; reflexivity.
  - match goal with
    | |- context [write pf ?c ?p None false w2] =>
      destruct (negb (str_eqb (os_path_dirname pf p) []));
      destruct (write pf c p None false w2) as [[r|e] w3]; reflexivity
    end.
Qed.

(** A run of [duplicate] that raises has written no file. *)
Lemma duplicate_raising_keeps_files (file_path : str) (output_path : option str) :
  raising_keeps_files (duplicate pf file_path output_path).
Proof.
  intros w. rewrite duplicate_unfold.
  pose proof (keeps_read pf file_path None w) as Hread.
  destruct (read pf file_path None w) as [[content|e] w1]; simpl in Hread;
    [|intros _; exact Hread].
  pose proof (keeps_process_sentences pf (split_sentences (py_str pf content)) [] w1)
    as Hloop.
  destruct (process_sentences pf [] _ w1) as [[record|e] w2]; simpl in Hloop;
    [|intros _; simpl; congruence].
  pose proof (write_raising_keeps_files (render pf record)
                (chosen_output_path pf file_path output_path w2) w2) as Hw.
  destruct (write pf _ _ None false w2) as [[r|e] w3]; simpl in *;
    [discriminate|].
  intros _. rewrite Hw by reflexivity. congruence.
Qed.

End Writers.

(** ** The pipeline and the shape of the answers *)

Section Pipeline.

Variable pf : Platform.

Lemma process_sentences_no_match (sentences : list str)
    (record : list (str * list (pyval * pyval))) (w : world) :
  replies_no_match pf ->
  exists w', process_sentences pf record sentences w = (Ok record, w')
             /\ files w' = files w.
Proof.
  intros [[client Hc] Hall]. revert w.
  induction sentences as [|s rest IH]; intros w.
  - exists w. split; reflexivity.
  - destruct (Hall (sent w) (sentence_request pf client s))
      as (resp & d & data & outputs & Hr & Hs & Hj & Hd & Ho & He).
    rewrite (process_sentences_cons pf record s rest w
               (after_request w (sentence_request pf client s)) (PDict d)).
    + rewrite (record_result_empty_list _ _ _ _ _ Hd Ho He).
      destruct (IH (after_request w (sentence_request pf client s))) as (w' & -> & Hf).
      exists w'. split; [reflexivity|exact Hf].
    + exists client, resp. repeat split; assumption.
Qed.

Lemma write_new_markdown (content out : str) (w : world) (bs : list byte) :
  endswith out (u ".md") = true ->
  files w !! out = None ->
  utf8_encode (translate_newlines (os_linesep pf) content) = Some bs ->
  write pf (PStr content) out None false w = (Ok true, with_file w out bs).
Proof.
  intros He Hf Hb. unfold write, bind at 1, lift, file_type_of. rewrite He.
  apply (write_markdown_new pf _ _ _ _ Hf Hb).
Qed.

(** C7: an answer whose [result] is an empty list adds nothing to the
    record; with no entry the report is the header "# 重复内容检测结果"
    and two line feeds, nothing else; and that is the file [duplicate]
    writes when every answer holds an empty list. *)
Theorem empty_result_header_only :
  (forall record sentence d data outputs,
      assoc (u "data") d = Some (PDict data) ->
      assoc (u "outputs") data = Some (PDict outputs) ->
      assoc (u "result") outputs = Some (PList []) ->
      record_result record sentence (Blocking (PDict d)) = Ok record)
  /\ render pf [] = u "# 重复内容检测结果" ++ [LF; LF]
  /\ (replies_no_match pf ->
      forall sentences w,
      exists w', process_sentences pf [] sentences w = (Ok [], w')
                 /\ files w' = files w)
  /\ (replies_no_match pf ->
      forall file_path out w content bs,
        fst (read pf file_path None w) = Ok content ->
        endswith out (u ".md") = true ->
        files w !! out = None ->
        utf8_encode (translate_newlines (os_linesep pf)
                       (u "# 重复内容检测结果" ++ [LF; LF])) = Some bs ->
        exists w', duplicate pf file_path (Some out) w = (Ok tt, w')
                   /\ files w' = <[out := bs]> (files w)).
Proof.
  split; [intros; eapply record_result_empty_list; eassumption|].
  split; [reflexivity|].
  split; [intros H sentences w; apply process_sentences_no_match; exact H|].
  intros H file_path out w content bs Hread He Hf Hb.
  rewrite duplicate_unfold.
  pose proof (keeps_read pf file_path None w) as Hk.
  destruct (read pf file_path None w) as [[c|e] w1]; simpl in Hread, Hk;
    [|discriminate].
  injection Hread as ->.
  destruct (process_sentences_no_match (split_sentences (py_str pf content)) [] w1 H)
    as (w2 & -> & Hf2).
  unfold chosen_output_path.
  rewrite (write_new_markdown (render pf []) out w2 bs He); [| congruence | exact Hb].
  exists (with_file w2 out bs). split; [reflexivity|]. simpl. congruence.
Qed.

(** C1, as the code has it: an answer that is not a dict, or whose [data]
    is missing or not a dict, raises AssertionError (an [outputs] that is
    present and not a dict raises AttributeError); the run stops at that
    sentence, and a run that raises writes no file. An answer whose
    [outputs] or [result] key is absent raises nothing: the sentence adds
    no entry and the loop goes on. *)
Theorem unexpected_response_shape :
  (forall record sentence v,
      isinstance_dict v = false ->
      record_result record sentence (Blocking v) = Raise AssertionError)
  /\ (forall record sentence d,
      isinstance_dict (dict_get d (u "data") PNone) = false ->
      record_result record sentence (Blocking (PDict d)) = Raise AssertionError)
  /\ (forall record sentence d data outputs,
      assoc (u "data") d = Some (PDict data) ->
      assoc (u "outputs") data = Some outputs ->
      isinstance_dict outputs = false ->
      record_result record sentence (Blocking (PDict d))
      = Raise (AttributeError outputs (u "get")))
  /\ (forall record sentence d data,
      assoc (u "data") d = Some (PDict data) ->
      assoc (u "outputs") data = None ->
      record_result record sentence (Blocking (PDict d)) = Ok record)
  /\ (forall record sentence d data outputs,
      assoc (u "data") d = Some (PDict data) ->
      assoc (u "outputs") data = Some (PDict outputs) ->
      assoc (u "result") outputs = None ->
      record_result record sentence (Blocking (PDict d)) = Ok record)
  /\ (forall record before sentence after w record1 w1 v w2 e,
      process_sentences pf record before w = (Ok record1, w1) ->
      replies pf w1 sentence v w2 ->
      record_result record1 sentence (Blocking v) = Raise e ->
      process_sentences pf record (before ++ sentence :: after) w = (Raise e, w2)
      /\ files w2 = files w)
  /\ (forall file_path output_path w content e,
      fst (read pf file_path None w) = Ok content ->
      fst (process_sentences pf [] (split_sentences (py_str pf content))
             (snd (read pf file_path None w))) = Raise e ->
      fst (duplicate pf file_path output_path w) = Raise e)
  /\ (forall file_path output_path w e,
      fst (duplicate pf file_path output_path w) = Raise e ->
      files (snd (duplicate pf file_path output_path w)) = files w).
Proof.
  split; [intros; apply record_result_not_dict; assumption|].
  split; [intros; apply record_result_data_not_dict; assumption|].
  split; [intros; eapply record_result_outputs_not_dict; eassumption|].
  split; [intros; eapply record_result_no_outputs; eassumption|].
  split; [intros; eapply record_result_no_result; eassumption|].
  split; [|split].
  - intros record before sentence after w record1 w1 v w2 e Hb Hr He.
    rewrite process_sentences_app. unfold bind. rewrite Hb.
    rewrite (process_sentences_cons pf record1 sentence after w1 w2 v Hr), He.
    split; [reflexivity|].
    destruct Hr as (client & resp & _ & _ & _ & _ & ->). simpl.
    pose proof (keeps_process_sentences pf before record w) as Hk.
    rewrite Hb in Hk. exact Hk.
  - intros file_path output_path w content e Hread Hloop.
    rewrite duplicate_unfold.
    destruct (read pf file_path None w) as [[c|e'] w1]; simpl in *; [|discriminate].
    injection Hread as ->.
    destruct (process_sentences pf [] _ w1) as [[r|e'] w2]; simpl in *;
      [discriminate|congruence].
  - intros file_path output_path w e H.
    apply duplicate_raising_keeps_files. rewrite H. reflexivity.
Qed.

End Pipeline.

(** ** The report *)

Lemma contains_witness (s p pre post : str) :
  s = pre ++ p ++ post -> contains s p = true.
Proof. intros ->. apply contains_intro. Qed.

Section Report.

Variable pf : Platform.

Lemma render_one_match (sentence : str) :
  render pf [(sentence, [(PStr (u "X"), PFloat (u "0.9"))])]
  = u "# 重复内容检测结果" ++ [LF; LF]
    ++ u "## 原句" ++ [LF; LF] ++ sentence ++ [LF; LF]
    ++ u "### 重复内容" ++ [LF; LF]
    ++ u "**重复项 1** (Similarity: 0.9)" ++ [LF; LF]
    ++ u "X" ++ [LF; LF]
    ++ u "---" ++ [LF; LF].
Proof.
  unfold render, flat_map, render_section. rewrite app_nil_r.
  rewrite <- ?app_assoc. reflexivity.
Qed.

Lemma record_result_one_match (sentence : str)
    (d data outputs item metadata : list (str * pyval)) (content score : pyval) :
  assoc (u "data") d = Some (PDict data) ->
  assoc (u "outputs") data = Some (PDict outputs) ->
  assoc (u "result") outputs = Some (PList [PDict item]) ->
  assoc (u "content") item = Some content ->
  assoc (u "metadata") item = Some (PDict metadata) ->
  assoc (u "score") metadata = Some score ->
  record_result [] sentence (Blocking (PDict d)) = Ok [(sentence, [(content, score)])].
Proof.
  intros Hd Ho Hr Hc Hm Hs.
  rewrite (record_result_found _ _ _ _ _ _ Hd Ho Hr). simpl.
  rewrite Hc, Hm. simpl. rewrite Hs. simpl.
  rewrite str_eqb_refl. reflexivity.
Qed.

(** C3, as the code has it: one sentence whose answer holds the single
    match {content: "X", metadata: {score: 0.9}} gives the record
    {sentence: [("X", 0.9)]}, and the report holds "原句", the sentence,
    "**重复项 1** (Similarity: 0.9)" (the label is set in bold) and "X". *)
Theorem one_match_report (sentence : str) (w w' : world)
    (d data outputs item metadata : list (str * pyval)) :
  replies pf w sentence (PDict d) w' ->
  assoc (u "data") d = Some (PDict data) ->
  assoc (u "outputs") data = Some (PDict outputs) ->
  assoc (u "result") outputs = Some (PList [PDict item]) ->
  assoc (u "content") item = Some (PStr (u "X")) ->
  assoc (u "metadata") item = Some (PDict metadata) ->
  assoc (u "score") metadata = Some (PFloat (u "0.9")) ->
  let record := [(sentence, [(PStr (u "X"), PFloat (u "0.9"))])] in
  process_sentences pf [] [sentence] w = (Ok record, w')
  /\ contains (render pf record) (u "原句") = true
  /\ contains (render pf record) sentence = true
  /\ contains (render pf record) (u "**重复项 1** (Similarity: 0.9)") = true
  /\ contains (render pf record) (u "X") = true.
Proof.
  intros Hrep Hd Ho Hr Hc Hm Hs record. split.
  - rewrite (process_sentences_cons pf [] sentence [] w w' (PDict d) Hrep).
    rewrite (record_result_one_match sentence _ _ _ _ _ _ _ Hd Ho Hr Hc Hm Hs).
    reflexivity.
  - unfold record. rewrite render_one_match. split; [|split; [|split]].
    + apply (contains_witness _ _ (u "# 重复内容检测结果" ++ [LF; LF] ++ u "## ")
               ([LF; LF] ++ sentence ++ [LF; LF]
                ++ u "### 重复内容" ++ [LF; LF]
                ++ u "**重复项 1** (Similarity: 0.9)" ++ [LF; LF]
                ++ u "X" ++ [LF; LF] ++ u "---" ++ [LF; LF])).
      reflexivity.
    + apply (contains_witness _ _
               (u "# 重复内容检测结果" ++ [LF; LF] ++ u "## 原句" ++ [LF; LF])
               ([LF; LF] ++ u "### 重复内容" ++ [LF; LF]
                ++ u "**重复项 1** (Similarity: 0.9)" ++ [LF; LF]
                ++ u "X" ++ [LF; LF] ++ u "---" ++ [LF; LF])).
      reflexivity.
    + apply (contains_witness _ _
               (u "# 重复内容检测结果" ++ [LF; LF] ++ u "## 原句" ++ [LF; LF]
                ++ sentence ++ [LF; LF] ++ u "### 重复内容" ++ [LF; LF])
               ([LF; LF] ++ u "X" ++ [LF; LF] ++ u "---" ++ [LF; LF])).
      rewrite <- ?app_assoc. reflexivity.
    + apply (contains_witness _ _
               (u "# 重复内容检测结果" ++ [LF; LF] ++ u "## 原句" ++ [LF; LF]
                ++ sentence ++ [LF; LF] ++ u "### 重复内容" ++ [LF; LF]
                ++ u "**重复项 1** (Similarity: 0.9)" ++ [LF; LF])
               ([LF; LF] ++ u "---" ++ [LF; LF])).
      rewrite <- ?app_assoc. reflexivity.
Qed.

Lemma file_type_of_known (filepath : str) :
  raised (file_type_of filepath None)
  = negb (existsb (endswith filepath)
            [u ".md"; u ".markdown"; u ".docx"; u ".csv"; u ".xlsx"; u ".xls"]).
Proof.
  unfold file_type_of. cbn [existsb].
  destruct (endswith filepath (u ".md")), (endswith filepath (u ".markdown")),
    (endswith filepath (u ".docx")), (endswith filepath (u ".csv")),
    (endswith filepath (u ".xlsx")), (endswith filepath (u ".xls")); reflexivity.
Qed.

(** C4, at an output path that names a file that is there, whether the
    caller gave the path or [duplicate] chose it. With one of the
    extensions .md, .markdown, .docx, .csv, .xlsx, .xls the writer raises
    FileExistsError in its [try] block, prints it and returns False, and
    [duplicate] returns without raising. With any other extension, such
    as the 'path/to/output.txt' of the docstring of [duplicate], [write]
    raises ValueError before a writer runs and [duplicate] raises with
    it. Either way the file keeps its content, every file is as it was,
    and the report is not written. *)
Theorem duplicate_existing_output (file_path : str) (output_path : option str)
    (w w2 : world) (old : list byte) (content : pyval)
    (record : list (str * list (pyval * pyval))) :
  fst (read pf file_path None w) = Ok content ->
  process_sentences pf [] (split_sentences (py_str pf content))
    (snd (read pf file_path None w)) = (Ok record, w2) ->
  let out := chosen_output_path pf file_path output_path w2 in
  let known :=
    existsb (endswith out)
      [u ".md"; u ".markdown"; u ".docx"; u ".csv"; u ".xlsx"; u ".xls"] in
  files w !! out = Some old ->
  (known = true ->
   (exists label,
       write pf (PStr (render pf record)) out None false w2
       = (Ok false,
          with_line w2 (label ++ u "File " ++ out
                        ++ u " already exists and overwrite is set to False")))
   /\ (endswith out (u ".md") = true \/ endswith out (u ".markdown") = true ->
       write_markdown_try pf (render pf record) out false w2
       = (Raise (FileExistsError
                   (u "File " ++ out ++ u " already exists and overwrite is set to False")),
          w2))
   /\ (exists w3,
         duplicate pf file_path output_path w = (Ok tt, w3)
         /\ files w3 = files w
         /\ files w3 !! out = Some old))
  /\ (known = false ->
      write pf (PStr (render pf record)) out None false w2
      = (Raise (ValueError
                  (u "Unable to determine file type from extension. Please specify file_type.")),
         w2)
      /\ duplicate pf file_path output_path w
         = (Raise (ValueError
                     (u "Unable to determine file type from extension. Please specify file_type.")),
            w2)
      /\ files w2 = files w
      /\ files w2 !! out = Some old)
  /\ (output_path = Some (u "path/to/output.txt") -> known = false).
Proof.
  intros Hread Hloop out known Hold.
  pose proof (keeps_read pf file_path None w) as Hk1.
  pose proof (keeps_process_sentences pf (split_sentences (py_str pf content)) []
                (snd (read pf file_path None w))) as Hk2.
  rewrite Hloop in Hk2. cbn [snd] in Hk2.
  assert (Hfiles : files w2 = files w) by (rewrite Hk2, Hk1; reflexivity).
  assert (Hold2 : files w2 !! out = Some old) by (rewrite Hfiles; exact Hold).
  assert (Hrun : duplicate pf file_path output_path w
                 = match write pf (PStr (render pf record)) out None false w2 with
                   | (Ok _, w3) => (Ok tt, w3)
                   | (Raise e, w3) => (Raise e, w3)
                   end).
  { rewrite duplicate_unfold.
    destruct (read pf file_path None w) as [[c|e] w1]; cbn [fst snd] in *;
      [|discriminate].
    injection Hread as ->. rewrite Hloop. reflexivity. }
  pose proof (file_type_of_known out) as Hknown. fold known in Hknown.
  split; [|split].
  - intros Hk. rewrite Hk in Hknown.
    destruct (write_existing pf (render pf record) out w2 old Hold2 Hknown)
      as [label Hw].
    split; [exists label; exact Hw|].
    split; [intros _; apply (write_markdown_existing pf _ _ _ _ Hold2)|].
    rewrite Hrun, Hw. eexists. split; [reflexivity|].
    cbn [files with_line]. split; [exact Hfiles|exact Hold2].
  - intros Hk. rewrite Hk in Hknown.
    pose proof (write_unrecognised pf (PStr (render pf record)) out w2 Hknown) as Hw.
    split; [exact Hw|]. split; [rewrite Hrun, Hw; reflexivity|].
    split; [exact Hfiles|exact Hold2].
  - intros ->. reflexivity.
Qed.

End Report.

(** ** The two endpoints *)

Section Endpoints.

Variable pf : Platform.

Lemma try_pass_unlink_files (p : str) (w : world) :
  fst (try_pass (os_unlink p) w) = Ok tt
  /\ files (snd (try_pass (os_unlink p) w)) = delete p (files w).
Proof.
  unfold try_pass, try_except, os_unlink.
  destruct (files w !! p) eqn:E; simpl; split; try reflexivity.
  symmetry. apply delete_id. exact E.
Qed.

Lemma on_error_files (tmp rop : str) (output_path : option str) (e : exn) (w : world)
    (bs : list byte) :
  files w !! tmp = Some bs ->
  fst (on_error pf tmp output_path rop e w)
  = Raise (HTTPException 500 (u "Error processing file: " ++ exn_str pf e))
  /\ files (snd (on_error pf tmp output_path rop e w))
     = if supplied output_path then delete rop (delete tmp (files w))
       else delete tmp (files w).
Proof.
  intros Htmp. unfold on_error. fold (supplied output_path).
  destruct (supplied output_path);
    unfold try_pass, try_except, bind, os_unlink, os_path_exists, path_exists,
      ret, raise, without_file;
    rewrite Htmp; cbn [files fst snd]; [|split; reflexivity].
  destruct (delete tmp (files w) !! rop) eqn:E; cbn [files fst snd];
    rewrite ?E; cbn [files fst snd]; split; try reflexivity.
  symmetry. apply delete_id. exact E.
Qed.

Lemma endpoint_sync_spec (upload : UploadFile) (output_path : option str) (w : world) :
  let tmp := upload_tmp_path pf upload w in
  let w1 := with_file w tmp (file upload) in
  let rop := chosen_output_path pf tmp output_path w1 in
  let run := duplicate pf tmp (Some rop) w1 in
  let served := check_duplicate_content_sync pf upload output_path w in
  match fst run with
  | Ok _ =>
    fst served = Ok (completed pf rop)
    /\ files (snd served) = delete tmp (files (snd run))
  | Raise e =>
    fst served = Raise (HTTPException 500 (u "Error processing file: " ++ exn_str pf e))
    /\ files (snd served)
       = if supplied output_path then delete rop (delete tmp (files w))
         else delete tmp (files w)
  end.
Proof.
  intros tmp w1 rop run served.
  assert (Hserved : served
    = try_finally
        (try_except
           (bind (process_file_sync pf tmp (Some rop)) (fun _ => ret (completed pf rop)))
           (on_error pf tmp output_path rop))
        (try_pass (os_unlink tmp)) w1).
  { unfold served, check_duplicate_content_sync.
    unfold bind at 1. unfold save_upload.
    fold (upload_tmp_path pf upload w). fold tmp. fold w1.
    unfold bind at 1. unfold rop, chosen_output_path, result_output_path_of.
    destruct output_path as [p|]; reflexivity. }
  rewrite Hserved. clear Hserved served.
  pose proof (duplicate_raising_keeps_files pf tmp (Some rop) w1) as Hkeep.
  unfold try_finally, try_except, process_file_sync, bind, ret.
  unfold run. clear run.
  destruct (duplicate pf tmp (Some rop) w1) as [[[]|e] w2]; cbn [fst snd] in *.
  - split; [reflexivity|]. apply try_pass_unlink_files.
  - assert (Htmp : files w2 !! tmp = Some (file upload)).
    { rewrite Hkeep by reflexivity. unfold w1, with_file. cbn [files].
      apply lookup_insert_eq. }
    destruct (on_error_files tmp rop output_path e w2 _ Htmp) as [Hr Hf].
    destruct (on_error pf tmp output_path rop e w2) as [r w3]; cbn [fst snd] in *.
    split; [exact Hr|].
    rewrite (proj2 (try_pass_unlink_files tmp w3)), Hf, (Hkeep eq_refl).
    unfold w1, with_file. cbn [files]. rewrite delete_insert_eq.
    destruct (supplied output_path).
    + rewrite (delete_delete _ tmp rop), delete_delete_eq. reflexivity.
    + apply delete_delete_eq.
Qed.

(** C2, as the code has it: on both endpoints the temporary input file
    is gone after the request, whatever the outcome; the two endpoints
    clean up alike: when the run fails, each deletes the file at the
    output path if the caller supplied one, and a run that succeeds
    keeps its output. *)
Theorem upload_cleanup (upload : UploadFile) (output_path : option str) (w : world) :
  let tmp := upload_tmp_path pf upload w in
  let w1 := with_file w tmp (file upload) in
  let rop := chosen_output_path pf tmp output_path w1 in
  let run := duplicate pf tmp (Some rop) w1 in
  let sync := check_duplicate_content_sync pf upload output_path w in
  let async := check_duplicate_content_async pf upload output_path w in
  async = sync
  /\ files (snd sync) !! tmp = None
  /\ files (snd async) !! tmp = None
  /\ match fst run with
     | Ok _ =>
       fst async = Ok (completed pf rop)
       /\ files (snd async) = delete tmp (files (snd run))
     | Raise e =>
       fst async
       = Raise (HTTPException 500 (u "Error processing file: " ++ exn_str pf e))
       /\ files (snd async)
          = if supplied output_path then delete rop (delete tmp (files w))
            else delete tmp (files w)
     end.
Proof.
  intros tmp w1 rop run sync async.
  assert (Heq : async = sync) by reflexivity.
  pose proof (endpoint_sync_spec upload output_path w) as H.
  cbv zeta in H. fold tmp w1 rop run sync in H.
  assert (Hgone : files (snd sync) !! tmp = None).
  { destruct (fst run); destruct H as [_ ->].
    - apply lookup_delete_eq.
    - destruct (supplied output_path).
      + rewrite delete_delete. apply lookup_delete_eq.
      + apply lookup_delete_eq. }
  rewrite Heq. repeat split; try assumption.
Qed.

End Endpoints.

(** * Runs on the platform of the examples *)

(** C1 fails as stated: with answers that have no [outputs] key, or an
    [outputs] without [result], the run over two sentences raises
    nothing, sends both requests and writes its report. *)
Lemma absent_outputs_or_result_raises_nothing :
  let w := disk [(u "in.md", b "甲。乙")] in
  let run1 := duplicate (serving (u "no-outputs")) (u "in.md") (Some (u "out.md")) w in
  let run2 := duplicate (serving (u "no-result")) (u "in.md") (Some (u "out.md")) w in
  (fst run1 = Ok tt
   /\ length (sent (snd run1)) = 2%nat
   /\ file_text (snd run1) (u "out.md") = Some (u "# 重复内容检测结果" ++ [LF; LF]))
  /\ (fst run2 = Ok tt
      /\ length (sent (snd run2)) = 2%nat
      /\ file_text (snd run2) (u "out.md") = Some (u "# 重复内容检测结果" ++ [LF; LF])).
Proof. vm_compute. repeat split. Qed.

(** C2 fails as stated: the asynchronous endpoint deletes the file at the
    output path when the run fails, as the synchronous one does. *)
Lemma async_failure_deletes_output :
  let w := disk [(u "out.md", b "old")] in
  let upload := {| filename := Some (u "doc.md"); file := b "甲。乙" |} in
  let served := check_duplicate_content_async failing upload (Some (u "out.md")) w in
  files w !! u "out.md" = Some (b "old")
  /\ fst served
     = Raise (HTTPException 500 (u "Error processing file: Error: 500 - oops"))
  /\ files (snd served) !! u "out.md" = None.
Proof. vm_compute. repeat split. Qed.

(** C3 fails as stated: the report of the one match holds the label in
    bold, "**重复项 1** (Similarity: 0.9)", and nowhere the plain text
    "重复项 1 (Similarity: 0.9)". *)
Lemma plain_label_not_in_report :
  let w := disk [(u "in.md", b "甲")] in
  let run := duplicate (serving (u "one-match")) (u "in.md") (Some (u "out.md")) w in
  fst run = Ok tt
  /\ option_map (fun report => contains report (u "**重复项 1** (Similarity: 0.9)"))
       (file_text (snd run) (u "out.md")) = Some true
  /\ option_map (fun report => contains report (u "重复项 1 (Similarity: 0.9)"))
       (file_text (snd run) (u "out.md")) = Some false.
Proof. vm_compute. repeat split. Qed.

Lemma serving_replies (body : str) (v : pyval) (w : world) (sentence : str) :
  assoc body bodies = Some v ->
  replies (serving body) w sentence v
    (after_request w (sentence_request (serving body) demo_client sentence)).
Proof.
  intros H. exists demo_client, {| status_code := 200; text := body; iter_lines := [] |}.
  split; [reflexivity|]. split; [reflexivity|]. split; [reflexivity|].
  split; [|reflexivity]. simpl. unfold table_loads. rewrite H. reflexivity.
Defined.

Lemma serving_empty_result_replies_no_match : replies_no_match (serving (u "empty-result")).
Proof.
  split.
  - exists demo_client. reflexivity.
  - intros sent_before rq.
    exists {| status_code := 200; text := u "empty-result"; iter_lines := [] |},
      [ (u "data", PDict [ (u "outputs", PDict [ (u "result", PList []) ]) ]) ],
      [ (u "outputs", PDict [ (u "result", PList []) ]) ],
      [ (u "result", PList []) ].
    repeat split.
Defined.

(** C1 at work: the second of three sentences gets an answer without
    [data]; the run stops there with AssertionError and no file changes. *)
Lemma unexpected_response_shape_witness :
  let pf := demo_platform
              (scripted [(200, u "empty-result"); (200, u "no-data");
                         (200, u "one-match")]) bodies in
  let w := disk [(u "in.md", b "甲。乙。丙")] in
  exists w', process_sentences pf [] ([u "甲"] ++ u "乙" :: [u "丙"]) w
             = (Raise AssertionError, w')
             /\ files w' = files w.
Proof.
  intros pf w.
  pose (rq := fun s => sentence_request pf demo_client s).
  exists (after_request (after_request w (rq (u "甲"))) (rq (u "乙"))).
  refine (proj1 (proj2 (proj2 (proj2 (proj2 (proj2
            (unexpected_response_shape pf))))))
            [] [u "甲"] (u "乙") [u "丙"] w [] (after_request w (rq (u "甲")))
            no_data _ AssertionError _ _ _).
  - reflexivity.
  - exists demo_client, {| status_code := 200; text := u "no-data"; iter_lines := [] |}.
    repeat split.
  - reflexivity.
Defined.

(** C3 at work *)
Lemma one_match_report_witness :
  let pf := serving (u "one-match") in
  let w := disk [(u "in.md", b "甲")] in
  let record := [(u "甲", [(PStr (u "X"), PFloat (u "0.9"))])] in
  fst (process_sentences pf [] [u "甲"] w) = Ok record
  /\ contains (render pf record) (u "原句") = true
  /\ contains (render pf record) (u "甲") = true
  /\ contains (render pf record) (u "**重复项 1** (Similarity: 0.9)") = true
  /\ contains (render pf record) (u "X") = true.
Proof.
  intros pf w record.
  destruct (one_match_report pf (u "甲") w _ _ _ _ _ _
              (serving_replies (u "one-match") one_match w (u "甲") eq_refl)
              eq_refl eq_refl eq_refl eq_refl eq_refl eq_refl)
    as (Hrun & H1 & H2 & H3 & H4).
  split; [rewrite Hrun; reflexivity|]. repeat split; assumption.
Defined.

(** C4 at work: the report is due at "out.md", which is there, and the
    run returns; it is due at "path/to/output.txt", which is there, and
    the run raises. Both files keep their content. *)
Lemma duplicate_existing_output_witness :
  let pf := serving (u "empty-result") in
  let w := disk [ (u "in.md", b "甲"); (u "out.md", b "old");
                  (u "path/to/output.txt", b "old") ] in
  let w2 := after_request w (sentence_request pf demo_client (u "甲")) in
  (exists w3, duplicate pf (u "in.md") (Some (u "out.md")) w = (Ok tt, w3)
              /\ files w3 = files w
              /\ files w3 !! u "out.md" = Some (b "old"))
  /\ duplicate pf (u "in.md") (Some (u "path/to/output.txt")) w
     = (Raise (ValueError
                 (u "Unable to determine file type from extension. Please specify file_type.")),
        w2)
  /\ files w2 !! u "path/to/output.txt" = Some (b "old").
Proof.
  intros pf w w2. split.
  - refine (proj2 (proj2 (proj1 (duplicate_existing_output pf (u "in.md")
              (Some (u "out.md")) w w2 (b "old") (PStr (u "甲")) [] _ _ _) _))).
    + reflexivity.
    + reflexivity.
    + reflexivity.
    + reflexivity.
  - pose proof (duplicate_existing_output pf (u "in.md")
                  (Some (u "path/to/output.txt")) w w2 (b "old") (PStr (u "甲")) []
                  eq_refl eq_refl eq_refl) as (_ & Hbug & Htxt).
    destruct (Hbug (Htxt eq_refl)) as (_ & Hrun & _ & Hold).
    split; [exact Hrun|exact Hold].
Defined.

(** C7 at work: two sentences, no match, the header alone is written. *)
Lemma empty_result_header_only_witness :
  let pf := serving (u "empty-result") in
  let w := disk [(u "in.md", b "甲。乙")] in
  exists w', duplicate pf (u "in.md") (Some (u "out.md")) w = (Ok tt, w')
             /\ files w' = <[u "out.md" := b "# 重复内容检测结果" ++ [x0a; x0a]]> (files w).
Proof.
  intros pf w.
  refine (proj2 (proj2 (proj2 (empty_result_header_only pf)))
            serving_empty_result_replies_no_match
            (u "in.md") (u "out.md") w (PStr (u "甲。乙")) _ _ _ _ _).
  - reflexivity.
  - reflexivity.
  - reflexivity.
  - reflexivity.
Defined.

(** C8 at work: no api_key in the configuration, then a complete one. *)
Lemma DifyAPIClient_init_spec_witness :
  (exists name,
      DifyAPIClient_init failing [ (u "base_url", PStr (u "https://api.dify.ai"));
                                   (u "api_key", PNone);
                                   (u "user", PStr (u "tester")) ]
      = Raise (ValueError (name ++ u " is required in config but not provided")))
  /\ DifyAPIClient_init failing (DIFY_CONFIG failing) = Ok demo_client.
Proof.
  split.
  - destruct (proj1 (DifyAPIClient_init_spec failing
                       [ (u "base_url", PStr (u "https://api.dify.ai"));
                         (u "api_key", PNone);
                         (u "user", PStr (u "tester")) ]))
      as (name & _ & _ & _ & _ & _ & H & _).
    + exists (u "api_key"). split; [right; left; reflexivity|reflexivity].
    + exists name. exact H.
  - refine (proj2 (DifyAPIClient_init_spec failing (DIFY_CONFIG failing)) _).
    intros name [<- | [<- | [<- | []]]]; reflexivity.
Defined.

(** C9 at work: a 500, then a 200. *)
Lemma run_workflow_status_witness :
  fst (run_workflow failing demo_client [(u "content", PStr (u "甲"))] false (disk []))
  = Raise (Exception (u "Error: 500 - oops"))
  /\ length (sent (snd (run_workflow failing demo_client
                          [(u "content", PStr (u "甲"))] false (disk [])))) = 1%nat
  /\ fst (run_workflow (serving (u "one-match")) demo_client
            [(u "content", PStr (u "甲"))] false (disk []))
     = Ok (Blocking one_match).
Proof.
  pose proof (run_workflow_status failing demo_client
                [(u "content", PStr (u "甲"))] false (disk [])
                {| status_code := 500; text := u "oops"; iter_lines := [] |}
                eq_refl) as [H500 _].
  pose proof (run_workflow_status (serving (u "one-match")) demo_client
                [(u "content", PStr (u "甲"))] false (disk [])
                {| status_code := 200; text := u "one-match"; iter_lines := [] |}
                eq_refl) as [_ H200].
  destruct (H500 ltac:(discriminate)) as [-> _].
  rewrite (H200 eq_refl). repeat split.
Defined.

(** * More about the code *)

(** ** The splitter, piece by piece *)

Lemma re_split_from_app (a c : str) (d : N) (piece : str) :
  is_delimiter d = true ->
  re_split_from piece (a ++ d :: c) = re_split_from piece a ++ re_split c.
Proof.
  intros Hd. revert piece. induction a as [|x a IH]; intros piece; simpl.
  - rewrite Hd. reflexivity.
  - destruct (is_delimiter x); [rewrite IH; reflexivity|apply IH].
Qed.

Lemma re_split_from_free (s piece : str) :
  Forall (fun c => is_delimiter c = false) s ->
  re_split_from piece s = [rev piece ++ s].
Proof.
  intros H. revert piece. induction H as [|c s Hc _ IH]; intros piece; simpl.
  - rewrite app_nil_r. reflexivity.
  - rewrite Hc, IH. simpl. rewrite <- app_assoc. reflexivity.
Qed.

Lemma re_split_from_length (text piece : str) :
  length (re_split_from piece text) = S (length (List.filter is_delimiter text)).
Proof.
  revert piece. induction text as [|c text IH]; intros piece; simpl.
  - reflexivity.
  - destruct (is_delimiter c); simpl; rewrite IH; reflexivity.
Qed.

Lemma lstrip_fixed (s : str) :
  (forall c r, s = c :: r -> isspace c = false) -> lstrip s = s.
Proof.
  intros H. destruct s as [|c r]; [reflexivity|]. simpl.
  rewrite (H c r eq_refl). reflexivity.
Qed.

Lemma strip_fixed (s : str) : trimmed s -> strip s = s.
Proof.
  intros [Hfirst Hlast]. unfold strip. rewrite (lstrip_fixed s Hfirst).
  rewrite lstrip_fixed; [apply rev_involutive|].
  intros c r Hr. apply (Hlast c (rev r)).
  rewrite <- (rev_involutive s), Hr. reflexivity.
Qed.

Lemma strip_idempotent (s : str) : strip (strip s) = strip s.
Proof.
  destruct (strip_spec s) as (_ & _ & _ & _ & _ & Htrim).
  apply strip_fixed. exact Htrim.
Qed.

(** X1: cutting a text at a delimiter and splitting the two halves gives
    the sentences of the whole, in order: the splitter works sentence by
    sentence and never joins text across a ， or a 。. *)
Theorem split_sentences_at_delimiter (before after : str) (d : N) :
  is_delimiter d = true ->
  split_sentences (before ++ d :: after)
  = split_sentences before ++ split_sentences after.
Proof.
  intros Hd. unfold split_sentences, re_split.
  rewrite (re_split_from_app before after d [] Hd). apply flat_map_app.
Qed.

Lemma split_sentences_at_delimiter_witness :
  split_sentences (u "甲 " ++ 65292%N :: u " 乙。丙")
  = split_sentences (u "甲 ") ++ split_sentences (u " 乙。丙").
Proof. apply split_sentences_at_delimiter. reflexivity. Defined.

(** X2: a sentence the splitter returns is a fixed point of it: split
    again, it comes back alone and unchanged. *)
Theorem split_sentences_stable (text s : str) :
  s ∈ split_sentences text -> split_sentences s = [s].
Proof.
  intros Hin.
  destruct (split_sentences_are_sentences text s Hin) as (Hne & Htrim & Hfree).
  unfold split_sentences, re_split. rewrite (re_split_from_free s [] Hfree).
  simpl. rewrite (strip_fixed s Htrim), app_nil_r, str_eqb_nil.
  destruct s; [contradiction|reflexivity].
Qed.

Lemma split_sentences_stable_witness : split_sentences (u "乙") = [u "乙"].
Proof.
  apply (split_sentences_stable (u " 甲，乙 。") (u "乙")).
  vm_compute. right. left.
Defined.

(** X3: a text with n delimiters has at most n + 1 sentences. *)
Theorem split_sentences_bound (text : str) :
  (length (split_sentences text) <= S (length (List.filter is_delimiter text)))%nat.
Proof.
  unfold split_sentences, re_split.
  rewrite <- (re_split_from_length text []).
  induction (re_split_from [] text) as [|p ps IH]; simpl; [lia|].
  rewrite length_app. destruct (negb (str_eqb (strip p) [])); simpl; lia.
Qed.

(** ** The loop: requests and record *)

Section LoopMore.

Variable pf : Platform.

Lemma run_workflow_world (self : DifyAPIClient) (inputs : list (str * pyval))
    (stream : bool) (w : world) :
  snd (run_workflow pf self inputs stream w)
  = after_request w (workflow_request pf self inputs stream).
Proof.
  unfold run_workflow, bind, requests_request.
  destruct (requests_post pf (sent w) _) as [resp|e]; [|reflexivity].
  destruct (status_code resp =? 200); [|reflexivity].
  destruct stream; [reflexivity|].
  unfold lift, ret. destruct (_workflow_blocking_process pf resp); reflexivity.
Qed.

Lemma process_sentences_step (record : list (str * list (pyval * pyval)))
    (s : str) (rest : list str) (w : world) (client : DifyAPIClient) :
  DifyAPIClient_init pf (DIFY_CONFIG pf) = Ok client ->
  process_sentences pf record (s :: rest) w
  = match fst (run_workflow pf client [(u "content", PStr s)] false w) with
    | Ok result =>
      match record_result record s result with
      | Ok record' =>
        process_sentences pf record' rest (after_request w (sentence_request pf client s))
      | Raise e => (Raise e, after_request w (sentence_request pf client s))
      end
    | Raise e => (Raise e, after_request w (sentence_request pf client s))
    end.
Proof.
  intros Hc. simpl. unfold bind at 1, lift at 1. rewrite Hc.
  unfold bind at 1.
  pose proof (run_workflow_world client [(u "content", PStr s)] false w) as Hw.
  destruct (run_workflow pf client [(u "content", PStr s)] false w) as [[r|e] w1];
    simpl in Hw; subst w1; [|reflexivity].
  unfold bind, lift. cbn [fst].
  destruct (record_result record s r); reflexivity.
Qed.

Lemma process_sentences_no_client (record : list (str * list (pyval * pyval)))
    (s : str) (rest : list str) (w : world) (e : exn) :
  DifyAPIClient_init pf (DIFY_CONFIG pf) = Raise e ->
  process_sentences pf record (s :: rest) w = (Raise e, w).
Proof. intros Hc. simpl. unfold bind, lift. rewrite Hc. reflexivity. Qed.

Lemma loop_requests (sentences : list str)
    (record : list (str * list (pyval * pyval))) (w : world) (client : DifyAPIClient) :
  DifyAPIClient_init pf (DIFY_CONFIG pf) = Ok client ->
  exists k,
    (k <= length sentences)%nat
    /\ snd (process_sentences pf record sentences w)
       = {| files := files w;
            sent := sent w ++ map (sentence_request pf client) (take k sentences);
            stdout := stdout w |}
    /\ (raised (fst (process_sentences pf record sentences w)) = false ->
        k = length sentences)
    /\ (raised (fst (process_sentences pf record sentences w)) = true ->
        (1 <= k)%nat).
Proof.
  intros Hc. revert record w.
  induction sentences as [|s rest IH]; intros record w.
  - exists 0%nat. simpl. rewrite app_nil_r. destruct w. repeat split; auto.
    discriminate.
  - rewrite (process_sentences_step record s rest w client Hc).
    assert (Hstop : forall A (e : exn),
      exists k, (k <= length (s :: rest))%nat
        /\ snd (@Raise A e, after_request w (sentence_request pf client s))
           = {| files := files w;
                sent := sent w ++ map (sentence_request pf client) (take k (s :: rest));
                stdout := stdout w |}
        /\ (raised (@Raise A e) = false -> k = length (s :: rest))
        /\ (raised (@Raise A e) = true -> (1 <= k)%nat)).
    { intros A e. exists 1%nat. simpl.
      repeat split; auto; try lia; try discriminate;
        try (destruct rest; reflexivity). }
    destruct (fst (run_workflow pf client [(u "content", PStr s)] false w))
      as [result|e]; [|apply Hstop].
    destruct (record_result record s result) as [record'|e]; [|apply Hstop].
    destruct (IH record' (after_request w (sentence_request pf client s)))
      as (k & Hk & Hw & Hok & Hfail).
    exists (S k). simpl. rewrite Hw. simpl. rewrite <- app_assoc. simpl.
    repeat split; auto; try lia.
Qed.

(** X4: with a complete configuration the loop sends one request per
    sentence, in the order of the document: a POST to
    <base_url>/v1/workflows/run with the headers of the client and the
    payload inputs = {content: the sentence}, response_mode = blocking,
    user = the user of the client. It stops at the first sentence that
    fails, whose request has been sent, and it changes neither the files
    nor what was printed. *)
Theorem one_request_per_sentence (sentences : list str)
    (record : list (str * list (pyval * pyval))) (w : world) (client : DifyAPIClient) :
  DifyAPIClient_init pf (DIFY_CONFIG pf) = Ok client ->
  let request_for (sentence : str) :=
    {| req_url := py_str pf (base_url client) ++ u "/v1/workflows/run";
       req_json :=
         PDict [ (u "inputs", PDict [(u "content", PStr sentence)]);
                 (u "response_mode", PStr (u "blocking"));
                 (u "user", user client) ];
       req_headers := headers client |} in
  exists k,
    (k <= length sentences)%nat
    /\ snd (process_sentences pf record sentences w)
       = {| files := files w;
            sent := sent w ++ map request_for (take k sentences);
            stdout := stdout w |}
    /\ (raised (fst (process_sentences pf record sentences w)) = false ->
        k = length sentences)
    /\ (raised (fst (process_sentences pf record sentences w)) = true ->
        (1 <= k)%nat).
Proof.
  intros Hc request_for.
  destruct (loop_requests sentences record w client Hc) as (k & Hle & Hw & Hok & Hfail).
  exists k. split; [exact Hle|]. split; [|split; [exact Hok|exact Hfail]].
  rewrite Hw. reflexivity.
Qed.

End LoopMore.

(** ** The record of matches *)

Lemma assoc_dict_set_eq {V} (d : list (str * V)) (k : str) (v : V) :
  assoc k (dict_set d k v) = Some v.
Proof.
  induction d as [|[k' v'] d IH]; simpl.
  - rewrite str_eqb_refl. reflexivity.
  - destruct (str_eqb k k') eqn:E; simpl.
    + rewrite str_eqb_refl. reflexivity.
    + rewrite E. exact IH.
Qed.

Lemma assoc_dict_set_ne {V} (d : list (str * V)) (k k0 : str) (v : V) :
  k0 <> k -> assoc k0 (dict_set d k v) = assoc k0 d.
Proof.
  intros Hne. induction d as [|[k' v'] d IH]; simpl.
  - destruct (str_eqb k0 k) eqn:E; [apply str_eqb_eq in E; contradiction|reflexivity].
  - destruct (str_eqb k k') eqn:E; simpl.
    + apply str_eqb_eq in E. subst k'.
      destruct (str_eqb k0 k) eqn:E0; [apply str_eqb_eq in E0; contradiction|reflexivity].
    + rewrite IH. reflexivity.
Qed.

Lemma keys_dict_set {V} (d : list (str * V)) (k : str) (v : V) :
  map fst (dict_set d k v)
  = if bool_decide (k ∈ map fst d) then map fst d else map fst d ++ [k].
Proof.
  induction d as [|[k' v'] d IH]; simpl.
  - reflexivity.
  - destruct (str_eqb k k') eqn:E; simpl.
    + apply str_eqb_eq in E. subst k'.
      rewrite bool_decide_eq_true_2 by (left). reflexivity.
    + rewrite IH.
      assert (Hne : k <> k') by (intros ->; rewrite str_eqb_refl in E; discriminate).
      destruct (bool_decide (k ∈ map fst d)) eqn:B.
      * apply bool_decide_eq_true in B.
        rewrite bool_decide_eq_true_2 by (right; exact B). reflexivity.
      * apply bool_decide_eq_false in B.
        rewrite bool_decide_eq_false_2; [reflexivity|].
        intros H. apply elem_of_cons in H as [H|H]; [contradiction|contradiction].
Qed.

Lemma dict_append_dict_set {V} (d : list (str * list V)) (k : str) (l : list V) (x : V) :
  dict_append (dict_set d k l) k x = Ok (dict_set d k (l ++ [x])).
Proof.
  induction d as [|[k' v'] d IH]; simpl.
  - rewrite str_eqb_refl. reflexivity.
  - destruct (str_eqb k k') eqn:E; simpl.
    + rewrite str_eqb_refl. reflexivity.
    + rewrite E, IH. reflexivity.
Qed.

Lemma append_matches_list (d : list (str * list (pyval * pyval))) (k : str)
    (items : list pyval) (n i : nat) (l : list (pyval * pyval)) :
  (i + n <= length items)%nat ->
  append_matches (dict_set d k l) k (PList items) (seq i n)
  = match pairs_of (take n (drop i items)) with
    | Ok ps => Ok (dict_set d k (l ++ ps))
    | Raise e => Raise e
    end.
Proof.
  revert i l. induction n as [|n IH]; intros i l Hle; simpl.
  - rewrite app_nil_r. reflexivity.
  - destruct (lookup_lt_is_Some_2 items i ltac:(lia)) as [item Hitem].
    rewrite (drop_S _ _ _ Hitem). simpl. rewrite Hitem. simpl.
    unfold pair_of.
    destruct (getitem_str item (u "content")) as [c|e]; simpl; [|reflexivity].
    destruct (getitem_str item (u "metadata")) as [m|e]; simpl; [|reflexivity].
    destruct (getitem_str m (u "score")) as [sc|e]; simpl; [|reflexivity].
    rewrite dict_append_dict_set. simpl. rewrite IH by lia.
    destruct (pairs_of (take n (drop (S i) items))) as [ps|e]; simpl; [|reflexivity].
    rewrite <- app_assoc. reflexivity.
Qed.

Lemma record_result_list (record : list (str * list (pyval * pyval))) (sentence : str)
    (d data outputs : list (str * pyval)) (items : list pyval) :
  assoc (u "data") d = Some (PDict data) ->
  assoc (u "outputs") data = Some (PDict outputs) ->
  assoc (u "result") outputs = Some (PList items) ->
  record_result record sentence (Blocking (PDict d))
  = match items with
    | [] => Ok record
    | _ :: _ =>
      match pairs_of items with
      | Ok ps => Ok (dict_set record sentence ps)
      | Raise e => Raise e
      end
    end.
Proof.
  intros Hd Ho Hr. rewrite (record_result_found _ _ _ _ _ _ Hd Ho Hr).
  destruct items as [|item items]; [reflexivity|].
  cbn [truthy py_len]. change (0 <? length (item :: items))%nat with true.
  cbv beta iota.
  rewrite (append_matches_list record sentence (item :: items) _ 0 []) by (simpl; lia).
  rewrite drop_0, firstn_all. reflexivity.
Qed.

Lemma pairs_of_Forall2 (items : list pyval) (ps : list (pyval * pyval)) :
  pairs_of items = Ok ps <-> Forall2 (fun item p => pair_of item = Ok p) items ps.
Proof.
  revert ps. induction items as [|item items IH]; intros ps; simpl.
  - split; [intros [= <-]; constructor|intros H; inversion H; reflexivity].
  - split.
    + destruct (pair_of item) as [p|e] eqn:Ep; simpl; [|discriminate].
      destruct (pairs_of items) as [ps'|e] eqn:Eps; simpl; [|discriminate].
      intros [= <-]. constructor; [exact Ep|]. apply IH. reflexivity.
    + intros H. inversion H as [|? p ? ps' Hp Hrest]; subst.
      rewrite Hp. simpl. apply IH in Hrest. rewrite Hrest. reflexivity.
Qed.

Lemma pairs_of_first_failure (good rest : list pyval) (bad : pyval) (e : exn) :
  Forall (fun item => raised (pair_of item) = false) good ->
  pair_of bad = Raise e ->
  pairs_of (good ++ bad :: rest) = Raise e.
Proof.
  intros Hgood Hbad. induction Hgood as [|item good Hitem _ IH]; simpl.
  - rewrite Hbad. reflexivity.
  - destruct (pair_of item); [|discriminate]. simpl. rewrite IH. reflexivity.
Qed.

(** X5: when the answer holds a list of matches, every match is stored
    under the sentence as (content, score), in the order of the answer;
    the entry takes the place of an earlier entry of the same sentence
    and leaves the other sentences alone. *)
Theorem matches_recorded_in_order (record : list (str * list (pyval * pyval)))
    (sentence : str) (d data outputs : list (str * pyval)) (items : list pyval)
    (ps : list (pyval * pyval)) :
  assoc (u "data") d = Some (PDict data) ->
  assoc (u "outputs") data = Some (PDict outputs) ->
  assoc (u "result") outputs = Some (PList items) ->
  items <> [] ->
  Forall2 (fun item p => pair_of item = Ok p) items ps ->
  exists record',
    record_result record sentence (Blocking (PDict d)) = Ok record'
    /\ assoc sentence record' = Some ps
    /\ (forall other, other <> sentence -> assoc other record' = assoc other record)
    /\ map fst record'
       = if bool_decide (sentence ∈ map fst record) then map fst record
         else map fst record ++ [sentence].
Proof.
  intros Hd Ho Hr Hne Hps. exists (dict_set record sentence ps).
  rewrite (record_result_list _ _ _ _ _ _ Hd Ho Hr).
  apply pairs_of_Forall2 in Hps. rewrite Hps.
  split; [destruct items; [contradiction|reflexivity]|].
  split; [apply assoc_dict_set_eq|].
  split; [intros other Hother; apply assoc_dict_set_ne; exact Hother|].
  apply keys_dict_set.
Qed.

(** X6: an item of the answer that is not a dict, or that lacks
    "content", "metadata" or the "score" of its metadata, raises
    TypeError or KeyError, and the error of the first such item is the
    outcome of the step: nothing is recorded for the sentence. *)
Theorem malformed_match_aborts (record : list (str * list (pyval * pyval)))
    (sentence : str) (d data outputs : list (str * pyval))
    (good rest : list pyval) (bad : pyval) (e : exn) :
  assoc (u "data") d = Some (PDict data) ->
  assoc (u "outputs") data = Some (PDict outputs) ->
  assoc (u "result") outputs = Some (PList (good ++ bad :: rest)) ->
  Forall (fun item => raised (pair_of item) = false) good ->
  pair_of bad = Raise e ->
  record_result record sentence (Blocking (PDict d)) = Raise e
  /\ (isinstance_dict bad = false -> e = TypeErrorOn bad)
  /\ (forall item, bad = PDict item -> assoc (u "content") item = None ->
      e = KeyError (PStr (u "content")))
  /\ (forall item content, bad = PDict item ->
      assoc (u "content") item = Some content ->
      assoc (u "metadata") item = None ->
      e = KeyError (PStr (u "metadata")))
  /\ (forall item content metadata, bad = PDict item ->
      assoc (u "content") item = Some content ->
      assoc (u "metadata") item = Some metadata ->
      isinstance_dict metadata = false ->
      e = TypeErrorOn metadata)
  /\ (forall item content metadata, bad = PDict item ->
      assoc (u "content") item = Some content ->
      assoc (u "metadata") item = Some (PDict metadata) ->
      assoc (u "score") metadata = None ->
      e = KeyError (PStr (u "score"))).
Proof.
  intros Hd Ho Hr Hgood Hbad. split.
  - rewrite (record_result_list _ _ _ _ _ _ Hd Ho Hr).
    rewrite (pairs_of_first_failure good rest bad e Hgood Hbad).
    destruct good; reflexivity.
  - unfold pair_of in Hbad. repeat split.
    + intros Hn. destruct bad; simpl in *; try discriminate; congruence.
    + intros item -> Hc. simpl in Hbad. rewrite Hc in Hbad. simpl in Hbad. congruence.
    + intros item content -> Hc Hm. simpl in Hbad. rewrite Hc in Hbad. simpl in Hbad.
      rewrite Hm in Hbad. simpl in Hbad. congruence.
    + intros item content metadata -> Hc Hm Hn. simpl in Hbad.
      rewrite Hc in Hbad. simpl in Hbad. rewrite Hm in Hbad. simpl in Hbad.
      destruct metadata; simpl in *; try discriminate; congruence.
    + intros item content metadata -> Hc Hm Hs. simpl in Hbad.
      rewrite Hc in Hbad. simpl in Hbad. rewrite Hm in Hbad. simpl in Hbad.
      rewrite Hs in Hbad. simpl in Hbad. congruence.
Qed.

(** X7: a [result] that is not a list: every falsy value (null, false,
    0, 0.0, "", {}) is passed over in silence; a number other than zero
    and true raise TypeError at [len]; a string and a dict that are not
    empty raise at the first item. *)
Theorem result_of_another_type (record : list (str * list (pyval * pyval)))
    (sentence : str) (d data outputs : list (str * pyval)) (result : pyval) :
  assoc (u "data") d = Some (PDict data) ->
  assoc (u "outputs") data = Some (PDict outputs) ->
  assoc (u "result") outputs = Some result ->
  (truthy result = false ->
   record_result record sentence (Blocking (PDict d)) = Ok record)
  /\ (truthy result = true ->
      (exists z, result = PInt z) \/ (exists r, result = PFloat r)
      \/ result = PBool true ->
      record_result record sentence (Blocking (PDict d)) = Raise (TypeErrorOn result))
  /\ (forall c s, result = PStr (c :: s) ->
      record_result record sentence (Blocking (PDict d))
      = Raise (TypeErrorOn (PStr [c])))
  /\ (forall entry entries, result = PDict (entry :: entries) ->
      record_result record sentence (Blocking (PDict d))
      = Raise (KeyError (PInt 0))).
Proof.
  intros Hd Ho Hr. rewrite (record_result_found _ _ _ _ _ _ Hd Ho Hr).
  split; [intros ->; reflexivity|]. split; [|split].
  - intros Ht [[z ->] | [[r ->] | ->]]; rewrite ?Ht; reflexivity.
  - intros c s ->. reflexivity.
  - intros entry entries ->. reflexivity.
Qed.

Lemma append_matches_not_list (record : list (str * list (pyval * pyval)))
    (sentence : str) (result : pyval) (n : nat) (record' : list (str * list (pyval * pyval))) :
  append_matches record sentence result (seq 0 (S n)) = Ok record' ->
  exists items, result = PList items.
Proof.
  destruct result as [| | | |s|items|d]; simpl; try discriminate.
  - destruct (s !! 0%nat); simpl; discriminate.
  - intros _. exists items. reflexivity.
Qed.

Lemma record_result_cases (record record' : list (str * list (pyval * pyval)))
    (sentence : str) (result : workflow_result) :
  record_result record sentence result = Ok record' ->
  record' = record
  \/ exists ps, ps <> [] /\ record' = dict_set record sentence ps.
Proof.
  unfold record_result.
  destruct result as [[| | | | | |d]|]; try discriminate.
  destruct (isinstance_dict (dict_get d (u "data") PNone)); [|discriminate].
  destruct (py_get (dict_get d (u "data") PNone) (u "outputs") (PDict []))
    as [outputs|]; simpl; [|discriminate].
  destruct (py_get outputs (u "result") PNone) as [result|]; simpl; [|discriminate].
  destruct (truthy result); [|intros [= <-]; left; reflexivity].
  destruct (py_len result) as [n|] eqn:Hlen; simpl; [|discriminate].
  destruct n as [|n]; [intros [= <-]; left; reflexivity|].
  change (0 <? S n)%nat with true. cbv beta iota. intros H.
  destruct (append_matches_not_list _ _ _ _ _ H) as [items ->].
  simpl in Hlen. injection Hlen as Hlen.
  rewrite (append_matches_list record sentence items (S n) 0 []) in H by lia.
  rewrite drop_0, <- Hlen, firstn_all in H.
  destruct (pairs_of items) as [ps|] eqn:Hps; [|discriminate].
  injection H as <-. right. exists ps. split; [|reflexivity].
  apply pairs_of_Forall2 in Hps. apply Forall2_length in Hps.
  intros ->. simpl in Hps. lia.
Qed.

Lemma well_formed_dict_set (record : list (str * list (pyval * pyval)))
    (sentence : str) (ps : list (pyval * pyval)) :
  ps <> [] -> well_formed_record record ->
  well_formed_record (dict_set record sentence ps).
Proof.
  intros Hps [Hnd Hne]. split.
  - rewrite keys_dict_set. case_bool_decide as Hin; [exact Hnd|].
    apply NoDup_app. split; [exact Hnd|]. split.
    + intros x Hx Hx'. apply list_elem_of_singleton in Hx'. subst x. contradiction.
    + apply NoDup_singleton.
  - clear Hnd. induction Hne as [|[k l] record Hl Hrest IH]; simpl.
    + constructor; [exact Hps|constructor].
    + destruct (str_eqb sentence k).
      * constructor; [exact Hps|assumption].
      * constructor; [exact Hl|exact IH].
Qed.

Section RecordInvariant.

Variable pf : Platform.

Lemma process_sentences_invariant (sentences : list str)
    (record record' : list (str * list (pyval * pyval))) (w w' : world) :
  well_formed_record record ->
  process_sentences pf record sentences w = (Ok record', w') ->
  well_formed_record record'
  /\ forall key, key ∈ map fst record' -> key ∈ map fst record \/ key ∈ sentences.
Proof.
  revert record w. induction sentences as [|s rest IH]; intros record w Hwf.
  - simpl. intros [= <- _]. split; [exact Hwf|]. intros key Hk. left. exact Hk.
  - destruct (DifyAPIClient_init pf (DIFY_CONFIG pf)) as [client|e] eqn:Hc.
    2: { rewrite (process_sentences_no_client pf record s rest w e Hc). discriminate. }
    rewrite (process_sentences_step pf record s rest w client Hc).
    destruct (fst (run_workflow pf client [(u "content", PStr s)] false w))
      as [result|e]; [|discriminate].
    destruct (record_result record s result) as [record1|e] eqn:Hr; [|discriminate].
    intros Hrun.
    assert (H1 : well_formed_record record1
                 /\ forall key, key ∈ map fst record1 -> key ∈ map fst record \/ key = s).
    { destruct (record_result_cases _ _ _ _ Hr) as [-> | (ps & Hps & ->)].
      - split; [exact Hwf|]. intros key Hk. left. exact Hk.
      - split; [apply well_formed_dict_set; assumption|].
        intros key. rewrite keys_dict_set. case_bool_decide; [left; assumption|].
        rewrite elem_of_app, list_elem_of_singleton. tauto. }
    destruct H1 as [Hwf1 Hkeys1].
    destruct (IH record1 _ Hwf1 Hrun) as [Hwf' Hkeys'].
    split; [exact Hwf'|]. intros key Hk.
    destruct (Hkeys' key Hk) as [H|H].
    + destruct (Hkeys1 key H) as [H1 | ->]; [left; exact H1|right; left].
    + right. right. exact H.
Qed.

(** X8: in the record a run builds, no sentence has two entries, every
    entry belongs to a sentence of the document and holds at least one
    match. *)
Theorem record_is_well_formed (sentences : list str)
    (record : list (str * list (pyval * pyval))) (w w' : world) :
  process_sentences pf [] sentences w = (Ok record, w') ->
  NoDup (map fst record)
  /\ Forall (fun entry => snd entry <> []) record
  /\ (forall key, key ∈ map fst record -> key ∈ sentences).
Proof.
  intros Hrun.
  destruct (process_sentences_invariant sentences [] record w w') as [[Hnd Hne] Hkeys].
  - split; constructor.
  - exact Hrun.
  - split; [exact Hnd|]. split; [exact Hne|].
    intros key Hk. destruct (Hkeys key Hk) as [H|H]; [|exact H].
    simpl in H. apply elem_of_nil in H. contradiction.
Qed.

(** X9: [DIFY_API_KEY] unset (and [DIFY_BASE_URL] not set to the empty
    string): the client cannot be built and the error names api_key; the
    loop raises it at the first sentence, before any request; with no
    sentence the loop ends well, for no client is built. *)
Theorem api_key_unset (record : list (str * list (pyval * pyval))) (w : world) :
  os_getenv pf (u "DIFY_API_KEY") = None ->
  os_getenv pf (u "DIFY_BASE_URL") <> Some [] ->
  DifyAPIClient_init pf (DIFY_CONFIG pf)
  = Raise (ValueError (u "api_key is required in config but not provided"))
  /\ (forall sentence rest,
      process_sentences pf record (sentence :: rest) w
      = (Raise (ValueError (u "api_key is required in config but not provided")), w))
  /\ process_sentences pf record [] w = (Ok record, w).
Proof.
  intros Hkey Hurl.
  assert (Hc : DifyAPIClient_init pf (DIFY_CONFIG pf)
               = Raise (ValueError (u "api_key is required in config but not provided"))).
  { unfold DifyAPIClient_init, DIFY_CONFIG, getenv_or_None. rewrite Hkey.
    destruct (os_getenv pf (u "DIFY_BASE_URL")) as [[|c url]|]; [contradiction| |];
      reflexivity. }
  split; [exact Hc|]. split; [|reflexivity].
  intros sentence rest. apply process_sentences_no_client. exact Hc.
Qed.

End RecordInvariant.

(** ** The report, entry by entry *)

Lemma startswith_spec {A} `{EqDecision A} (s p : list A) :
  startswith s p = true <-> exists post, s = p ++ post.
Proof.
  revert s. induction p as [|x p IH]; intros s; simpl.
  - split; [intros _; exists s; reflexivity|reflexivity].
  - destruct s as [|y s].
    + split; [discriminate|intros [post Hp]; discriminate].
    + rewrite andb_true_iff, bool_decide_eq_true, IH. split.
      * intros [-> [post ->]]. exists post. reflexivity.
      * intros [post [= -> ->]]. split; [reflexivity|]. exists post. reflexivity.
Qed.

Lemma contains_spec (s p : str) :
  contains s p = true <-> exists pre post, s = pre ++ p ++ post.
Proof.
  split.
  - induction s as [|c s IH]; simpl; rewrite orb_true_iff.
    + intros [H|H]; [|discriminate]. apply startswith_spec in H as [post ->].
      exists [], post. reflexivity.
    + intros [H|H].
      * apply startswith_spec in H as [post ->]. exists [], post. reflexivity.
      * destruct (IH H) as (pre & post & ->). exists (c :: pre), post. reflexivity.
  - intros (pre & post & ->). apply contains_intro.
Qed.

Lemma contains_in_part (pre part post p : str) :
  contains part p = true -> contains (pre ++ part ++ post) p = true.
Proof.
  rewrite !contains_spec. intros (a & c & ->).
  exists (pre ++ a), (c ++ post). rewrite <- !app_assoc. reflexivity.
Qed.

Section ReportMore.

Variable pf : Platform.

Lemma render_duplicates_cons (i : nat) (content score : pyval)
    (rest : list (pyval * pyval)) :
  render_duplicates pf i ((content, score) :: rest)
  = match_lines pf i content score ++ render_duplicates pf (S i) rest.
Proof.
  cbn [render_duplicates]. unfold match_lines. rewrite <- !app_assoc. reflexivity.
Qed.

Lemma render_duplicates_app (i : nat) (d1 d2 : list (pyval * pyval)) :
  render_duplicates pf i (d1 ++ d2)
  = render_duplicates pf i d1 ++ render_duplicates pf (i + length d1) d2.
Proof.
  revert i. induction d1 as [|[c sc] d1 IH]; intros i.
  - cbn [app length render_duplicates]. rewrite Nat.add_0_r. reflexivity.
  - rewrite <- app_comm_cons, !render_duplicates_cons, IH, <- app_assoc.
    cbn [length]. rewrite Nat.add_succ_r. reflexivity.
Qed.

Lemma render_duplicates_holds (duplicates : list (pyval * pyval)) (k : nat)
    (content score : pyval) :
  duplicates !! k = Some (content, score) ->
  contains (render_duplicates pf 0 duplicates) (match_lines pf k content score) = true.
Proof.
  intros Hk. rewrite <- (take_drop_middle _ _ _ Hk), render_duplicates_app.
  rewrite length_take_le by (apply Nat.lt_le_incl, (lookup_lt_Some _ _ _ Hk)).
  rewrite render_duplicates_cons. apply contains_intro.
Qed.

Lemma render_section_parts (sentence : str) (duplicates : list (pyval * pyval)) :
  render_section pf (sentence, duplicates)
  = section_head sentence ++ render_duplicates pf 0 duplicates ++ u "---" ++ [LF; LF].
Proof. unfold render_section, section_head. rewrite <- !app_assoc. reflexivity. Qed.

Lemma render_app (r1 r2 : list (str * list (pyval * pyval))) :
  render pf (r1 ++ r2) = render pf r1 ++ flat_map (render_section pf) r2.
Proof. unfold render. rewrite flat_map_app, app_assoc. reflexivity. Qed.

(** X10: the report starts with the header; it has the two headings of
    every recorded sentence, the sentence copied as it is, and for every
    match of the sentence the label with its number, counted from 1, its
    score and its content. A report is its sections one after the other. *)
Theorem report_holds_every_match (record : list (str * list (pyval * pyval)))
    (sentence : str) (duplicates : list (pyval * pyval)) (k : nat)
    (content score : pyval) :
  (sentence, duplicates) ∈ record ->
  duplicates !! k = Some (content, score) ->
  startswith (render pf record) (u "# 重复内容检测结果" ++ [LF; LF]) = true
  /\ contains (render pf record)
       (u "## 原句" ++ [LF; LF] ++ sentence ++ [LF; LF] ++ u "### 重复内容" ++ [LF; LF])
     = true
  /\ contains (render pf record)
       (u "**重复项 " ++ str_of_int (Z.of_nat (k + 1)) ++ u "** (Similarity: "
          ++ py_str pf score ++ u ")" ++ [LF; LF] ++ py_str pf content ++ [LF; LF])
     = true
  /\ (forall before after,
      render pf (before ++ after) = render pf before ++ flat_map (render_section pf) after).
Proof.
  intros Hin Hk. split; [apply startswith_app|].
  apply list_elem_of_split in Hin as (r1 & r2 & ->).
  rewrite render_app. cbn [flat_map]. rewrite render_section_parts.
  change (u "## 原句" ++ [LF; LF] ++ sentence ++ [LF; LF] ++ u "### 重复内容" ++ [LF; LF])
    with (section_head sentence).
  change (u "**重复项 " ++ str_of_int (Z.of_nat (k + 1)) ++ u "** (Similarity: "
            ++ py_str pf score ++ u ")" ++ [LF; LF] ++ py_str pf content ++ [LF; LF])
    with (match_lines pf k content score).
  split; [|split; [|exact render_app]].
  - apply contains_spec.
    exists (render pf r1),
      ((render_duplicates pf 0 duplicates ++ u "---" ++ [LF; LF])
         ++ flat_map (render_section pf) r2).
    rewrite <- !app_assoc. reflexivity.
  - rewrite <- !app_assoc, (app_assoc (render pf r1)).
    apply contains_in_part, render_duplicates_holds, Hk.
Qed.

End ReportMore.

Lemma report_holds_every_match_witness :
  contains (render (serving (u "one-match"))
              [(u "甲", [(PStr (u "X"), PFloat (u "0.9")); (PStr (u "Y"), PInt 1)])])
    (u "**重复项 2** (Similarity: 1)" ++ [LF; LF] ++ u "Y" ++ [LF; LF]) = true.
Proof.
  refine (proj1 (proj2 (proj2 (report_holds_every_match (serving (u "one-match"))
            [(u "甲", [(PStr (u "X"), PFloat (u "0.9")); (PStr (u "Y"), PInt 1)])]
            (u "甲") _ 1 (PStr (u "Y")) (PInt 1) _ _)))).
  - left.
  - reflexivity.
Defined.

(** ** The stream as a whole *)

Section StreamMore.

Variable pf : Platform.

Lemma stream_line_cases (line : bytes) :
  (is_data_line line = false /\ stream_line pf line = Ok None)
  \/ (is_data_line line = true /\ utf8_decode line = None
      /\ stream_line pf line = Raise UnicodeDecodeError)
  \/ (is_data_line line = true /\ utf8_decode line <> None
      /\ exists y, stream_line pf line = Ok (Some y)).
Proof.
  unfold is_data_line. destruct (startswith line (b "data: ")) eqn:H.
  - right. destruct line as [|x line]; [discriminate|].
    unfold stream_line, stream_try, error_data. rewrite H. cbn [negb].
    destruct (utf8_decode (x :: line)) as [decoded|] eqn:Hd.
    + right. split; [reflexivity|]. split; [discriminate|].
      destruct (json_loads pf (drop 6 decoded)); eexists; reflexivity.
    + left. repeat split.
  - left. split; [reflexivity|]. apply stream_line_skipped. exact H.
Qed.

Lemma stream_lines_app (before after : list bytes) :
  stream_lines pf (before ++ after)
  = match ended_by (stream_lines pf before) with
    | None =>
      {| yielded := yielded (stream_lines pf before) ++ yielded (stream_lines pf after);
         ended_by := ended_by (stream_lines pf after) |}
    | Some _ => stream_lines pf before
    end.
Proof.
  induction before as [|line before IH]; cbn [app stream_lines].
  - destruct (stream_lines pf after). reflexivity.
  - destruct (stream_line pf line) as [y|e]; [|reflexivity].
    rewrite IH. cbn [ended_by yielded].
    destruct (ended_by (stream_lines pf before)) eqn:E; cbn [ended_by yielded].
    + rewrite E. reflexivity.
    + rewrite app_assoc. reflexivity.
Qed.

Lemma stream_lines_count (lines : list bytes) :
  (ended_by (stream_lines pf lines) = None
   \/ ended_by (stream_lines pf lines) = Some UnicodeDecodeError)
  /\ (ended_by (stream_lines pf lines) = None
      <-> Forall (fun line => utf8_decode line <> None) (List.filter is_data_line lines))
  /\ (length (yielded (stream_lines pf lines))
      <= length (List.filter is_data_line lines))%nat
  /\ (ended_by (stream_lines pf lines) = None ->
      length (yielded (stream_lines pf lines))
      = length (List.filter is_data_line lines)).
Proof.
  induction lines as [|line lines (IHend & IHiff & IHle & IHeq)]; cbn [stream_lines List.filter].
  - repeat split; auto.
  - destruct (stream_line_cases line)
      as [[Hd Hl] | [(Hd & Hu & Hl) | (Hd & Hu & y & Hl)]];
      rewrite Hl, Hd; simpl.
    + repeat split; tauto.
    + split; [right; reflexivity|]. split; [|split; [lia|discriminate]].
      split; [discriminate|]. intros H. inversion H; subst. contradiction.
    + split; [exact IHend|]. split; [|split; [lia|intros H; rewrite (IHeq H); reflexivity]].
      rewrite IHiff. split.
      * intros H. constructor; assumption.
      * intros H. inversion H; assumption.
Qed.

(** X11: the stream as a whole. The generator ends early for one reason
    only, a [data: ] line that is not utf-8, and then by
    UnicodeDecodeError; what it yielded before that line stays yielded.
    Otherwise it yields one string for each [data: ] line, valid JSON or
    not, and nothing for the other lines. *)
Theorem stream_ends_only_by_decoding (response : response) :
  let g := _workflow_streaming_process pf response in
  let events := List.filter is_data_line (iter_lines response) in
  (ended_by g = None \/ ended_by g = Some UnicodeDecodeError)
  /\ (ended_by g = None <-> Forall (fun line => utf8_decode line <> None) events)
  /\ (length (yielded g) <= length events)%nat
  /\ (ended_by g = None -> length (yielded g) = length events)
  /\ (forall before bad after,
      iter_lines response = before ++ bad :: after ->
      Forall (fun line => utf8_decode line <> None) (List.filter is_data_line before) ->
      is_data_line bad = true -> utf8_decode bad = None ->
      g = {| yielded := yielded (stream_lines pf before);
             ended_by := Some UnicodeDecodeError |}).
Proof.
  intros g events. unfold g, events, _workflow_streaming_process.
  destruct (stream_lines_count (iter_lines response)) as (Hend & Hiff & Hle & Heq).
  split; [exact Hend|]. split; [exact Hiff|]. split; [exact Hle|]. split; [exact Heq|].
  intros before bad after -> Hbefore Hd Hu.
  rewrite stream_lines_app.
  apply (proj1 (proj2 (stream_lines_count before))) in Hbefore. rewrite Hbefore.
  cbn [stream_lines].
  destruct (stream_line_cases bad)
    as [[Hd' _] | [(_ & _ & Hl) | (_ & Hu' & _)]]; [congruence| |contradiction].
  rewrite Hl. cbn [yielded ended_by]. rewrite app_nil_r. reflexivity.
Qed.

End StreamMore.

(** ** Requests that fail *)

Section FailuresMore.

Variable pf : Platform.

Lemma process_sentences_request_fails (record : list (str * list (pyval * pyval)))
    (s : str) (rest : list str) (w : world) (client : DifyAPIClient) (e : exn) :
  DifyAPIClient_init pf (DIFY_CONFIG pf) = Ok client ->
  fst (run_workflow pf client [(u "content", PStr s)] false w) = Raise e ->
  process_sentences pf record (s :: rest) w
  = (Raise e, after_request w (sentence_request pf client s)).
Proof.
  intros Hc He. rewrite (process_sentences_step pf record s rest w client Hc), He.
  reflexivity.
Qed.

(** X12: a sentence whose request fails stops the run. When [requests]
    raises, that exception leaves the loop; a status other than 200
    raises Exception("Error: <status> - <body>"); a body that is not JSON
    raises Exception("Failed to parse JSON response: ..."). The request
    of the sentence is the last one sent: nothing is retried and the
    sentences after it are not sent. *)
Theorem failed_request_aborts_run (before : list str) (s : str) (rest : list str)
    (record record1 : list (str * list (pyval * pyval))) (w w1 : world)
    (client : DifyAPIClient) :
  DifyAPIClient_init pf (DIFY_CONFIG pf) = Ok client ->
  process_sentences pf record before w = (Ok record1, w1) ->
  let rq := sentence_request pf client s in
  let run := process_sentences pf record (before ++ s :: rest) w in
  (forall e, requests_post pf (sent w1) rq = Raise e ->
   run = (Raise e, after_request w1 rq))
  /\ (forall resp, requests_post pf (sent w1) rq = Ok resp ->
      status_code resp <> 200 ->
      run = (Raise (Exception (u "Error: " ++ str_of_int (status_code resp)
                               ++ u " - " ++ text resp)),
             after_request w1 rq))
  /\ (forall resp msg, requests_post pf (sent w1) rq = Ok resp ->
      status_code resp = 200 ->
      json_loads pf (text resp) = inl msg ->
      run = (Raise (Exception (u "Failed to parse JSON response: " ++ msg
                               ++ u " - Response text: " ++ text resp)),
             after_request w1 rq)).
Proof.
  intros Hc Hbefore rq run.
  assert (Hrun : run = process_sentences pf record1 (s :: rest) w1).
  { unfold run. rewrite process_sentences_app. unfold bind. rewrite Hbefore.
    reflexivity. }
  rewrite Hrun. split; [|split].
  - intros e He. apply process_sentences_request_fails; [exact Hc|].
    unfold run_workflow, bind, requests_request.
    fold (sentence_request pf client s). fold rq. rewrite He. reflexivity.
  - intros resp Hresp Hstatus. apply process_sentences_request_fails; [exact Hc|].
    rewrite (run_workflow_answered pf client _ false w1 resp Hresp).
    apply Z.eqb_neq in Hstatus. rewrite Hstatus. reflexivity.
  - intros resp msg Hresp Hstatus Hmsg.
    apply process_sentences_request_fails; [exact Hc|].
    rewrite (run_workflow_answered pf client _ false w1 resp Hresp).
    rewrite Hstatus. unfold _workflow_blocking_process. rewrite Hmsg. reflexivity.
Qed.

End FailuresMore.

(** ** The document handler: errors and the explicit file type *)

Lemma str_in_app (s : str) (l1 l2 : list str) :
  str_in s (l1 ++ l2) = str_in s l1 || str_in s l2.
Proof. apply existsb_app. Qed.

Section HandlerMore.

Variable pf : Platform.

Lemma reraising_missing {A} (label filepath : str) (m : M A) (w : world) :
  files w !! filepath = None ->
  reraising pf label
    (bind (os_path_exists filepath)
       (fun ex => if negb ex then raise (FileNotFoundError (does_not_exist filepath))
                  else m)) w
  = (Raise (FileNotFoundError (does_not_exist filepath)),
     with_line w (label ++ does_not_exist filepath)).
Proof.
  intros H. unfold reraising, try_except, bind, os_path_exists, path_exists.
  rewrite H. reflexivity.
Qed.

Lemma read_missing (filepath t : str) (w : world) :
  files w !! filepath = None ->
  file_type_of filepath None = Ok t ->
  exists label,
    label ∈ reading_labels
    /\ read pf filepath None w
       = (Raise (FileNotFoundError (does_not_exist filepath)),
          with_line w (label ++ does_not_exist filepath)).
Proof.
  intros H E. unfold read, bind at 1, lift. rewrite E.
  destruct (file_type_of_cases _ _ E) as [-> | [-> | [-> | ->]]].
  - exists (u "Error reading Markdown file: "). split; [left|].
    transitivity (bind (read_markdown pf filepath) (fun s => ret (PStr s)) w);
      [reflexivity|].
    unfold bind at 1, read_markdown. rewrite (reraising_missing _ _ _ _ H). reflexivity.
  - exists (u "Error reading Word file: "). split; [right; left|].
    transitivity (bind (read_word pf filepath) (fun s => ret (PStr s)) w);
      [reflexivity|].
    unfold bind at 1, read_word. rewrite (reraising_missing _ _ _ _ H). reflexivity.
  - exists (u "Error reading CSV file: "). split; [right; right; left|].
    transitivity (read_csv pf filepath w); [reflexivity|].
    unfold read_csv. apply (reraising_missing _ _ _ _ H).
  - exists (u "Error reading Excel file: "). split; [right; right; right; left|].
    transitivity (read_excel pf filepath w); [reflexivity|].
    unfold read_excel. apply (reraising_missing _ _ _ _ H).
Qed.

(** X13: no file at the path. Each of the four readers raises
    FileNotFoundError("File <path> does not exist") after printing one
    line, its label and the message; [duplicate] on a path with an
    extension the reader knows raises the same error, having printed that
    line, sent no request and written no file. *)
Theorem missing_input_file (filepath : str) (output_path : option str) (w : world) :
  files w !! filepath = None ->
  let missing := FileNotFoundError (u "File " ++ filepath ++ u " does not exist") in
  let printed label :=
    with_line w (label ++ u "File " ++ filepath ++ u " does not exist") in
  read_markdown pf filepath w = (Raise missing, printed (u "Error reading Markdown file: "))
  /\ read_word pf filepath w = (Raise missing, printed (u "Error reading Word file: "))
  /\ read_csv pf filepath w = (Raise missing, printed (u "Error reading CSV file: "))
  /\ read_excel pf filepath w = (Raise missing, printed (u "Error reading Excel file: "))
  /\ (raised (file_type_of filepath None) = false ->
      exists label,
        label ∈ reading_labels
        /\ duplicate pf filepath output_path w = (Raise missing, printed label)).
Proof.
  intros H missing printed.
  split; [apply (reraising_missing _ _ _ _ H)|].
  split; [apply (reraising_missing _ _ _ _ H)|].
  split; [apply (reraising_missing _ _ _ _ H)|].
  split; [apply (reraising_missing _ _ _ _ H)|].
  intros Ht. destruct (file_type_of filepath None) as [t|] eqn:E; [|discriminate].
  destruct (read_missing filepath t w H E) as (label & Hlabel & Hread).
  exists label. split; [exact Hlabel|].
  rewrite duplicate_unfold, Hread. reflexivity.
Qed.

(** X14: a Markdown file that is not utf-8. The reader raises
    UnicodeDecodeError and prints its line; [duplicate] on a path that
    ends in .md or .markdown stops there, before any request. *)
Theorem undecodable_markdown_file (filepath : str) (output_path : option str)
    (w : world) (bs : bytes) :
  files w !! filepath = Some bs ->
  utf8_decode bs = None ->
  let printed :=
    with_line w (u "Error reading Markdown file: " ++ runtime_msg pf UnicodeDecodeError) in
  read_markdown pf filepath w = (Raise UnicodeDecodeError, printed)
  /\ (endswith filepath (u ".md") || endswith filepath (u ".markdown") = true ->
      duplicate pf filepath output_path w = (Raise UnicodeDecodeError, printed)).
Proof.
  intros H Hd printed.
  assert (Hread : read_markdown pf filepath w = (Raise UnicodeDecodeError, printed)).
  { unfold read_markdown, reraising, try_except, bind, os_path_exists, path_exists,
      open_read_text.
    rewrite H. cbn [negb]. rewrite H, Hd. reflexivity. }
  split; [exact Hread|].
  intros Hext.
  assert (Hr : read pf filepath None w = (Raise UnicodeDecodeError, printed)).
  { unfold read, bind at 1, lift, file_type_of. rewrite Hext.
    transitivity (bind (read_markdown pf filepath) (fun s => ret (PStr s)) w);
      [reflexivity|].
    unfold bind. rewrite Hread. reflexivity. }
  rewrite duplicate_unfold, Hr. reflexivity.
Qed.

Lemma unsupported_word (t : str) :
  str_in (str_lower t) file_type_words = false ->
  str_in (str_lower t) [u "md"; u "markdown"] = false
  /\ str_in (str_lower t) [u "docx"; u "word"] = false
  /\ str_in (str_lower t) [u "csv"] = false
  /\ str_in (str_lower t) [u "excel"; u "xlsx"; u "xls"] = false.
Proof.
  unfold file_type_words. rewrite !str_in_app, !orb_false_iff. tauto.
Qed.

(** X15: the file type given by the caller. It is compared without
    regard to case, and the extension of the path plays no part: a word
    that stands for Markdown reads any utf-8 file as text. A word that
    is none of md, markdown, docx, word, csv, excel, xlsx, xls makes
    [read] and [write] raise ValueError, which names the word as it was
    given, before the disk is touched. *)
Theorem explicit_file_type (filepath t : str) (content : pyval) (overwrite : bool)
    (w : world) :
  (str_in (str_lower t) file_type_words = false ->
   read pf filepath (Some t) w
   = (Raise (ValueError (u "Unsupported file type: " ++ t)), w)
   /\ write pf content filepath (Some t) overwrite w
      = (Raise (ValueError (u "Unsupported file type: " ++ t)), w))
  /\ (str_in (str_lower t) file_type_words = true ->
      forall t', str_lower t' = str_lower t ->
      read pf filepath (Some t') w = read pf filepath (Some t) w
      /\ write pf content filepath (Some t') overwrite w
         = write pf content filepath (Some t) overwrite w)
  /\ (str_in (str_lower t) [u "md"; u "markdown"] = true ->
      forall bs s, files w !! filepath = Some bs -> utf8_decode bs = Some s ->
      read pf filepath (Some t) w = (Ok (PStr (universal_newlines s)), w)).
Proof.
  split; [|split].
  - intros H. destruct (unsupported_word t H) as (H1 & H2 & H3 & H4).
    unfold read, write, bind, lift, file_type_of. rewrite H1, H2, H3, H4.
    split; reflexivity.
  - intros H t' Ht'. unfold read, write, bind, lift, file_type_of. rewrite Ht'.
    destruct (str_in (str_lower t) [u "md"; u "markdown"]) eqn:H1; [split; reflexivity|].
    destruct (str_in (str_lower t) [u "docx"; u "word"]) eqn:H2; [split; reflexivity|].
    destruct (str_in (str_lower t) [u "csv"]) eqn:H3; [split; reflexivity|].
    destruct (str_in (str_lower t) [u "excel"; u "xlsx"; u "xls"]) eqn:H4;
      [split; reflexivity|].
    unfold file_type_words in H. rewrite !str_in_app, H1, H2, H3, H4 in H.
    discriminate.
  - intros H bs s Hf Hd. unfold read, bind at 1, lift, file_type_of. rewrite H.
    unfold bind, read_markdown, reraising, try_except, bind, os_path_exists,
      path_exists, open_read_text.
    rewrite Hf. cbn [negb]. rewrite Hf, Hd. reflexivity.
Qed.

End HandlerMore.

(** ** Text written and read back *)

Lemma to_N_byte_of_N (n : N) : (n < 256)%N -> Byte.to_N (byte_of_N n) = n.
Proof.
  intros H. unfold byte_of_N. destruct (Byte.of_N n) as [x|] eqn:E.
  - apply Byte.to_of_N. exact E.
  - apply Byte.of_N_None_iff in E. lia.
Qed.

Ltac name_quotients c :=
  pose proof (N.div_mod c 64 ltac:(lia));
  pose proof (N.mod_lt c 64 ltac:(lia));
  pose proof (N.div_mod (c / 64) 64 ltac:(lia));
  pose proof (N.mod_lt (c / 64) 64 ltac:(lia));
  pose proof (N.div_mod (c / 64 / 64) 64 ltac:(lia));
  pose proof (N.mod_lt (c / 64 / 64) 64 ltac:(lia));
  set (r3 := ((c / 64 / 64) mod 64)%N) in *;
  set (q3 := (c / 64 / 64 / 64)%N) in *;
  set (r2 := ((c / 64) mod 64)%N) in *;
  set (q2 := (c / 64 / 64)%N) in *;
  set (r1 := (c mod 64)%N) in *;
  set (q1 := (c / 64)%N) in *;
  clearbody r3 q3 r2 q2 r1 q1.

Ltac decide_tests :=
  repeat match goal with
  | |- context [(?a <? ?b)%N] =>
    first [ rewrite (proj2 (N.ltb_lt a b)) by lia
          | rewrite (proj2 (N.ltb_ge a b)) by lia ]
  | |- context [(?a <=? ?b)%N] =>
    first [ rewrite (proj2 (N.leb_le a b)) by lia
          | rewrite (proj2 (N.leb_gt a b)) by lia ]
  end.

Lemma utf8_encode_char_spec (c : N) (ns : list N) :
  utf8_encode_char c = Some ns ->
  Forall (fun n => (n < 256)%N) ns
  /\ forall rest, utf8_decode_N (ns ++ rest) = cons c <$> utf8_decode_N rest.
Proof.
  unfold utf8_encode_char.
  replace (c / 4096)%N with (c / 64 / 64)%N by (rewrite N.Div0.div_div; reflexivity).
  replace (c / 262144)%N with (c / 64 / 64 / 64)%N
    by (rewrite !N.Div0.div_div; reflexivity).
  destruct (N.ltb_spec c 128) as [H1|H1].
  { intros [= <-]. split; [repeat constructor; lia|]. intros rest.
    cbn [app utf8_decode_N]. decide_tests. reflexivity. }
  destruct (N.ltb_spec c 2048) as [H2|H2].
  { intros [= <-]. name_quotients c.
    split; [repeat constructor; lia|]. intros rest.
    cbn [app utf8_decode_N]. unfold is_cont. decide_tests. cbn [andb].
    replace ((192 + q1 - 192) * 64 + (128 + r1 - 128))%N with c by lia.
    reflexivity. }
  destruct ((55296 <=? c) && (c <=? 57343))%N eqn:Hs; [discriminate|].
  assert (H3 : (c < 55296 \/ 57343 < c)%N).
  { apply andb_false_iff in Hs as [Hs|Hs]; apply N.leb_gt in Hs; lia. }
  clear Hs. destruct (N.ltb_spec c 65536) as [H5|H5].
  - intros [= <-]. name_quotients c.
    split; [repeat constructor; lia|]. intros rest.
    cbn [app utf8_decode_N]. unfold is_cont. decide_tests. cbn [andb].
    replace ((224 + q2 - 224) * 4096 + (128 + r2 - 128) * 64 + (128 + r1 - 128))%N
      with c by lia.
    destruct H3; decide_tests; reflexivity.
  - destruct (N.leb_spec c 1114111) as [H6|H6]; [|discriminate].
    intros [= <-]. name_quotients c.
    split; [repeat constructor; lia|]. intros rest.
    cbn [app utf8_decode_N]. unfold is_cont. decide_tests. cbn [andb].
    replace ((240 + q3 - 240) * 262144 + (128 + r3 - 128) * 4096
             + (128 + r2 - 128) * 64 + (128 + r1 - 128))%N with c by lia.
    decide_tests. reflexivity.
Qed.

Lemma utf8_decode_encode (s : str) (bs : bytes) :
  utf8_encode s = Some bs -> utf8_decode bs = Some s.
Proof.
  revert bs. induction s as [|c s IH]; intros bs; cbn [utf8_encode].
  - intros [= <-]. reflexivity.
  - destruct (utf8_encode_char c) as [ns|] eqn:Ec; [|discriminate].
    destruct (utf8_encode s) as [rest|] eqn:Es; [|discriminate].
    intros [= <-]. destruct (utf8_encode_char_spec c ns Ec) as [Hb Hd].
    unfold utf8_decode. rewrite map_app, map_map.
    replace (map (fun x => Byte.to_N (byte_of_N x)) ns) with ns.
    + rewrite Hd. fold (utf8_decode rest). rewrite (IH rest eq_refl). reflexivity.
    + clear Hd Ec. induction Hb as [|n ns Hn _ IHb]; [reflexivity|].
      cbn [map]. rewrite (to_N_byte_of_N n Hn), <- IHb. reflexivity.
Qed.

Lemma utf8_encode_scalar (s : str) :
  Forall (fun c => scalar_value c = true) s -> exists bs, utf8_encode s = Some bs.
Proof.
  induction 1 as [|c s Hc _ [rest IH]]; cbn [utf8_encode].
  - exists []. reflexivity.
  - rewrite IH. assert (Hn : exists ns, utf8_encode_char c = Some ns).
    { unfold utf8_encode_char, scalar_value in *.
      destruct (c <? 128)%N; [eexists; reflexivity|].
      destruct (c <? 2048)%N; [eexists; reflexivity|].
      destruct (N.ltb_spec c 55296) as [H1|H1]; cbn [orb] in Hc.
      - assert (H2 : (55296 <=? c)%N = false) by (apply N.leb_gt; exact H1).
        rewrite H2. cbn [andb].
        assert (H3 : (c <? 65536)%N = true) by (apply N.ltb_lt; lia).
        rewrite H3. eexists; reflexivity.
      - apply andb_true_iff in Hc as [H2 H3]. apply N.ltb_lt in H2.
        assert (H4 : (c <=? 57343)%N = false) by (apply N.leb_gt; exact H2).
        rewrite H4, andb_false_r, H3.
        destruct (c <? 65536)%N; eexists; reflexivity. }
    destruct Hn as [ns ->]. eexists; reflexivity.
Qed.

Lemma scalar_text (s : str) :
  forallb scalar_value s = true -> Forall (fun c => scalar_value c = true) s.
Proof.
  intros H. apply List.Forall_forall. apply (proj1 (forallb_forall _ _) H).
Qed.

Lemma translate_newlines_LF (s : str) : translate_newlines [LF] s = s.
Proof.
  unfold translate_newlines. induction s as [|c s IH]; [reflexivity|].
  cbn [flat_map]. rewrite IH. destruct (N.eqb_spec c LF) as [->|]; reflexivity.
Qed.

Lemma universal_newlines_id (s : str) : CR ∉ s -> universal_newlines s = s.
Proof.
  induction s as [|c s IH]; [reflexivity|]. intros H.
  apply not_elem_of_cons in H as [Hc Hs]. cbn [universal_newlines].
  destruct (N.eqb_spec c CR) as [->|]; [contradiction|]. rewrite (IH Hs). reflexivity.
Qed.

Lemma universal_translate_CRLF (s : str) :
  CR ∉ s -> universal_newlines (translate_newlines [CR; LF] s) = s.
Proof.
  unfold translate_newlines. induction s as [|c s IH]; [reflexivity|]. intros H.
  apply not_elem_of_cons in H as [Hc Hs]. cbn [flat_map].
  destruct (N.eqb_spec c LF) as [->|Hn].
  - cbn [app universal_newlines]. change (CR =? CR)%N with true.
    change (LF =? LF)%N with true. cbv iota. rewrite (IH Hs). reflexivity.
  - cbn [app universal_newlines].
    destruct (N.eqb_spec c CR) as [->|]; [contradiction|]. rewrite (IH Hs). reflexivity.
Qed.

Lemma universal_newlines_no_CR (s : str) :
  (CR ∉ universal_newlines s) /\ (forall c, CR ∉ universal_newlines (c :: s)).
Proof.
  assert (HLF : CR <> LF) by discriminate.
  induction s as [|c' s [IH1 IH2]].
  - split; [apply not_elem_of_nil|]. intros c. cbn [universal_newlines].
    destruct (N.eqb_spec c CR) as [->|Hc].
    + apply not_elem_of_cons. split; [exact HLF|apply not_elem_of_nil].
    + apply not_elem_of_cons. split; [congruence|apply not_elem_of_nil].
  - split; [apply IH2|]. intros c.
    cbn [universal_newlines]. fold (universal_newlines (c' :: s)).
    destruct (N.eqb_spec c CR) as [->|Hc].
    + destruct (c' =? LF)%N; apply not_elem_of_cons; split;
        [exact HLF|exact IH1|exact HLF|apply IH2].
    + apply not_elem_of_cons. split; [congruence|apply IH2].
Qed.

Section RoundTrip.

Variable pf : Platform.

Lemma overwrite_gate_pass (filepath : str) (overwrite : bool) (w : world) :
  overwrite = true \/ files w !! filepath = None ->
  overwrite_gate pf filepath overwrite w = (Ok tt, w).
Proof.
  intros [-> | H]; [|apply overwrite_gate_free; exact H].
  unfold overwrite_gate, bind, os_makedirs, ret, os_path_exists.
  rewrite andb_false_r. reflexivity.
Qed.

Lemma write_markdown_writes (content filepath : str) (overwrite : bool) (w : world)
    (bs : bytes) :
  overwrite = true \/ files w !! filepath = None ->
  utf8_encode (translate_newlines (os_linesep pf) content) = Some bs ->
  write_markdown pf content filepath overwrite w = (Ok true, with_file w filepath bs).
Proof.
  intros H He. unfold write_markdown, returning_False, try_except, write_markdown_try.
  unfold bind at 1. rewrite (overwrite_gate_pass _ _ _ H).
  unfold bind, open_write_text. rewrite He. reflexivity.
Qed.

Lemma read_markdown_reads (filepath : str) (w : world) (bs : bytes) (s : str) :
  files w !! filepath = Some bs -> utf8_decode bs = Some s ->
  read_markdown pf filepath w = (Ok (universal_newlines s), w).
Proof.
  intros Hf Hd.
  unfold read_markdown, reraising, try_except, bind, os_path_exists, path_exists,
    open_read_text.
  rewrite Hf. cbn [negb]. rewrite Hf, Hd. reflexivity.
Qed.

Lemma markdown_written (content filepath : str) (overwrite : bool) (w : world) :
  os_linesep pf = [LF] \/ os_linesep pf = [CR; LF] ->
  Forall (fun c => scalar_value c = true) content ->
  overwrite = true \/ files w !! filepath = None ->
  exists bs,
    let w1 := with_file w filepath bs in
    utf8_decode bs = Some (translate_newlines (os_linesep pf) content)
    /\ write_markdown pf content filepath overwrite w = (Ok true, w1)
    /\ (CR ∉ content -> read_markdown pf filepath w1 = (Ok content, w1))
    /\ (CR ∈ content ->
        exists s, read_markdown pf filepath w1 = (Ok s, w1) /\ s <> content).
Proof.
  intros Hsep Hcontent Hfree.
  assert (Hscalar : Forall (fun c => scalar_value c = true)
                      (translate_newlines (os_linesep pf) content)).
  { unfold translate_newlines. induction Hcontent as [|c s Hc _ IH]; [constructor|].
    cbn [flat_map]. apply Forall_app. split; [|exact IH].
    destruct (c =? LF)%N; [|constructor; [exact Hc|constructor]].
    destruct Hsep as [-> | ->]; repeat constructor. }
  destruct (utf8_encode_scalar _ Hscalar) as [bs Hbs].
  exists bs. intros w1.
  pose proof (utf8_decode_encode _ _ Hbs) as Hd.
  assert (Hf : files w1 !! filepath = Some bs) by apply lookup_insert_eq.
  pose proof (read_markdown_reads filepath w1 bs _ Hf Hd) as Hread.
  split; [exact Hd|]. split; [apply write_markdown_writes; assumption|]. split.
  - intros Hcr. rewrite Hread. f_equal. f_equal.
    destruct Hsep as [-> | ->].
    + rewrite translate_newlines_LF. apply universal_newlines_id. exact Hcr.
    + apply universal_translate_CRLF. exact Hcr.
  - intros Hcr. eexists. split; [exact Hread|]. intros Heq.
    apply (proj1 (universal_newlines_no_CR
                    (translate_newlines (os_linesep pf) content))).
    rewrite Heq. exact Hcr.
Qed.

(** X16: Markdown written and read back. Text made of code points utf-8
    can carry, written to a free path (or with [overwrite]), is written
    in full, and [read_markdown] returns it as it was when it holds no
    carriage return, whether the platform ends lines with "\n" or with
    "\r\n"; a text with a carriage return does not come back as it was. *)
Theorem markdown_round_trip (content filepath : str) (overwrite : bool) (w : world) :
  os_linesep pf = [LF] \/ os_linesep pf = [CR; LF] ->
  Forall (fun c => scalar_value c = true) content ->
  overwrite = true \/ files w !! filepath = None ->
  exists bs,
    let w1 := with_file w filepath bs in
    utf8_decode bs = Some (translate_newlines (os_linesep pf) content)
    /\ write_markdown pf content filepath overwrite w = (Ok true, w1)
    /\ (CR ∉ content -> read_markdown pf filepath w1 = (Ok content, w1))
    /\ (CR ∈ content ->
        exists s, read_markdown pf filepath w1 = (Ok s, w1) /\ s <> content).
Proof. exact (markdown_written content filepath overwrite w). Qed.

End RoundTrip.

(** ** What a run does to the disk *)

Section DiskMore.

Variable pf : Platform.

Lemma writes_only_open_write_text (filepath content : str) :
  writes_only filepath (bind (open_write_text pf filepath content) (fun _ => ret true)).
Proof.
  intros w. right. unfold open_write_text, bind, write_file, raise, ret.
  destruct (utf8_encode _) as [bs|]; eexists; reflexivity.
Qed.

Lemma writes_only_library (filepath : str) (made : outcome bytes) :
  writes_only filepath
    (bind (lift made) (fun bs => bind (write_file filepath bs) (fun _ => ret true))).
Proof.
  intros w. unfold bind, lift, write_file, ret.
  destruct made as [bs|e]; [right; eexists; reflexivity|left; reflexivity].
Qed.

Lemma writer_files (label filepath : str) (m : M bool) (w : world) :
  writes_only filepath m ->
  let run := returning_False pf label
               (bind (overwrite_gate pf filepath false) (fun _ => m)) w in
  raised (fst run) = false
  /\ (files (snd run) = files w
      \/ (files w !! filepath = None
          /\ exists bs, files (snd run) = <[filepath := bs]> (files w))).
Proof.
  intros Hm run. split; [apply returning_False_never_raises|].
  unfold run. destruct (files w !! filepath) as [old|] eqn:E.
  - rewrite (returning_False_gate pf label filepath m w old E). left. reflexivity.
  - assert (Hrun : bind (overwrite_gate pf filepath false) (fun _ => m) w = m w).
    { unfold bind. rewrite (overwrite_gate_free pf _ false _ E). reflexivity. }
    unfold returning_False, try_except. rewrite Hrun.
    destruct (Hm w) as [H | [bs H]]; destruct (m w) as [[r|e] w1];
      cbn [fst snd files bind print ret with_line] in *;
      try (left; exact H); right; (split; [reflexivity|]); exists bs; exact H.
Qed.

Lemma write_files (content : pyval) (filepath : str) (file_type : option str)
    (w : world) :
  let run := write pf content filepath file_type false w in
  files (snd run) = files w
  \/ (raised (fst run) = false /\ files w !! filepath = None
      /\ exists bs, files (snd run) = <[filepath := bs]> (files w)).
Proof.
  assert (Hwriter : forall label m, writes_only filepath m ->
            let run := returning_False pf label
                         (bind (overwrite_gate pf filepath false) (fun _ => m)) w in
            files (snd run) = files w
            \/ (raised (fst run) = false /\ files w !! filepath = None
                /\ exists bs, files (snd run) = <[filepath := bs]> (files w))).
  { intros label m Hm run. destruct (writer_files label filepath m w Hm) as [Hok [H|H]];
      [left; exact H|right; split; [exact Hok|exact H]]. }
  intros run.
  destruct (file_type_of filepath file_type) as [t|e] eqn:E.
  2: { left. unfold run, write, bind, lift. rewrite E. reflexivity. }
  assert (Hrun : run
    = (if str_in (str_lower t) [u "md"; u "markdown"] then
         match content with
         | PStr s => write_markdown pf s filepath false
         | _ => raise (TypeError (u "Content must be a string for markdown files"))
         end
       else if str_in (str_lower t) [u "docx"; u "word"] then
         match content with
         | PStr s => write_word pf s filepath false
         | _ => raise (TypeError (u "Content must be a string for Word files"))
         end
       else if str_in (str_lower t) [u "csv"] then write_csv pf content filepath false
       else if str_in (str_lower t) [u "excel"; u "xlsx"; u "xls"] then
         write_excel pf content filepath (u "Sheet1") false
       else raise (ValueError (u "Unsupported file type: " ++ t))) w).
  { unfold run, write, bind, lift. rewrite E. reflexivity. }
  rewrite Hrun. clear Hrun run E.
  destruct (str_in (str_lower t) [u "md"; u "markdown"]).
  { destruct content as [| | | |s| |]; try (left; reflexivity).
    exact (Hwriter (u "Error writing to markdown file: ") _
             (writes_only_open_write_text filepath s)). }
  destruct (str_in (str_lower t) [u "docx"; u "word"]).
  { destruct content as [| | | |s| |]; try (left; reflexivity).
    exact (Hwriter (u "Error writing to Word file: ") _
             (writes_only_library filepath (docx_write pf s))). }
  destruct (str_in (str_lower t) [u "csv"]).
  { exact (Hwriter (u "Error writing to CSV file: ") _
             (writes_only_library filepath (csv_write pf content))). }
  destruct (str_in (str_lower t) [u "excel"; u "xlsx"; u "xls"]).
  { exact (Hwriter (u "Error writing to Excel file: ") _
             (writes_only_library filepath (excel_write pf content (u "Sheet1")))). }
  left. reflexivity.
Qed.

(** X17: what [duplicate] does to the disk. A run leaves every file as
    it was, or it ends well and has added one file, at the output path,
    where there was none: no run changes or removes a file that was
    there, the input included. *)
Theorem duplicate_adds_at_most_one_file (file_path : str) (output_path : option str)
    (w : world) :
  let run := duplicate pf file_path output_path w in
  (files (snd run) = files w
   \/ exists p bs,
        fst run = Ok tt
        /\ files w !! p = None
        /\ files (snd run) = <[p := bs]> (files w)
        /\ (forall given, output_path = Some given -> p = given))
  /\ (forall q old, files w !! q = Some old -> files (snd run) !! q = Some old).
Proof.
  intros run.
  assert (H : files (snd run) = files w
              \/ exists p bs,
                   fst run = Ok tt
                   /\ files w !! p = None
                   /\ files (snd run) = <[p := bs]> (files w)
                   /\ (forall given, output_path = Some given -> p = given)).
  { unfold run. rewrite duplicate_unfold.
    pose proof (keeps_read pf file_path None w) as Hread.
    destruct (read pf file_path None w) as [[content|e] w1]; cbn [snd] in Hread;
      [|left; exact Hread].
    pose proof (keeps_process_sentences pf (split_sentences (py_str pf content)) [] w1)
      as Hloop.
    destruct (process_sentences pf [] _ w1) as [[record|e] w2]; cbn [snd] in Hloop;
      [|left; cbn [snd]; congruence].
    pose proof (write_files (PStr (render pf record))
                  (chosen_output_path pf file_path output_path w2) None w2) as Hw.
    cbv zeta in Hw.
    destruct (write pf _ _ None false w2) as [[r|e] w3]; cbn [fst snd raised] in *.
    - destruct Hw as [Hw | (_ & Hfree & bs & Hw)]; [left; congruence|].
      right. exists (chosen_output_path pf file_path output_path w2), bs.
      split; [reflexivity|]. split; [congruence|]. split; [congruence|].
      intros given ->. reflexivity.
    - destruct Hw as [Hw | (Hok & _)]; [left; congruence|discriminate]. }
  split; [exact H|].
  intros q old Hq. destruct H as [-> | (p & bs & _ & Hfree & -> & _)]; [exact Hq|].
  rewrite lookup_insert_ne; [exact Hq|]. intros ->. congruence.
Qed.

(** X18: the run that ends well. When the document is read, every
    sentence is answered, the output path ends in .md or .markdown and
    is free, and the report holds no lone surrogate, [duplicate] returns
    after writing the report, utf-8 coded, to the output path: the one
    change to the disk. Read back, the report is the text that was
    rendered, unless it holds a carriage return. *)
Theorem duplicate_writes_report (file_path : str) (output_path : option str)
    (w w1 w2 : world) (content : pyval) (record : list (str * list (pyval * pyval))) :
  read pf file_path None w = (Ok content, w1) ->
  process_sentences pf [] (split_sentences (py_str pf content)) w1 = (Ok record, w2) ->
  let p := chosen_output_path pf file_path output_path w2 in
  endswith p (u ".md") || endswith p (u ".markdown") = true ->
  files w !! p = None ->
  Forall (fun c => scalar_value c = true) (render pf record) ->
  os_linesep pf = [LF] \/ os_linesep pf = [CR; LF] ->
  exists bs,
    let w3 := with_file w2 p bs in
    duplicate pf file_path output_path w = (Ok tt, w3)
    /\ utf8_decode bs = Some (translate_newlines (os_linesep pf) (render pf record))
    /\ files w3 = <[p := bs]> (files w)
    /\ (CR ∉ render pf record -> read_markdown pf p w3 = (Ok (render pf record), w3)).
Proof.
  intros Hread Hloop p Hext Hfree Hscalar Hsep.
  pose proof (keeps_read pf file_path None w) as Hk1. rewrite Hread in Hk1.
  pose proof (keeps_process_sentences pf (split_sentences (py_str pf content)) [] w1)
    as Hk2. rewrite Hloop in Hk2. cbn [snd] in Hk1, Hk2.
  assert (Hfree2 : files w2 !! p = None) by congruence.
  destruct (markdown_written pf (render pf record) p false w2 Hsep Hscalar
              (or_intror Hfree2)) as (bs & Hd & Hwrite & Hback & _).
  exists bs. intros w3. split; [|split; [exact Hd|split]].
  - rewrite duplicate_unfold, Hread, Hloop. fold p.
    unfold write, bind at 1, lift, file_type_of. rewrite Hext.
    transitivity (match write_markdown pf (render pf record) p false w2 with
                  | (Ok _, w3) => (Ok tt, w3)
                  | (Raise e, w3) => (Raise e, w3)
                  end); [reflexivity|].
    rewrite Hwrite. reflexivity.
  - unfold w3, with_file. cbn [files]. congruence.
  - exact Hback.
Qed.

End DiskMore.

(** ** A document without a sentence *)

Lemma lstrip_spaces (s : str) :
  Forall (fun c => isspace c = true) s -> lstrip s = [].
Proof. induction 1 as [|c s Hc _ IH]; simpl; [reflexivity|]. rewrite Hc. exact IH. Qed.

Lemma strip_nil_iff (s : str) :
  strip s = [] <-> Forall (fun c => isspace c = true) s.
Proof.
  split.
  - intros H. destruct (strip_spec s) as (pre & post & Hs & Hpre & Hpost & _).
    rewrite Hs, H. apply Forall_app. split; assumption.
  - intros H. unfold strip. rewrite (lstrip_spaces s H). reflexivity.
Qed.

Lemma no_sentence_from (text piece : str) :
  flat_map (fun sentence =>
              if negb (str_eqb (strip sentence) []) then [strip sentence] else [])
    (re_split_from piece text) = []
  <-> Forall (fun c => isspace c = true) piece
      /\ Forall (fun c => blank c = true) text.
Proof.
  revert piece. induction text as [|c text IH]; intros piece; cbn [re_split_from].
  - cbn [flat_map]. rewrite app_nil_r, str_eqb_nil.
    destruct (strip (rev piece)) as [|x r] eqn:E.
    + apply strip_nil_iff in E. apply Forall_rev in E. rewrite rev_involutive in E.
      split; [intros _; split; [exact E|constructor]|reflexivity].
    + split; [discriminate|]. intros [H _]. apply Forall_rev, strip_nil_iff in H.
      congruence.
  - unfold blank at 1. destruct (is_delimiter c) eqn:Hc.
    + cbn [flat_map]. rewrite str_eqb_nil.
      destruct (strip (rev piece)) as [|x r] eqn:E; cbn [app negb].
      * apply strip_nil_iff in E. apply Forall_rev in E. rewrite rev_involutive in E.
        rewrite IH. split.
        -- intros [_ H]. split; [exact E|]. constructor; [|exact H].
           unfold blank. rewrite Hc. reflexivity.
        -- intros [_ H]. inversion H; subst. split; [constructor|assumption].
      * split; [discriminate|]. intros [H _]. apply Forall_rev, strip_nil_iff in H.
        congruence.
    + rewrite IH. split.
      * intros [H1 H2]. inversion H1; subst. split; [assumption|].
        constructor; [|exact H2]. unfold blank. rewrite Hc. assumption.
      * intros [H1 H2]. inversion H2 as [|? ? Hb Hrest]; subst.
        unfold blank in Hb. rewrite Hc in Hb.
        split; [constructor; assumption|exact Hrest].
Qed.

Lemma no_sentence_iff (text : str) :
  split_sentences text = [] <-> Forall (fun c => blank c = true) text.
Proof.
  unfold split_sentences, re_split. rewrite no_sentence_from.
  split; [intros [_ H]; exact H|intros H; split; [constructor|exact H]].
Qed.

Section BlankMore.

Variable pf : Platform.

(** X19: a document without a sentence. The splitter returns no
    sentence exactly for a text of delimiters and white space; for such
    a document [duplicate] builds no client and sends no request, so it
    needs no configuration, and goes on to write the report, which is
    the header alone. *)
Theorem blank_document (file_path : str) (output_path : option str) (w w1 : world)
    (content : pyval) :
  read pf file_path None w = (Ok content, w1) ->
  Forall (fun c => blank c = true) (py_str pf content) ->
  (forall text, split_sentences text = [] <-> Forall (fun c => blank c = true) text)
  /\ process_sentences pf [] (split_sentences (py_str pf content)) w1 = (Ok [], w1)
  /\ duplicate pf file_path output_path w
     = match write pf (PStr (u "# 重复内容检测结果" ++ [LF; LF]))
               (chosen_output_path pf file_path output_path w1) None false w1 with
       | (Ok _, w3) => (Ok tt, w3)
       | (Raise e, w3) => (Raise e, w3)
       end.
Proof.
  intros Hread Hblank. apply no_sentence_iff in Hblank.
  split; [exact no_sentence_iff|]. split; [rewrite Hblank; reflexivity|].
  rewrite duplicate_unfold, Hread, Hblank. reflexivity.
Qed.

End BlankMore.

(** ** Uploads and downloads *)

Section EndpointsMore.

Variable pf : Platform.
Variable url_unquote : str -> str.

Lemma duplicate_unknown_type (file_path : str) (output_path : option str) (w : world) :
  raised (file_type_of file_path None) = true ->
  duplicate pf file_path output_path w = (Raise cannot_determine, w).
Proof.
  intros H. rewrite duplicate_unfold. unfold read, bind, lift.
  destruct (file_type_of file_path None) as [t|e] eqn:E; [discriminate|].
  unfold file_type_of in E.
  destruct (endswith file_path (u ".md") || endswith file_path (u ".markdown"));
    [discriminate|].
  destruct (endswith file_path (u ".docx")); [discriminate|].
  destruct (endswith file_path (u ".csv")); [discriminate|].
  destruct (endswith file_path (u ".xlsx") || endswith file_path (u ".xls"));
    [discriminate|].
  injection E as <-. reflexivity.
Qed.

(** X20: an upload whose temporary file has no extension the reader
    knows (a name without extension, no name, .txt, .pdf ...) is turned
    down by both endpoints with status 500 and the reader's message; the
    temporary file is removed, and so is the file at the output path the
    caller gave, if there is one, though the run never wrote to it. *)
Theorem upload_of_unknown_type (upload : UploadFile) (output_path : option str)
    (w : world) :
  let tmp := upload_tmp_path pf upload w in
  let w1 := with_file w tmp (file upload) in
  let rop := chosen_output_path pf tmp output_path w1 in
  raised (file_type_of tmp None) = true ->
  forall served,
    served = check_duplicate_content_sync pf upload output_path w
    \/ served = check_duplicate_content_async pf upload output_path w ->
    fst served
    = Raise (HTTPException 500
               (u "Error processing file: Unable to determine file type from extension. Please specify file_type."))
    /\ files (snd served)
       = if supplied output_path then delete rop (delete tmp (files w))
         else delete tmp (files w).
Proof.
  intros tmp w1 rop Htype served Hserved.
  assert (Hs : served = check_duplicate_content_sync pf upload output_path w).
  { destruct Hserved as [-> | ->]; reflexivity. }
  rewrite Hs. pose proof (endpoint_sync_spec pf upload output_path w) as H.
  cbv zeta in H. fold tmp w1 rop in H.
  rewrite (duplicate_unknown_type tmp (Some rop) w1 Htype) in H. exact H.
Qed.

Lemma write_markdown_leaves_a_file (content filepath : str) (w : world) :
  files (snd (write_markdown pf content filepath false w)) !! filepath <> None.
Proof.
  destruct (files w !! filepath) as [old|] eqn:E.
  - rewrite (proj2 (write_markdown_existing pf content filepath w old E)).
    cbn [snd files with_line]. congruence.
  - unfold write_markdown, returning_False, try_except, write_markdown_try.
    unfold bind at 1. rewrite (overwrite_gate_free pf _ false _ E).
    unfold bind, open_write_text, write_file, raise, ret, print.
    destruct (utf8_encode _); unfold bind; cbn [snd files with_line with_file];
      rewrite lookup_insert_eq; discriminate.
Qed.

Lemma duplicate_leaves_a_file (file_path out : str) (w : world) :
  endswith out (u ".md") || endswith out (u ".markdown") = true ->
  raised (fst (duplicate pf file_path (Some out) w)) = false ->
  files (snd (duplicate pf file_path (Some out) w)) !! out <> None.
Proof.
  intros Hext. rewrite duplicate_unfold.
  destruct (read pf file_path None w) as [[content|e] w1]; [|discriminate].
  destruct (process_sentences pf [] _ w1) as [[record|e] w2]; [|discriminate].
  cbn [chosen_output_path].
  assert (Hw : write pf (PStr (render pf record)) out None false w2
               = write_markdown pf (render pf record) out false w2).
  { unfold write, bind, lift, file_type_of. rewrite Hext. reflexivity. }
  rewrite Hw.
  pose proof (write_markdown_leaves_a_file (render pf record) out w2) as Hfile.
  destruct (write_markdown pf (render pf record) out false w2) as [[r|e] w3];
    [|discriminate].
  intros _. exact Hfile.
Qed.

(** X21: from a check to the download. When an endpoint answers, its
    answer names the output path and a URL that ends in the quoted path;
    if the path ends in .md or .markdown and is not that of the temporary
    file, and unquoting undoes the quoting, [download_result] called with
    the quoted path finds the file (no 404) and names it by the path and
    its base name, as text/markdown. The download changes nothing: the
    file stays where it is. (How the framework routes the URL to the
    handler is not part of this.) *)
Theorem download_after_check (upload : UploadFile) (output_path : option str)
    (w : world) :
  let tmp := upload_tmp_path pf upload w in
  let w1 := with_file w tmp (file upload) in
  let rop := chosen_output_path pf tmp output_path w1 in
  let served := check_duplicate_content_sync pf upload output_path w in
  raised (fst served) = false ->
  endswith rop (u ".md") || endswith rop (u ".markdown") = true ->
  rop <> tmp ->
  url_unquote (url_quote pf rop) = rop ->
  fst served
  = Ok {| message := u "Duplicate content check completed successfully";
          output_path := rop;
          download_url := download_prefix ++ url_quote pf rop |}
  /\ download_result pf url_unquote (url_quote pf rop) (snd served)
     = (Ok {| FileResponse.path := rop;
              FileResponse.filename := os_path_basename pf rop;
              FileResponse.media_type := u "text/markdown" |},
        snd served).
Proof.
  intros tmp w1 rop served Hok Hext Hne Hquote.
  pose proof (endpoint_sync_spec pf upload output_path w) as H.
  cbv zeta in H. fold tmp w1 rop served in H.
  pose proof (duplicate_leaves_a_file tmp rop w1 Hext) as Hfile.
  destruct (fst (duplicate pf tmp (Some rop) w1)) as [[]|e].
  - destruct H as [Hserved Hfiles]. split; [exact Hserved|].
    unfold download_result, bind, os_path_exists, path_exists. rewrite Hquote, Hfiles.
    rewrite lookup_delete_ne by (intros Heq; apply Hne; symmetry; exact Heq).
    destruct (files (snd (duplicate pf tmp (Some rop) w1)) !! rop) eqn:E;
      [reflexivity|]. exfalso. apply Hfile; reflexivity.
  - destruct H as [Hserved _]. rewrite Hserved in Hok. discriminate.
Qed.

End EndpointsMore.

(** ** From the environment to the request *)

Section ConfigurationMore.

Variable pf : Platform.

Lemma configured_client (key usr : str) :
  os_getenv pf (u "DIFY_API_KEY") = Some key -> key <> [] ->
  os_getenv pf (u "DIFY_USER") = Some usr -> usr <> [] ->
  os_getenv pf (u "DIFY_BASE_URL") <> Some [] ->
  DifyAPIClient_init pf (DIFY_CONFIG pf)
  = Ok {| base_url :=
            PStr (default (u "https://api.dify.ai") (os_getenv pf (u "DIFY_BASE_URL")));
          api_key := PStr key;
          user := PStr usr;
          headers := [ (u "Authorization", u "Bearer " ++ key);
                       (u "Content-Type", u "application/json") ] |}.
Proof.
  intros Hkey Hk Husr Hu Hurl.
  unfold DifyAPIClient_init, DIFY_CONFIG, getenv_or_None. rewrite Hkey, Husr.
  destruct (os_getenv pf (u "DIFY_BASE_URL")) as [[|c url]|]; [contradiction| |];
    destruct key as [|k0 key]; try contradiction;
    destruct usr as [|u0 usr]; try contradiction; reflexivity.
Qed.

(** X22: from the environment to the wire. With DIFY_API_KEY and
    DIFY_USER set and not empty, every request of a run goes to
    <DIFY_BASE_URL>/v1/workflows/run (https://api.dify.ai when the
    variable is unset), with the headers Authorization: Bearer <key> and
    Content-Type: application/json, and the payload inputs = {content:
    the sentence}, response_mode = blocking, user = <DIFY_USER>; the
    requests follow the order of the sentences. *)
Theorem requests_carry_configuration (sentences : list str)
    (record : list (str * list (pyval * pyval))) (w : world) (key usr : str) :
  os_getenv pf (u "DIFY_API_KEY") = Some key -> key <> [] ->
  os_getenv pf (u "DIFY_USER") = Some usr -> usr <> [] ->
  os_getenv pf (u "DIFY_BASE_URL") <> Some [] ->
  let base := default (u "https://api.dify.ai") (os_getenv pf (u "DIFY_BASE_URL")) in
  exists k,
    (k <= length sentences)%nat
    /\ sent (snd (process_sentences pf record sentences w))
       = sent w ++ map (configured_request base key usr) (take k sentences).
Proof.
  intros Hkey Hk Husr Hu Hurl base.
  pose proof (configured_client key usr Hkey Hk Husr Hu Hurl) as Hc.
  destruct (loop_requests pf sentences record w _ Hc) as (k & Hle & Hw & _).
  exists k. split; [exact Hle|]. rewrite Hw. reflexivity.
Qed.

End ConfigurationMore.

(** * More runs on the platform of the examples *)

(** Two sentences, two requests, in the order of the document. *)
Lemma one_request_per_sentence_witness :
  let run := process_sentences (serving (u "one-match")) [] [u "甲"; u "乙"] (disk []) in
  sent (snd run)
  = map (fun sentence =>
           {| req_url := u "https://api.dify.ai/v1/workflows/run";
              req_json :=
                PDict [ (u "inputs", PDict [(u "content", PStr sentence)]);
                        (u "response_mode", PStr (u "blocking"));
                        (u "user", PStr (u "tester")) ];
              req_headers := [ (u "Authorization", u "Bearer app-demo");
                               (u "Content-Type", u "application/json") ] |})
      [u "甲"; u "乙"].
Proof.
  intros run.
  destruct (one_request_per_sentence (serving (u "one-match")) [u "甲"; u "乙"] []
              (disk []) demo_client eq_refl) as (k & _ & Hw & Hok & _).
  fold run in Hw, Hok. rewrite Hw, (Hok eq_refl). reflexivity.
Defined.

(** The answer with one match, for a sentence the record already holds *)
Lemma matches_recorded_in_order_witness :
  exists record',
    record_result [(u "甲", [(PStr (u "old"), PInt 1)]); (u "乙", [(PStr (u "Y"), PInt 2)])]
      (u "甲") (Blocking one_match) = Ok record'
    /\ assoc (u "甲") record' = Some [(PStr (u "X"), PFloat (u "0.9"))]
    /\ assoc (u "乙") record' = Some [(PStr (u "Y"), PInt 2)]
    /\ map fst record' = [u "甲"; u "乙"].
Proof.
  destruct (matches_recorded_in_order
              [(u "甲", [(PStr (u "old"), PInt 1)]); (u "乙", [(PStr (u "Y"), PInt 2)])]
              (u "甲") _ _ _ _ [(PStr (u "X"), PFloat (u "0.9"))]
              (eq_refl : assoc (u "data")
                           match one_match with PDict d => d | _ => [] end = _)
              eq_refl eq_refl ltac:(discriminate)
              ltac:(constructor; [reflexivity|constructor]))
    as (record' & Hrun & Hnew & Hothers & Hkeys).
  exists record'. split; [exact Hrun|]. split; [exact Hnew|]. split.
  - rewrite Hothers by discriminate. reflexivity.
  - rewrite Hkeys. reflexivity.
Defined.

(** A second item without "metadata" *)
Lemma malformed_match_aborts_witness :
  record_result [] (u "甲")
    (Blocking (PDict [ (u "data", PDict [ (u "outputs", PDict [ (u "result",
       PList [ PDict [ (u "content", PStr (u "X"));
                       (u "metadata", PDict [(u "score", PInt 1)]) ];
               PDict [ (u "content", PStr (u "Y")) ];
               PNone ]) ]) ]) ]))
  = Raise (KeyError (PStr (u "metadata"))).
Proof.
  pose (good := [ PDict [ (u "content", PStr (u "X"));
                          (u "metadata", PDict [(u "score", PInt 1)]) ] ]).
  pose (bad := PDict [ (u "content", PStr (u "Y")) ]).
  pose (outputs := [ (u "result", PList (good ++ bad :: [PNone])) ]).
  pose (data := [ (u "outputs", PDict outputs) ]).
  refine (proj1 (malformed_match_aborts [] (u "甲") [ (u "data", PDict data) ]
            data outputs good [PNone] bad (KeyError (PStr (u "metadata")))
            eq_refl eq_refl eq_refl _ eq_refl)).
  constructor; [reflexivity|constructor].
Defined.

(** A [result] that is a text *)
Lemma result_of_another_type_witness :
  record_result [] (u "甲")
    (Blocking (PDict [ (u "data", PDict [ (u "outputs",
       PDict [ (u "result", PStr (u "no")) ]) ]) ]))
  = Raise (TypeErrorOn (PStr (u "n"))).
Proof.
  pose (outputs := [ (u "result", PStr (u "no")) ]).
  pose (data := [ (u "outputs", PDict outputs) ]).
  refine (proj1 (proj2 (proj2 (result_of_another_type [] (u "甲")
            [ (u "data", PDict data) ] data outputs (PStr (u "no"))
            eq_refl eq_refl eq_refl))) 110%N (u "o") eq_refl).
Defined.

(** A sentence that comes twice has one entry. *)
Lemma record_is_well_formed_witness :
  let pf := serving (u "one-match") in
  let run := process_sentences pf [] [u "甲"; u "乙"; u "甲"] (disk []) in
  exists record, fst run = Ok record /\ NoDup (map fst record).
Proof.
  intros pf run.
  exists [ (u "甲", [(PStr (u "X"), PFloat (u "0.9"))]);
           (u "乙", [(PStr (u "X"), PFloat (u "0.9"))]) ].
  split; [reflexivity|].
  refine (proj1 (record_is_well_formed pf [u "甲"; u "乙"; u "甲"] _ (disk []) (snd run) _)).
  reflexivity.
Defined.

Lemma api_key_unset_witness :
  process_sentences without_api_key [] [u "甲"] (disk [])
  = (Raise (ValueError (u "api_key is required in config but not provided")), disk []).
Proof.
  refine (proj1 (proj2 (api_key_unset without_api_key [] (disk []) eq_refl _))
            (u "甲") []).
  discriminate.
Defined.

(** The server answers 500: the first request is the last. *)
Lemma failed_request_aborts_run_witness :
  process_sentences failing [] [u "甲"; u "乙"] (disk [])
  = (Raise (Exception (u "Error: 500 - oops")),
     after_request (disk []) (sentence_request failing demo_client (u "甲"))).
Proof.
  refine (proj1 (proj2 (failed_request_aborts_run failing [] (u "甲") [u "乙"]
            [] [] (disk []) (disk []) demo_client eq_refl eq_refl))
            {| status_code := 500; text := u "oops"; iter_lines := [] |} eq_refl _).
  discriminate.
Defined.

(** No file at "in.md" *)
Lemma missing_input_file_witness :
  read_markdown (serving (u "one-match")) (u "in.md") (disk [])
  = (Raise (FileNotFoundError (u "File in.md does not exist")),
     with_line (disk []) (u "Error reading Markdown file: File in.md does not exist")).
Proof.
  exact (proj1 (missing_input_file (serving (u "one-match")) (u "in.md") None (disk [])
                  eq_refl)).
Defined.

(** "in.md" holds the byte ff. *)
Lemma undecodable_markdown_file_witness :
  duplicate (serving (u "one-match")) (u "in.md") None (disk [(u "in.md", [xff])])
  = (Raise UnicodeDecodeError,
     with_line (disk [(u "in.md", [xff])]) (u "Error reading Markdown file: error")).
Proof.
  exact (proj2 (undecodable_markdown_file (serving (u "one-match")) (u "in.md") None
                  (disk [(u "in.md", [xff])]) [xff] eq_refl eq_refl) eq_refl).
Defined.

(** Two lines written to a free path and read back *)
Lemma markdown_round_trip_witness :
  let pf := serving (u "one-match") in
  let content := u "# 甲" ++ [LF] ++ u "乙" in
  exists bs,
    write_markdown pf content (u "out.md") false (disk [])
    = (Ok true, with_file (disk []) (u "out.md") bs)
    /\ read_markdown pf (u "out.md") (with_file (disk []) (u "out.md") bs)
       = (Ok content, with_file (disk []) (u "out.md") bs).
Proof.
  intros pf content.
  destruct (markdown_round_trip pf content (u "out.md") false (disk []))
    as (bs & _ & Hwrite & Hread & _).
  - left. reflexivity.
  - apply scalar_text. reflexivity.
  - right. reflexivity.
  - exists bs. split; [exact Hwrite|]. apply Hread.
    intros Hcr. vm_compute in Hcr.
    repeat (apply elem_of_cons in Hcr as [Hcr|Hcr]; [discriminate|]).
    apply elem_of_nil in Hcr. exact Hcr.
Defined.

(** One sentence with one match: the report is written to "out.md". *)
Lemma duplicate_writes_report_witness :
  let pf := serving (u "one-match") in
  let w := disk [(u "in.md", b "甲")] in
  exists w3,
    duplicate pf (u "in.md") (Some (u "out.md")) w = (Ok tt, w3)
    /\ file_text w3 (u "out.md")
       = Some (render pf [(u "甲", [(PStr (u "X"), PFloat (u "0.9"))])]).
Proof.
  intros pf w.
  destruct (duplicate_writes_report pf (u "in.md") (Some (u "out.md")) w w
              (after_request w (sentence_request pf demo_client (u "甲")))
              (PStr (u "甲")) [(u "甲", [(PStr (u "X"), PFloat (u "0.9"))])])
    as (bs & Hrun & Hd & _ & _).
  - reflexivity.
  - reflexivity.
  - reflexivity.
  - reflexivity.
  - apply scalar_text. vm_compute. reflexivity.
  - left. reflexivity.
  - eexists. split; [exact Hrun|].
    unfold file_text, with_file. cbn [files]. rewrite lookup_insert_eq, Hd.
    rewrite translate_newlines_LF. reflexivity.
Defined.

(** A document of white space and delimiters, and no API key *)
Lemma blank_document_witness :
  let w := disk [(u "in.md", b " ，。")] in
  exists w3,
    duplicate without_api_key (u "in.md") (Some (u "out.md")) w = (Ok tt, w3)
    /\ sent w3 = []
    /\ file_text w3 (u "out.md") = Some (u "# 重复内容检测结果" ++ [LF; LF]).
Proof.
  intros w.
  destruct (blank_document without_api_key (u "in.md") (Some (u "out.md")) w w
              (PStr (u " ，。"))) as (_ & _ & Hrun).
  - reflexivity.
  - repeat constructor.
  - eexists. split; [rewrite Hrun; reflexivity|]. split; reflexivity.
Defined.

(** An upload without a name *)
Lemma upload_of_unknown_type_witness :
  fst (check_duplicate_content_async (serving (u "one-match"))
         {| filename := None; file := b "甲" |} None (disk []))
  = Raise (HTTPException 500
             (u "Error processing file: Unable to determine file type from extension. Please specify file_type.")).
Proof.
  refine (proj1 (upload_of_unknown_type (serving (u "one-match"))
                   {| filename := None; file := b "甲" |} None (disk []) eq_refl
                   _ (or_intror eq_refl))).
Defined.

(** An upload named "doc.md": the check answers, the download finds the
    report. *)
Lemma download_after_check_witness :
  let pf := serving (u "one-match") in
  let served :=
    check_duplicate_content_sync pf {| filename := Some (u "doc.md"); file := b "甲" |}
      None (disk []) in
  download_result pf (fun s => s) (u "/tmp/tmpupload_20240101_000000.md") (snd served)
  = (Ok {| FileResponse.path := u "/tmp/tmpupload_20240101_000000.md";
           FileResponse.filename := u "tmpupload_20240101_000000.md";
           FileResponse.media_type := u "text/markdown" |},
     snd served).
Proof.
  intros pf served.
  refine (proj2 (download_after_check pf (fun s => s)
                   {| filename := Some (u "doc.md"); file := b "甲" |} None (disk [])
                   _ _ _ _)).
  - reflexivity.
  - reflexivity.
  - intros H. vm_compute in H. discriminate.
  - reflexivity.
Defined.

(** The environment of the examples: key "app-demo", user "tester" *)
Lemma requests_carry_configuration_witness :
  exists k,
    (k <= 2)%nat
    /\ sent (snd (process_sentences (serving (u "one-match")) [] [u "甲"; u "乙"]
                    (disk [])))
       = map (configured_request (u "https://api.dify.ai") (u "app-demo") (u "tester"))
           (take k [u "甲"; u "乙"]).
Proof.
  refine (requests_carry_configuration (serving (u "one-match")) [u "甲"; u "乙"] []
            (disk []) (u "app-demo") (u "tester") eq_refl _ eq_refl _ _);
    discriminate.
Defined.
